(** * Winfigy front end: the document-analysis job pipeline

    A shallow embedding of the parts of [src/App.js] that carry the
    submission sequence (validate, upload, register, trigger) and the live
    projection of the job list, followed by the properties of the
    specification stated over that embedding.

    Conventions.
    - A JavaScript value that may be [undefined] or [null] is an [option].
    - Truthiness is written out: a string is truthy when it is not empty, an
      object or an array is truthy whenever it is present.
    - An [async] handler is a computation over the React state that records
      every outward effect ([alert], upload, mutation, [fetch], ...) in a
      trace, in program order; what the outside world answers is supplied by
      an environment of three functions.
    - A [catch] block receives whatever was thrown, [undefined] and [null]
      included, and may throw itself; a [finally] block runs in every case.
    - The draft query is kept as a list of UTF-16 code units because
      [String.prototype.trim] inspects code units; every other string is
      only compared or concatenated and is a [string]. *)

From Stdlib Require Import String Ascii List Bool NArith ZArith QArith Qround Qabs.
From Stdlib Require Import Lia DecimalString Sorted.
Import ListNotations.

Local Open Scope string_scope.

(** ** JavaScript odds and ends *)

Module Js.

(** [ToBoolean] on a string. *)
Definition truthy (s : string) : bool :=
  match s with
  | EmptyString => false
  | String _ _ => true
  end.

(** [x || d] where [x] is a string or [undefined]. *)
Definition or_else (x : option string) (d : string) : string :=
  match x with
  | Some s => if truthy s then s else d
  | None => d
  end.

(** [x || y] where both sides are strings or [undefined]. *)
Definition first_truthy (x y : option string) : option string :=
  match x with
  | Some s => if truthy s then Some s else y
  | None => y
  end.

(** The string itself when it is present and truthy. *)
Definition truthy_opt (x : option string) : option string :=
  match x with
  | Some s => if truthy s then Some s else None
  | None => None
  end.

(** Optional chaining [o?.f]. *)
Definition chain {A B} (o : option A) (f : A -> option B) : option B :=
  match o with
  | Some a => f a
  | None => None
  end.

(** [present o]: an object- or array-valued [o] is truthy. *)
Definition present {A} (o : option A) : bool :=
  match o with
  | Some _ => true
  | None => false
  end.

(** A non-negative integer inside a template literal. *)
Definition decimal (n : N) : string :=
  NilZero.string_of_uint (N.to_uint n).

(** The line feed of ["\n"]. *)
Definition nl : string := String (ascii_of_nat 10) EmptyString.

(** A string or [undefined] inside a template literal. *)
Definition interpolate (x : option string) : string :=
  match x with
  | Some s => s
  | None => "undefined"
  end.

Fixpoint zeros (k : nat) : string :=
  match k with
  | O => EmptyString
  | S k' => String "0" (zeros k')
  end.

(** Left padding with zeros up to [width] characters. *)
Definition pad_left (width : nat) (s : string) : string :=
  zeros (width - String.length s) ++ s.

(** [Number.prototype.toFixed(f)] on an exactly known value [x]: take the
    integer [n] closest to [x * 10^f], the larger one on a tie, and print
    it with [f] digits after the point. *)
Definition toFixed (f : nat) (x : Q) : string :=
  let scale := N.pow 10 (N.of_nat f) in
  let n := Z.to_N (Qfloor (Qabs x * inject_Z (Z.of_N scale) + (1 # 2))) in
  let sign := if Qle_bool 0 x then EmptyString else "-" in
  let whole := decimal (N.div n scale) in
  match f with
  | O => sign ++ whole
  | S _ => sign ++ whole ++ "." ++ pad_left f (decimal (N.modulo n scale))
  end.

(** [Array.prototype.includes] on strings. *)
Definition includes (l : list string) (s : string) : bool :=
  existsb (String.eqb s) l.

(** [Array.prototype.join]. *)
Definition join (sep : string) (l : list string) : string :=
  String.concat sep l.

End Js.

(** ** File Validator ([validateFile]) *)

Module File.
(** The three fields of a browser [File] that the code reads. *)
Record t := mk { name : string; size : N; type : string }.
End File.

Module Options.
(** The [options] argument; an absent key takes its default. *)
Record t := mk { maxSizeMB : option N; allowedTypes : option (list string) }.
Definition empty : t := mk None None.
End Options.

Module Validation.
Record t := mk { valid : bool; error : option string }.
End Validation.

(** [file.size / (1024 * 1024)].  A size is an integer below 2^53 and the
    divisor is a power of two, so the double the browser computes is this
    rational exactly. *)
Definition fileSizeMB (file : File.t) : Q :=
  inject_Z (Z.of_N (File.size file)) / inject_Z (1024 * 1024).

Definition validateFile (file : option File.t) (options : Options.t)
  : Validation.t :=
  let maxSizeMB :=
    match Options.maxSizeMB options with Some m => m | None => 10%N end in
  let allowedTypes :=
    match Options.allowedTypes options with
    | Some l => l
    | None => ["application/pdf"]
    end in
  match file with
  | None => Validation.mk false (Some "No file selected")
  | Some file =>
      if negb (Qle_bool (fileSizeMB file) (inject_Z (Z.of_N maxSizeMB))) then
        Validation.mk false
          (Some ("File size exceeds " ++ Js.decimal maxSizeMB ++ "MB limit ("
                 ++ Js.toFixed 2 (fileSizeMB file) ++ "MB)"))
      else if negb (Js.includes allowedTypes (File.type file)) then
        Validation.mk false
          (Some ("File type not allowed. Accepted: "
                 ++ Js.join ", " allowedTypes))
      else Validation.mk true None
  end.

(** The configuration [handleFileChange] passes. *)
Definition appOptions : Options.t :=
  Options.mk (Some 10%N) (Some ["application/pdf"]).

(** The hundredths of a megabyte that [toFixed(2)] prints for a size in
    bytes: the size in MB times 100, rounded to the nearest integer, a tie
    going up. *)
Definition hundredths (size : N) : N :=
  ((200 * size + 1048576) / 2097152)%N.

(** ** Query text and [String.prototype.trim] *)

(** A JavaScript string seen as its UTF-16 code units. *)
Definition jsstring := list N.

(** The code units of an ASCII literal. *)
Definition units (s : string) : jsstring :=
  map N_of_ascii (list_ascii_of_string s).

(** ECMAScript [WhiteSpace] and [LineTerminator]: what [trim] removes. *)
Definition isWhiteSpace (u : N) : bool :=
  (   (9 <=? u) && (u <=? 13)            (* TAB, LF, VT, FF, CR *)
   || (u =? 32)                          (* SPACE *)
   || (u =? 160)                         (* NO-BREAK SPACE *)
   || (u =? 5760)                        (* U+1680 *)
   || (8192 <=? u) && (u <=? 8202)       (* U+2000 .. U+200A *)
   || (u =? 8232) || (u =? 8233)         (* U+2028, U+2029 *)
   || (u =? 8239)                        (* U+202F *)
   || (u =? 8287)                        (* U+205F *)
   || (u =? 12288)                       (* U+3000 *)
   || (u =? 65279))%N.                   (* U+FEFF *)

Fixpoint trimStart (s : jsstring) : jsstring :=
  match s with
  | [] => []
  | u :: rest => if isWhiteSpace u then trimStart rest else s
  end.

Definition trimEnd (s : jsstring) : jsstring :=
  rev (trimStart (rev s)).

Definition trim (s : jsstring) : jsstring :=
  trimEnd (trimStart s).

Definition DEFAULT_QUERY : jsstring :=
  units "Analyze financial trends and risks".

(** [userQuery.trim() || "Analyze financial trends and risks"]. *)
Definition finalQuery (userQuery : jsstring) : jsstring :=
  match trim userQuery with
  | [] => DEFAULT_QUERY
  | u :: rest => u :: rest
  end.

(** ** GraphQL documents and the analysis endpoint *)

Module InsertVars.
(** The variables of [InsertChat]. *)
Record t := mk { file_id : string; file_name : string; query : jsstring }.
End InsertVars.

Module InsertObject.
(** The [object] argument of [insert_chats_one]. *)
Record t := mk
  { file_id : string; file_name : string; status : string; query : jsstring }.
End InsertObject.

(** The mutation document of [App.js]: the row it asks the registry to
    create for given variables.  The status is a literal of the document. *)
Definition INSERT_CHAT (v : InsertVars.t) : InsertObject.t :=
  InsertObject.mk (InsertVars.file_id v) (InsertVars.file_name v)
                  "pending" (InsertVars.query v).

Definition RENDER_API_URL : string :=
  "https://wingify-crewai-correct-code.onrender.com/analyze".

Module AnalyzeBody.
(** The JSON body of the trigger request. *)
Record t := mk
  { chat_id : string; file_id : string; user_id : string; query : jsstring }.
End AnalyzeBody.

Module PROGRESS_MESSAGES.
Definition uploading := "Uploading file to secure storage...".
Definition queueing := "Creating analysis record...".
Definition processing := "Sending to AI agents...".
Definition completed := "Analysis queued successfully!".
Definition error := "Upload failed. Please try again.".
End PROGRESS_MESSAGES.

(** ** What the collaborators answer *)

(** What a [throw] statement or a rejected promise carries.  Any value can
    be thrown; the code reads one property of what it catches, [message], so
    a thrown value is told apart by what that read gives: an object whose
    [message] is a string (an [Error] above all), a value other than
    [undefined] and [null] that has no [message], [undefined], or [null].
    A [message] that is there is taken to be a string, as it is on every
    [Error]. *)
Inductive Thrown :=
| Error (message : string)
| Messageless
| Undefined
| Null.

(** A settled promise; a rejection carries its reason. *)
Inductive Promise (A : Type) : Type :=
| Resolved (a : A)
| Rejected (reason : Thrown).
Arguments Resolved {A} a.
Arguments Rejected {A} reason.

Module ErrorObj.
Record t := mk { message : option string }.
End ErrorObj.

Module FileMeta.
Record t := mk { id : option string }.
End FileMeta.

Module UploadResult.
(** What [upload] of [useFileUpload] resolves to, as far as it is read. *)
Record t := mk
  { isError : bool;
    error : option ErrorObj.t;
    file : option FileMeta.t;
    id : option string }.
End UploadResult.

Module InsertedRow.
Record t := mk { id : option string }.
End InsertedRow.

Module MutationData.
Record t := mk { insert_chats_one : option InsertedRow.t }.
End MutationData.

Module MutationResult.
(** What [insertChat] resolves to.  [errors] is an array when present,
    and an array is truthy even when it is empty. *)
Record t := mk
  { data : option MutationData.t; errors : option (list ErrorObj.t) }.
End MutationResult.

Module Response.
(** A [fetch] response: the [ok] flag, the status code and what
    [response.text()] settles to. *)
Record t := mk { ok : bool; status : N; text : Promise string }.
End Response.

Record Env := mkEnv
  { upload : File.t -> Promise UploadResult.t;
    insertChat : InsertVars.t -> Promise MutationResult.t;
    fetch : string -> AnalyzeBody.t -> Promise Response.t }.

(** ** Client-local state of [App] *)

Record AppState := mkState
  { isProcessing : bool;
    selectedFile : option File.t;
    userQuery : jsstring;
    uploadProgress : N;
    progressMessage : string;
    (* only the identifier: the chat itself is looked up at every render *)
    selectedChatId : option string }.

Definition initialState : AppState :=
  mkState false None [] 0 EmptyString None.

(** ** Effects and the handler monad *)

(** An effect is recorded when the call is made; what the call answers
    comes from the environment. *)
Inductive Effect :=
| Alert (msg : string)
| ConsoleError (label : string) (err : Thrown)
| Upload (file : File.t)
| Mutate (object : InsertObject.t)
| Fetch (url : string) (body : AnalyzeBody.t)
| ClearFileInput.
(* [ClearFileInput] is [input.value = null] on the file input, which the
   code does when the element is in the document; it touches the element,
   not the [selectedFile] of the state. *)

Record World := mkWorld { state : AppState; trace : list Effect }.

(** How a block ends: normally, or by throwing. *)
Inductive Completion (A : Type) : Type :=
| Normal (a : A)
| Throw (thrown : Thrown).
Arguments Normal {A} a.
Arguments Throw {A} thrown.

(** [err.message].  Reading a property of [undefined] or of [null] throws a
    [TypeError]; its text is the one V8 gives. *)
Definition messageOf (err : Thrown) : Completion (option string) :=
  match err with
  | Error message => Normal (Some message)
  | Messageless => Normal None
  | Undefined =>
      Throw (Error "Cannot read properties of undefined (reading 'message')")
  | Null =>
      Throw (Error "Cannot read properties of null (reading 'message')")
  end.

Definition M (A : Type) : Type := World -> Completion A * World.

Definition ret {A} (a : A) : M A := fun w => (Normal a, w).

Definition bind {A B} (m : M A) (k : A -> M B) : M B :=
  fun w =>
    match m w with
    | (Normal a, w') => k a w'
    | (Throw err, w') => (Throw err, w')
    end.

Definition throw {A} (err : Thrown) : M A := fun w => (Throw err, w).

(** An expression that changes nothing and may throw. *)
Definition evaluate {A} (c : Completion A) : M A := fun w => (c, w).

Definition emit (e : Effect) : M unit :=
  fun w => (Normal tt, mkWorld (state w) (trace w ++ [e])).

Definition getState : M AppState := fun w => (Normal (state w), w).

Definition setState (f : AppState -> AppState) : M unit :=
  fun w => (Normal tt, mkWorld (f (state w)) (trace w)).

(** [await p]: the value of a resolved promise, a throw for a rejected one. *)
Definition await {A} (p : Promise A) : M A :=
  match p with
  | Resolved a => ret a
  | Rejected reason => throw reason
  end.

(** [try { body } catch (err) { handler } finally { fin }].  The [catch]
    block runs on whatever the body threw and may throw itself; [fin] runs
    in every case, and the statement then ends as the [try] or the [catch]
    block did, unless [fin] throws. *)
Definition try_catch_finally (body : M unit) (handler : Thrown -> M unit)
           (fin : M unit) : M unit :=
  fun w =>
    match (match body w with
           | (Normal tt, w') => (Normal tt, w')
           | (Throw err, w') => handler err w'
           end)
    with
    | (c, w') =>
        match fin w' with
        | (Normal tt, w'') => (c, w'')
        | (Throw err, w'') => (Throw err, w'')
        end
    end.

Declare Scope handler_scope.
Delimit Scope handler_scope with handler.
Notation "x <- m ;; k" := (bind m (fun x => k))
  (at level 100, m at next level, right associativity) : handler_scope.
Notation "m ;; k" := (bind m (fun _ => k))
  (at level 100, right associativity) : handler_scope.

Definition setIsProcessing (b : bool) : M unit :=
  setState (fun s => mkState b (selectedFile s) (userQuery s)
                             (uploadProgress s) (progressMessage s)
                             (selectedChatId s)).

Definition setSelectedFile (f : option File.t) : M unit :=
  setState (fun s => mkState (isProcessing s) f (userQuery s)
                             (uploadProgress s) (progressMessage s)
                             (selectedChatId s)).

Definition setUserQuery (q : jsstring) : M unit :=
  setState (fun s => mkState (isProcessing s) (selectedFile s) q
                             (uploadProgress s) (progressMessage s)
                             (selectedChatId s)).

Definition setUploadProgress (p : N) : M unit :=
  setState (fun s => mkState (isProcessing s) (selectedFile s) (userQuery s)
                             p (progressMessage s) (selectedChatId s)).

Definition setProgressMessage (m : string) : M unit :=
  setState (fun s => mkState (isProcessing s) (selectedFile s) (userQuery s)
                             (uploadProgress s) m (selectedChatId s)).

Definition setSelectedChatId (i : option string) : M unit :=
  setState (fun s => mkState (isProcessing s) (selectedFile s) (userQuery s)
                             (uploadProgress s) (progressMessage s) i).

(** ** Event handlers of [App] *)

Local Open Scope handler_scope.

(** [handleFileChange], on the first file of the input's selection. *)
Definition handleFileChange (file : option File.t) : M unit :=
  let validation := validateFile file appOptions in
  if negb (Validation.valid validation) then
    emit (Alert (match Validation.error validation with
                 | Some msg => msg
                 | None => "null"
                 end));;
    emit ClearFileInput
  else
    setSelectedFile file;;
    setUploadProgress 0;;
    setProgressMessage EmptyString.

(** The [try] block of [handleUploadAndAnalyze], over the values its
    closure captured: the selected file, the user id and the draft query. *)
Definition submission (env : Env) (selectedFile : File.t) (userId : string)
           (userQuery : jsstring) : M unit :=
  emit (Upload selectedFile);;
  uploadResult <- await (upload env selectedFile);;
  if UploadResult.isError uploadResult
     || Js.present (UploadResult.error uploadResult)
  then
    throw (Error (Js.or_else
                    (Js.chain (UploadResult.error uploadResult)
                              ErrorObj.message)
                    "File upload failed"))
  else
    let fileId :=
      Js.first_truthy
        (Js.chain (UploadResult.file uploadResult) FileMeta.id)
        (UploadResult.id uploadResult) in
    match Js.truthy_opt fileId with
    | None => throw (Error "Failed to get file ID after upload")
    | Some fileId =>
        setUploadProgress 50;;
        setProgressMessage PROGRESS_MESSAGES.queueing;;
        let finalQuery := finalQuery userQuery in
        let variables :=
          InsertVars.mk fileId (File.name selectedFile) finalQuery in
        emit (Mutate (INSERT_CHAT variables));;
        result <- await (insertChat env variables);;
        match MutationResult.errors result with
        | Some errors =>
            throw (Error ("Database error: "
                          ++ Js.or_else
                               (Js.chain (hd_error errors) ErrorObj.message)
                               "Unknown database error"))
        | None =>
            let chatId :=
              Js.chain
                (Js.chain (MutationResult.data result)
                          MutationData.insert_chats_one)
                InsertedRow.id in
            match Js.truthy_opt chatId with
            | None => throw (Error "Failed to create analysis record")
            | Some chatId =>
                setUploadProgress 75;;
                setProgressMessage PROGRESS_MESSAGES.processing;;
                let body := AnalyzeBody.mk chatId fileId userId finalQuery in
                emit (Fetch RENDER_API_URL body);;
                response <- await (fetch env RENDER_API_URL body);;
                if negb (Response.ok response) then
                  let errorText :=
                    match Response.text response with
                    | Resolved t => t
                    | Rejected _ => "Unknown error"
                    end in
                  throw (Error ("Analysis service failed: "
                                ++ Js.decimal (Response.status response)
                                ++ " - " ++ errorText))
                else
                  setUploadProgress 100;;
                  setProgressMessage PROGRESS_MESSAGES.completed;;
                  setSelectedChatId (Some chatId);;
                  setSelectedFile None;;
                  setUserQuery [];;
                  setUploadProgress 0;;
                  setProgressMessage EmptyString
            end
        end
    end.

(** The text of the [alert] in the [catch] block, for what the template
    literal makes of [err.message]. *)
Definition errorAlert (message : string) : string :=
  "❌ Error: " ++ message ++ Js.nl ++ Js.nl
  ++ "Check browser console (F12) for details.".

Definition handleUploadAndAnalyze (env : Env) (userId : option string)
  : M unit :=
  st <- getState;;
  match selectedFile st, Js.truthy_opt userId with
  | Some file, Some uid =>
      setIsProcessing true;;
      setProgressMessage PROGRESS_MESSAGES.uploading;;
      setUploadProgress 10;;
      try_catch_finally
        (submission env file uid (userQuery st))
        (fun err =>
           emit (ConsoleError "Upload/Analysis Error:" err);;
           message <- evaluate (messageOf err);;
           emit (Alert (errorAlert (Js.interpolate message)));;
           setProgressMessage PROGRESS_MESSAGES.error)
        (setIsProcessing false;;
         emit ClearFileInput)
  | _, _ =>
      emit (Alert "Please select a file and ensure you're logged in.")
  end.

Definition handleNewAnalysis : M unit :=
  setSelectedChatId None;;
  setSelectedFile None;;
  setUserQuery [].

Local Close Scope handler_scope.

(** Running a handler from a given state with an empty trace. *)
Definition run (m : M unit) (st : AppState) : Completion unit * World :=
  m (mkWorld st []).

(** The registry writes and the trigger calls of a trace. *)
Definition registry_writes (t : list Effect) : list InsertObject.t :=
  flat_map (fun e => match e with Mutate o => [o] | _ => [] end) t.

Definition trigger_calls (t : list Effect) : list (string * AnalyzeBody.t) :=
  flat_map (fun e => match e with Fetch u b => [(u, b)] | _ => [] end) t.

Definition uploads (t : list Effect) : list File.t :=
  flat_map (fun e => match e with Upload f => [f] | _ => [] end) t.

Definition alerts (t : list Effect) : list string :=
  flat_map (fun e => match e with Alert m => [m] | _ => [] end) t.

(** ** Live Job Projector: the subscription and what [App] derives from it *)

Module Chat.
(** A row of [GetMyHistory]. *)
Record t := mk
  { id : string;
    file_name : option string;
    status : string;
    analysis_result : option string;
    created_at : string;
    file_id : string;
    user_id : string;
    query : option jsstring }.
End Chat.

Module SubData.
Record t := mk { chats : option (list Chat.t) }.
End SubData.

Module SubResult.
(** What [useSubscription] hands to the current render: the latest
    snapshot, if any, and the flags of the channel. *)
Record t := mk
  { data : option SubData.t; loading : bool; error : option string }.
End SubResult.

(** [useSubscription(GET_MY_HISTORY_SUB, { skip })]: a skipped subscription
    reports nothing. *)
Definition useSubscription (skip : bool) (channel : SubResult.t)
  : SubResult.t :=
  if skip then SubResult.mk None false None else channel.

(** [chat.user_id === userId], [userId] being [undefined] when signed out. *)
Definition ownedBy (userId : option string) (chat : Chat.t) : bool :=
  match userId with
  | Some u => String.eqb (Chat.user_id chat) u
  | None => false
  end.

(** [data?.chats?.filter(chat => chat.user_id === userId) || []]. *)
Definition myChats (data : option SubData.t) (userId : option string)
  : list Chat.t :=
  match Js.chain data SubData.chats with
  | Some chats => filter (ownedBy userId) chats
  | None => []
  end.

(** [c.id === selectedChatId], the identifier being [null] at first. *)
Definition hasId (selectedChatId : option string) (c : Chat.t) : bool :=
  match selectedChatId with
  | Some i => String.eqb (Chat.id c) i
  | None => false
  end.

(** [myChats.find(c => c.id === selectedChatId) || null]. *)
Definition selectedChat (chats : list Chat.t) (selectedChatId : option string)
  : option Chat.t :=
  find (hasId selectedChatId) chats.

(** ** Presentation, as far as it depends on a job *)

Module Badge.
Record t := mk { label : string; bg : string; color : string; border : string }.
End Badge.

(** A property read [configs[status]] on the object literal of
    [StatusBadge]: one of its four own entries, something inherited from
    [Object.prototype] (truthy, but without [label] and colours), or
    nothing. *)
Inductive ConfigLookup :=
| Own (c : Badge.t)
| Inherited
| Missing.

Definition objectPrototypeKeys : list string :=
  [ "constructor"; "__proto__"; "hasOwnProperty"; "isPrototypeOf";
    "propertyIsEnumerable"; "toLocaleString"; "toString"; "valueOf";
    "__defineGetter__"; "__defineSetter__"; "__lookupGetter__";
    "__lookupSetter__" ].

Definition configs (status : string) : ConfigLookup :=
  if String.eqb status "pending" then
    Own (Badge.mk "Pending" "#fffbeb" "#92400e" "#fde68a")
  else if String.eqb status "processing" then
    Own (Badge.mk "Processing" "#eff6ff" "#1e40af" "#bfdbfe")
  else if String.eqb status "completed" then
    Own (Badge.mk "Completed" "#f0fdf4" "#14532d" "#bbf7d0")
  else if String.eqb status "failed" then
    Own (Badge.mk "Failed" "#fef2f2" "#991b1b" "#fecaca")
  else if Js.includes objectPrototypeKeys status then Inherited
  else Missing.

(** [StatusBadge]: [configs[status] || configs.pending]; [None] stands for
    the badge without text that an inherited property gives. *)
Definition StatusBadge (status : string) : option Badge.t :=
  match configs status with
  | Own c => Some c
  | Inherited => None
  | Missing => Some (Badge.mk "Pending" "#fffbeb" "#92400e" "#fde68a")
  end.

(** The conditional blocks of [ChatWorkspace] below its header. *)
Inductive Panel :=
| ResultsPanel (analysis_result : string)
| ProgressPanel (heading : string)
| FailedPanel.

Module ChatView.
(** What [ChatWorkspace] shows for a chat: title, optional query, the
    [status] handed to [StatusBadge], and the panels. *)
Record t := mk
  { title : string;
    query : option jsstring;
    badgeStatus : string;
    panels : list Panel }.
End ChatView.

Definition ChatWorkspace (chat : Chat.t) (subLoading : bool) : ChatView.t :=
  ChatView.mk
    (Js.or_else (Chat.file_name chat) "Untitled Document")
    (match Chat.query chat with
     | Some (u :: rest) => Some (u :: rest)
     | _ => None
     end)
    (Chat.status chat)
    ((match String.eqb (Chat.status chat) "completed",
             Js.truthy_opt (Chat.analysis_result chat) with
      | true, Some r => [ResultsPanel r]
      | _, _ => []
      end)
     ++ (if String.eqb (Chat.status chat) "processing"
            || String.eqb (Chat.status chat) "pending"
         then [ProgressPanel
                 (if String.eqb (Chat.status chat) "processing"
                  then "Analysis in Progress"
                  else "Queued for Processing")]
         else [])
     ++ (if String.eqb (Chat.status chat) "failed" then [FailedPanel] else [])).

Module SidebarProps.
Record t := mk
  { myChats : list Chat.t;
    selectedChat : option Chat.t;
    subLoading : bool;
    subError : option string }.
End SidebarProps.

Module UploadProps.
(** The data props of [UploadWorkspace]. *)
Record t := mk
  { selectedFile : option File.t;
    userQuery : jsstring;
    isProcessing : bool;
    uploadProgress : N;
    progressMessage : string }.
End UploadProps.

(** The element in [<main>]. *)
Inductive MainElement :=
| ChatWorkspaceEl (chat : Chat.t) (subLoading : bool)
| UploadWorkspaceEl (props : UploadProps.t).

(** What [App] returns. *)
Inductive Screen :=
| LoadingScreen
| ResetPasswordPage
| LoginPage
| Workspace (sidebar : SidebarProps.t) (main : MainElement).

Module Auth.
Record t := mk { isAuthenticated : bool; isLoading : bool }.
End Auth.

(** One render of [App]: the hooks' values and the local state in, the
    element tree out. *)
Definition App (auth : Auth.t) (userId : option string)
           (isPasswordReset : bool) (st : AppState) (channel : SubResult.t)
  : Screen :=
  let sub := useSubscription (negb (Auth.isAuthenticated auth)) channel in
  let myChats := myChats (SubResult.data sub) userId in
  let selectedChat := selectedChat myChats (selectedChatId st) in
  if Auth.isLoading auth then LoadingScreen
  else if isPasswordReset then ResetPasswordPage
  else if negb (Auth.isAuthenticated auth) then LoginPage
  else
    Workspace
      (SidebarProps.mk myChats selectedChat
                       (SubResult.loading sub) (SubResult.error sub))
      (match selectedChat with
       | Some chat => ChatWorkspaceEl chat (SubResult.loading sub)
       | None =>
           UploadWorkspaceEl
             (UploadProps.mk (selectedFile st) (userQuery st)
                             (isProcessing st) (uploadProgress st)
                             (progressMessage st))
       end).

Module JobDisplay.
(** What a screen shows of the status of a job: the badge that
    [StatusBadge] renders and the panels under the header. *)
Record t := mk { badge : option Badge.t; panels : list Panel }.
End JobDisplay.

(** What the screen shows of the status of the selected job, if it shows a
    job: [ChatWorkspace] hands [chat.status] to [StatusBadge], which renders
    the badge, and chooses the panels by the same field. *)
Definition displayed (s : Screen) : option JobDisplay.t :=
  match s with
  | Workspace _ (ChatWorkspaceEl chat subLoading) =>
      let view := ChatWorkspace chat subLoading in
      Some (JobDisplay.mk (StatusBadge (ChatView.badgeStatus view))
                          (ChatView.panels view))
  | _ => None
  end.

(** [onSelectChat] of the sidebar: [(chat) => setSelectedChatId(chat.id)]. *)
Definition onSelectChat (chat : Chat.t) : M unit :=
  setSelectedChatId (Some (Chat.id chat)).

(** ** The stand-alone components [FileUpload.js] and [ChatHistory.js]

    Neither is imported by [index.js] or [App.js]; they are modelled so that
    the difference with the pipeline of [App] is on record. *)

Module FileUploadComponent.

Module InsertObject.
Record t := mk
  { user_id : option string;
    file_id : option string;
    file_name : string;
    status : string }.
End InsertObject.

(** The mutation document of [FileUpload.js]. *)
Definition INSERT_CHAT (userId fileId : option string) (fileName : string)
  : InsertObject.t :=
  InsertObject.mk userId fileId fileName "processing".

Module StorageResult.
Record t := mk
  { fileMetadata : option FileMeta.t; error : option ErrorObj.t }.
End StorageResult.

Inductive Effect :=
| Alert (msg : string)
| Upload (file : File.t)
| Mutate (object : InsertObject.t)
| ConsoleLog (label : string) (value : option string).

Record Env := mkEnv
  { upload : File.t -> Promise StorageResult.t;
    insertChat : InsertObject.t -> Promise unit }.

(** [handleFileChange] of [FileUpload]; nothing catches what it throws. *)
Definition handleFileChange (env : Env) (userId : option string)
           (file : option File.t) : Completion unit * list Effect :=
  match file with
  | None => (Normal tt, [])
  | Some file =>
      match upload env file with
      | Rejected reason => (Throw reason, [Upload file])
      | Resolved r =>
          match StorageResult.error r with
          | Some e =>
              (Normal tt,
               [Upload file;
                Alert ("Upload failed: "
                       ++ match ErrorObj.message e with
                          | Some m => m
                          | None => "undefined"
                          end)])
          | None =>
              match StorageResult.fileMetadata r with
              | None =>
                  (Throw
                     (Error
                        "Cannot read properties of undefined (reading 'id')"),
                   [Upload file])
              | Some meta =>
                  let object :=
                    INSERT_CHAT userId (FileMeta.id meta) (File.name file) in
                  match insertChat env object with
                  | Rejected reason =>
                      (Throw reason, [Upload file; Mutate object])
                  | Resolved _ =>
                      (Normal tt,
                       [Upload file; Mutate object;
                        ConsoleLog "File stored with ID:" (FileMeta.id meta)])
                  end
              end
          end
      end
  end.

End FileUploadComponent.

Module ChatHistoryComponent.

Module QueryResult.
Record t := mk { data : option SubData.t; loading : bool }.
End QueryResult.

Module Item.
Record t := mk
  { key : string;
    heading : option string;
    statusLine : string;
    result : option string }.
End Item.

Inductive View :=
| LoadingHistory
| History (items : list Item.t).

(** [ChatHistory]: every row of the query result is listed; the component
    applies no filter of its own, and reading [data.chats] of an absent
    [data] throws. *)
Definition ChatHistory (q : QueryResult.t) : Completion View :=
  if QueryResult.loading q then Normal LoadingHistory
  else
    match QueryResult.data q with
    | None =>
        Throw (Error "Cannot read properties of undefined (reading 'chats')")
    | Some d =>
        match SubData.chats d with
        | None =>
            Throw (Error "Cannot read properties of undefined (reading 'map')")
        | Some chats =>
            Normal
              (History
                 (map (fun chat =>
                         Item.mk (Chat.id chat) (Chat.file_name chat)
                                 ("Status: " ++ Chat.status chat)
                                 (Js.truthy_opt (Chat.analysis_result chat)))
                      chats))
        end
    end.

End ChatHistoryComponent.

(** ** The vocabulary of the specification *)

(** A step either gives a value to the next or stops the sequence with
    what it throws.  It fails with a message when what it throws is an
    [Error] with that message: every [throw] of the [try] block is one, and
    so is a rejection by an [Error]. *)
Inductive StepResult (A : Type) : Type :=
| Gives (a : A)
| Stops (thrown : Thrown).
Arguments Gives {A} a.
Arguments Stops {A} thrown.

Abbreviation Fails message := (Stops (Error message)).

(** Upload fails when the call is rejected, when the store reports an error,
    or when no file identifier comes back. *)
Definition uploadStep (p : Promise UploadResult.t) : StepResult string :=
  match p with
  | Rejected reason => Stops reason
  | Resolved r =>
      match UploadResult.isError r, UploadResult.error r with
      | false, None =>
          match UploadResult.file r with
          | Some (FileMeta.mk (Some (String a s))) => Gives (String a s)
          | _ =>
              match UploadResult.id r with
              | Some (String a s) => Gives (String a s)
              | _ => Fails "Failed to get file ID after upload"
              end
          end
      | _, Some (ErrorObj.mk (Some (String a s))) => Fails (String a s)
      | _, _ => Fails "File upload failed"
      end
  end.

(** Register fails when the call is rejected, when the mutation returns
    errors, or when no job identifier comes back. *)
Definition registerStep (p : Promise MutationResult.t) : StepResult string :=
  match p with
  | Rejected reason => Stops reason
  | Resolved r =>
      match MutationResult.errors r with
      | Some (ErrorObj.mk (Some (String a s)) :: _) =>
          Fails ("Database error: " ++ String a s)
      | Some _ => Fails "Database error: Unknown database error"
      | None =>
          match MutationResult.data r with
          | Some (MutationData.mk (Some (InsertedRow.mk (Some (String a s))))) =>
              Gives (String a s)
          | _ => Fails "Failed to create analysis record"
          end
      end
  end.

(** Trigger fails when the call is rejected or the response is not a
    success; the message of a refused call carries the status code and the
    body of the response. *)
Definition triggerStep (p : Promise Response.t) : StepResult unit :=
  match p with
  | Rejected reason => Stops reason
  | Resolved r =>
      if Response.ok r then Gives tt
      else
        Fails ("Analysis service failed: " ++ Js.decimal (Response.status r)
               ++ " - "
               ++ match Response.text r with
                  | Resolved body => body
                  | Rejected _ => "Unknown error"
                  end)
  end.

(** The variables of Register and the body of Trigger for a submission. *)
Definition registerVars (file : File.t) (userQuery : jsstring)
           (fileId : string) : InsertVars.t :=
  InsertVars.mk fileId (File.name file) (finalQuery userQuery).

Definition triggerBody (userId : string) (userQuery : jsstring)
           (fileId chatId : string) : AnalyzeBody.t :=
  AnalyzeBody.mk chatId fileId userId (finalQuery userQuery).


Definition SubmissionSucceeds (env : Env) (file : File.t) (userId : string)
           (userQuery : jsstring) (fileId chatId : string) : Prop :=
  uploadStep (upload env file) = Gives fileId
  /\ registerStep (insertChat env (registerVars file userQuery fileId))
     = Gives chatId
  /\ triggerStep (fetch env RENDER_API_URL
                        (triggerBody userId userQuery fileId chatId))
     = Gives tt.

(** The state a failed submission leaves: the draft and the selection as
    they were, the processing flag off, the progress where it stopped and
    the error message. *)
Definition afterFailure (st : AppState) (progress : N) : AppState :=
  mkState false (selectedFile st) (userQuery st) progress
          PROGRESS_MESSAGES.error (selectedChatId st).

(** [t] is [q] with the white space around it removed. *)
Definition Trimmed (q t : jsstring) : Prop :=
  exists l r,
    q = (l ++ t ++ r)%list
    /\ forallb isWhiteSpace l = true
    /\ forallb isWhiteSpace r = true
    /\ (forall u rest, t = u :: rest -> isWhiteSpace u = false)
    /\ (forall u front, t = (front ++ [u])%list -> isWhiteSpace u = false).

(** The job of a snapshot that carries a given identifier. *)
Definition jobWithId (chats : list Chat.t) (i : string) (c : Chat.t) : Prop :=
  In c chats /\ Chat.id c = i.

(** A display shows the status of a row: for each of the four statuses a
    job can have, the badge reads the name of the status and the panel under
    the header is the one of that status; a completed job shows its result
    when it has one. *)
Definition ShowsStatusOf (d : JobDisplay.t) (chat : Chat.t) : Prop :=
  (Chat.status chat = "pending" ->
   option_map Badge.label (JobDisplay.badge d) = Some "Pending"
   /\ JobDisplay.panels d = [ProgressPanel "Queued for Processing"])
  /\ (Chat.status chat = "processing" ->
      option_map Badge.label (JobDisplay.badge d) = Some "Processing"
      /\ JobDisplay.panels d = [ProgressPanel "Analysis in Progress"])
  /\ (Chat.status chat = "completed" ->
      option_map Badge.label (JobDisplay.badge d) = Some "Completed"
      /\ JobDisplay.panels d
         = match Chat.analysis_result chat with
           | Some (String a result) => [ResultsPanel (String a result)]
           | _ => []
           end)
  /\ (Chat.status chat = "failed" ->
      option_map Badge.label (JobDisplay.badge d) = Some "Failed"
      /\ JobDisplay.panels d = [FailedPanel]).

(** The snapshot a channel currently holds. *)
Definition snapshot (channel : SubResult.t) : list Chat.t :=
  match Js.chain (SubResult.data channel) SubData.chats with
  | Some chats => chats
  | None => []
  end.

(** The same local state with nothing selected. *)
Definition deselect (st : AppState) : AppState :=
  mkState (isProcessing st) (selectedFile st) (userQuery st)
          (uploadProgress st) (progressMessage st) None.

(** The least that a "not yet available" state asks of a render: the screen
    for a selection differs from the screen for no selection at all. *)
Definition ShowsNotYetAvailable (auth : Auth.t) (userId : option string)
           (isPasswordReset : bool) (st : AppState) (channel : SubResult.t)
  : Prop :=
  App auth userId isPasswordReset st channel
  <> App auth userId isPasswordReset (deselect st) channel.

(** ** The submission, step by step

    [submissionSteps] is the [try] block read as the specification reads
    it: three steps, each of which gives a value to the next or stops the
    sequence.  [submission_steps] below shows that the code is this. *)

Definition withProgress (s : AppState) (p : N) (m : string) : AppState :=
  mkState (isProcessing s) (selectedFile s) (userQuery s) p m
          (selectedChatId s).

Definition submitted (chatId : string) (s : AppState) : AppState :=
  mkState (isProcessing s) None [] 0 EmptyString (Some chatId).

Definition submissionSteps (env : Env) (file : File.t) (uid : string)
           (q : jsstring) : M unit :=
  fun w =>
    match uploadStep (upload env file) with
    | Stops err => (Throw err, mkWorld (state w) (trace w ++ [Upload file]))
    | Gives fileId =>
        let vars := registerVars file q fileId in
        match registerStep (insertChat env vars) with
        | Stops err =>
            (Throw err,
             mkWorld (withProgress (state w) 50 PROGRESS_MESSAGES.queueing)
                     (trace w ++ [Upload file; Mutate (INSERT_CHAT vars)]))
        | Gives chatId =>
            let body := triggerBody uid q fileId chatId in
            match triggerStep (fetch env RENDER_API_URL body) with
            | Stops err =>
                (Throw err,
                 mkWorld
                   (withProgress (state w) 75 PROGRESS_MESSAGES.processing)
                   (trace w ++ [Upload file; Mutate (INSERT_CHAT vars);
                                Fetch RENDER_API_URL body]))
            | Gives _ =>
                (Normal tt,
                 mkWorld (submitted chatId (state w))
                         (trace w ++ [Upload file; Mutate (INSERT_CHAT vars);
                                      Fetch RENDER_API_URL body]))
            end
        end
    end.

(** The reason of the rejection that stops a submission, when it is a
    rejected promise that stops it: the first of the three calls that is
    rejected, every step before it having given its value. *)
Definition rejection (env : Env) (file : File.t) (uid : string)
           (q : jsstring) : option Thrown :=
  match upload env file with
  | Rejected reason => Some reason
  | Resolved _ =>
      match uploadStep (upload env file) with
      | Stops _ => None
      | Gives fileId =>
          match insertChat env (registerVars file q fileId) with
          | Rejected reason => Some reason
          | Resolved _ =>
              match registerStep
                      (insertChat env (registerVars file q fileId)) with
              | Stops _ => None
              | Gives chatId =>
                  match fetch env RENDER_API_URL
                              (triggerBody uid q fileId chatId) with
                  | Rejected reason => Some reason
                  | Resolved _ => None
                  end
              end
          end
      end
  end.

(** The state a stopped submission leaves when the [catch] block throws
    before it reaches [setProgressMessage]: as [afterFailure], with the
    progress message of the step that stopped. *)
Definition afterUncaught (st : AppState) (progress : N) (message : string)
  : AppState :=
  mkState false (selectedFile st) (userQuery st) progress message
          (selectedChatId st).

(** What the [catch] and [finally] blocks make of a [try] block that threw
    [err] after the effects [t], started from [st], with the progress at
    [progress] and [message]: the error is logged; reading its [message]
    either gives the text of the alert or throws, and then the handler
    throws that; the file input is cleared in both cases. *)
Definition stopped (st : AppState) (progress : N) (message : string)
           (t : list Effect) (err : Thrown) : Completion unit * World :=
  match messageOf err with
  | Normal text =>
      (Normal tt,
       mkWorld (afterFailure st progress)
               (t ++ [ConsoleError "Upload/Analysis Error:" err;
                      Alert (errorAlert (Js.interpolate text));
                      ClearFileInput]))
  | Throw typeError =>
      (Throw typeError,
       mkWorld (afterUncaught st progress message)
               (t ++ [ConsoleError "Upload/Analysis Error:" err;
                      ClearFileInput]))
  end.

(** ** Sample data: the scenarios of the specification *)

Module Scenario.

Definition MB : N := 1024 * 1024.

(** Scenario A: a 12 MB PDF. *)
Definition bigPdf : File.t := File.mk "annual.pdf" (12 * MB) "application/pdf".

(** Scenario B: a valid 2 MB PDF. *)
Definition pdf : File.t := File.mk "report.pdf" (2 * MB) "application/pdf".

(** An oversized file that is not a PDF either. *)
Definition bigPng : File.t := File.mk "scan.png" (12 * MB) "image/png".

Definition smallPng : File.t := File.mk "scan.png" MB "image/png".

Definition uploadedAs (fileRef : string) : Promise UploadResult.t :=
  Resolved (UploadResult.mk false None None (Some fileRef)).

Definition registeredAs (jobId : string) : Promise MutationResult.t :=
  Resolved (MutationResult.mk
              (Some (MutationData.mk (Some (InsertedRow.mk (Some jobId)))))
              None).

Definition respond (ok : bool) (status : N) (body : string)
  : Promise Response.t :=
  Resolved (Response.mk ok status (Resolved body)).

(** Every step succeeds: file [f1], job [j1], HTTP 200. *)
Definition envOk : Env :=
  mkEnv (fun _ => uploadedAs "f1") (fun _ => registeredAs "j1")
        (fun _ _ => respond true 200 "{}").

(** Scenario C: upload and register succeed, the trigger answers 500. *)
Definition env500 : Env :=
  mkEnv (fun _ => uploadedAs "f1") (fun _ => registeredAs "j1")
        (fun _ _ => respond false 500 "Internal Server Error").

(** The store reports an error. *)
Definition envUploadError : Env :=
  mkEnv (fun _ => Resolved (UploadResult.mk true
                              (Some (ErrorObj.mk (Some "quota exceeded")))
                              None None))
        (fun _ => registeredAs "j1")
        (fun _ _ => respond true 200 "{}").

(** The registry answers with errors. *)
Definition envRegisterError : Env :=
  mkEnv (fun _ => uploadedAs "f1")
        (fun _ => Resolved (MutationResult.mk None
                              (Some [ErrorObj.mk (Some "permission denied")])))
        (fun _ _ => respond true 200 "{}").

(** A draft: the 2 MB PDF selected, the query left empty. *)
Definition draft : AppState :=
  mkState false (Some pdf) [] 0 EmptyString None.

(** A draft whose query is ["  risks "]. *)
Definition draftWithQuery : AppState :=
  mkState false (Some pdf) (units "  risks ") 0 EmptyString None.

Definition job (id owner status : string) (result : option string)
           (created_at : string) : Chat.t :=
  Chat.mk id (Some "report.pdf") status result created_at "f1" owner
          (Some DEFAULT_QUERY).

(** Scenario D: two successive snapshots of job [j1] of user [u1], next to
    a job of another user. *)
Definition snapshot1 : list Chat.t :=
  [ job "j2" "u2" "completed" (Some "other") "2026-02-02T10:00:00";
    job "j1" "u1" "processing" None "2026-02-01T10:00:00" ].

Definition snapshot2 : list Chat.t :=
  [ job "j2" "u2" "completed" (Some "other") "2026-02-02T10:00:00";
    job "j1" "u1" "completed" (Some "All good.") "2026-02-01T10:00:00" ].

Definition channelOf (chats : list Chat.t) : SubResult.t :=
  SubResult.mk (Some (SubData.mk (Some chats))) false None.

Definition signedIn : Auth.t := Auth.mk true false.

(** Job [j1] is selected; the local progress state says something else. *)
Definition viewing : AppState :=
  mkState true None [] 75 PROGRESS_MESSAGES.processing (Some "j1").

(** A job is selected that the snapshot does not hold yet. *)
Definition viewingNew : AppState :=
  mkState false None [] 0 EmptyString (Some "j9").

(** [created_at] descending, on ISO timestamps. *)
Definition newerFirst (a b : Chat.t) : Prop :=
  String.leb (Chat.created_at b) (Chat.created_at a) = true.

End Scenario.

(** ** The rest of the upload workspace *)

(** The click handler of the Cancel button: it clears the file input
    element and calls no state setter. *)
Definition cancelClick : M unit := emit ClearFileInput.

(** ** The sidebar *)

Module SidebarItem.
Record t := mk
  { key : string;
    isSelected : bool;
    title : string;
    query : option jsstring }.
End SidebarItem.

Module SidebarView.
Record t := mk
  { emptyNotice : bool;
    items : list SidebarItem.t;
    syncing : bool;
    errorNotice : bool }.
End SidebarView.

(** [selectedChat?.id === chat.id]. *)
Definition isSelectedItem (selected : option Chat.t) (chat : Chat.t) : bool :=
  match selected with
  | Some c => String.eqb (Chat.id c) (Chat.id chat)
  | None => false
  end.

(** [Sidebar], without the dates, which are formatted by the locale. *)
Definition Sidebar (props : SidebarProps.t) : SidebarView.t :=
  SidebarView.mk
    (Nat.eqb (length (SidebarProps.myChats props)) 0
     && negb (SidebarProps.subLoading props))
    (map (fun chat =>
            SidebarItem.mk
              (Chat.id chat)
              (isSelectedItem (SidebarProps.selectedChat props) chat)
              (Js.or_else (Chat.file_name chat) "Untitled Document")
              (match Chat.query chat with
               | Some (u :: rest) => Some (u :: rest)
               | _ => None
               end))
         (SidebarProps.myChats props))
    (SidebarProps.subLoading props)
    (Js.present (SidebarProps.subError props)).

(** ** Handlers of the sign-in and password pages

    These pages keep their own state, so their handlers run in the same
    kind of monad as those of [App], over another state and other effects. *)

Module Handler.

Definition M (S E A : Type) : Type :=
  S * list E -> Completion A * (S * list E).

Definition ret {S E A} (a : A) : M S E A := fun w => (Normal a, w).

Definition bind {S E A B} (m : M S E A) (k : A -> M S E B) : M S E B :=
  fun w =>
    match m w with
    | (Normal a, w') => k a w'
    | (Throw err, w') => (Throw err, w')
    end.

Definition throw {S E A} (err : Thrown) : M S E A := fun w => (Throw err, w).

Definition evaluate {S E A} (c : Completion A) : M S E A := fun w => (c, w).

Definition emit {S E} (e : E) : M S E unit :=
  fun w => (Normal tt, (fst w, (snd w ++ [e])%list)).

Definition get {S E} : M S E S := fun w => (Normal (fst w), w).

Definition modify {S E} (f : S -> S) : M S E unit :=
  fun w => (Normal tt, (f (fst w), snd w)).

Definition await {S E A} (p : Promise A) : M S E A :=
  match p with
  | Resolved a => ret a
  | Rejected reason => throw reason
  end.

(** [try { body } catch (err) { handler } finally { fin }], as for [App]:
    the [catch] block may throw, and [fin] runs in every case. *)
Definition try_catch_finally {S E} (body : M S E unit)
           (handler : Thrown -> M S E unit) (fin : M S E unit) : M S E unit :=
  fun w =>
    match (match body w with
           | (Normal tt, w') => (Normal tt, w')
           | (Throw err, w') => handler err w'
           end)
    with
    | (c, w') =>
        match fin w' with
        | (Normal tt, w'') => (c, w'')
        | (Throw err, w'') => (Throw err, w'')
        end
    end.

Definition run {S E} (m : M S E unit) (s : S)
  : Completion unit * (S * list E) :=
  m (s, []).

End Handler.

Declare Scope page_scope.
Delimit Scope page_scope with page.
Notation "x <- m ;; k" := (Handler.bind m (fun x => k))
  (at level 100, m at next level, right associativity) : page_scope.
Notation "m ;; k" := (Handler.bind m (fun _ => k))
  (at level 100, right associativity) : page_scope.

(** [a === b] on strings. *)
Definition jsstring_eqb (a b : jsstring) : bool :=
  if list_eq_dec N.eq_dec a b then true else false.

Module ResetPassword.

Record State := mkState
  { newPassword : jsstring;
    confirmPassword : jsstring;
    isSubmitting : bool;
    error : string;
    success : bool }.

Inductive Effect :=
| ChangePassword (newPassword : jsstring)
| ScheduleDone (delay : N).

Module ChangeResult.
Record t := mk { error : option ErrorObj.t }.
End ChangeResult.

Record Env := mkEnv
  { changePassword : jsstring -> Promise ChangeResult.t }.

Definition setError (e : string) : Handler.M State Effect unit :=
  Handler.modify (fun s => mkState (newPassword s) (confirmPassword s)
                                   (isSubmitting s) e (success s)).

Definition setIsSubmitting (b : bool) : Handler.M State Effect unit :=
  Handler.modify (fun s => mkState (newPassword s) (confirmPassword s)
                                   b (error s) (success s)).

Definition setSuccess (b : bool) : Handler.M State Effect unit :=
  Handler.modify (fun s => mkState (newPassword s) (confirmPassword s)
                                   (isSubmitting s) (error s) b).

Definition EXPIRED : string :=
  "Failed to update password. The reset link may have expired — please request a new one.".

Local Open Scope page_scope.

(** [handleSubmit] of [ResetPasswordPage]. *)
Definition handleSubmit (env : Env) : Handler.M State Effect unit :=
  st <- Handler.get;;
  setError EmptyString;;
  if Nat.ltb (length (newPassword st)) 6 then
    setError "Password must be at least 6 characters."
  else if negb (jsstring_eqb (newPassword st) (confirmPassword st)) then
    setError "Passwords do not match."
  else
    setIsSubmitting true;;
    Handler.try_catch_finally
      (Handler.emit (ChangePassword (newPassword st));;
       result <- Handler.await (changePassword env (newPassword st));;
       match ChangeResult.error result with
       | Some changeError =>
           (* [new Error(undefined)] has the empty message *)
           Handler.throw (Error (match ErrorObj.message changeError with
                                 | Some m => m
                                 | None => EmptyString
                                 end))
       | None =>
           setSuccess true;;
           Handler.emit (ScheduleDone 2500)
       end)
      (fun err =>
         message <- Handler.evaluate (messageOf err);;
         setError (Js.or_else message EXPIRED))
      (setIsSubmitting false).

Local Close Scope page_scope.

End ResetPassword.

Module Login.

(** The three values [view] ever takes. *)
Inductive View := login | signup | forgot.

Record State := mkState
  { view : View; email : jsstring; password : jsstring }.

Inductive Effect :=
| Alert (msg : string)
| ConsoleError (label : string) (err : Thrown)
| SignIn (email password : jsstring)
| SignUp (email password : jsstring)
| ResetPassword (email : jsstring)
| Confirm (msg : string)
| SignOutAll
| ClearLocalStorage
| ClearSessionStorage
| Reload.

Record Env := mkEnv
  { signInEmailPassword : jsstring -> jsstring -> Promise unit;
    signUpEmailPassword : jsstring -> jsstring -> Promise unit;
    resetPassword : jsstring -> Promise unit;
    confirm : string -> bool;
    signOutAll : Promise unit }.

Local Open Scope page_scope.

(** [handleAuth] of [LoginPage]. *)
Definition handleAuth (env : Env) : Handler.M State Effect unit :=
  st <- Handler.get;;
  match trim (email st) with
  | [] => Handler.emit (Alert "Please enter your email")
  | _ :: _ =>
      if (match view st with forgot => false | _ => true end)
         && Nat.ltb (length (password st)) 6
      then Handler.emit (Alert "Password must be 6+ characters")
      else
        Handler.try_catch_finally
          (match view st with
           | login =>
               Handler.emit (SignIn (email st) (password st));;
               Handler.await
                 (signInEmailPassword env (email st) (password st))
           | signup =>
               Handler.emit (SignUp (email st) (password st));;
               Handler.await
                 (signUpEmailPassword env (email st) (password st))
           | forgot =>
               Handler.emit (ResetPassword (email st));;
               Handler.await (resetPassword env (email st))
           end)
          (fun err => Handler.emit (ConsoleError "Auth error:" err))
          (Handler.ret tt)
  end.

(** [handleGlobalSignOut] of [LoginPage]. *)
Definition handleGlobalSignOut (env : Env) : Handler.M State Effect unit :=
  Handler.emit (Confirm "⚠️ Terminate ALL sessions?");;
  if confirm env "⚠️ Terminate ALL sessions?" then
    Handler.try_catch_finally
      (Handler.emit SignOutAll;;
       Handler.await (signOutAll env);;
       Handler.emit ClearLocalStorage;;
       Handler.emit ClearSessionStorage;;
       Handler.emit (Alert "✅ All sessions terminated");;
       Handler.emit Reload)
      (fun _ =>
         Handler.emit ClearLocalStorage;;
         Handler.emit ClearSessionStorage;;
         Handler.emit Reload)
      (Handler.ret tt)
  else Handler.ret tt.

Local Close Scope page_scope.

End Login.

(** ** The password-reset link: [URLSearchParams] on the location

    The location strings are the ASCII serialisation of the URL.  Names and
    values are kept as the bytes that percent-decoding gives; the code only
    compares them with ASCII literals, and a decoded text equals an ASCII
    literal exactly when its bytes do. *)

Module Url.

(** Splitting on a separator, empty pieces included. *)
Fixpoint splitOn (c : ascii) (s : string) : list string :=
  match s with
  | EmptyString => [EmptyString]
  | String a rest =>
      if Ascii.eqb a c then EmptyString :: splitOn c rest
      else match splitOn c rest with
           | piece :: pieces => String a piece :: pieces
           | [] => [String a EmptyString]
           end
  end.

(** The text before the first [c] and, when there is one, the text after. *)
Fixpoint cut (c : ascii) (s : string) : string * option string :=
  match s with
  | EmptyString => (EmptyString, None)
  | String a rest =>
      if Ascii.eqb a c then (EmptyString, Some rest)
      else let (name, value) := cut c rest in (String a name, value)
  end.

Fixpoint plusToSpace (s : string) : string :=
  match s with
  | EmptyString => EmptyString
  | String a rest =>
      String (if Ascii.eqb a "+" then " "%char else a) (plusToSpace rest)
  end.

Definition hexValue (a : ascii) : option N :=
  let n := N_of_ascii a in
  if ((48 <=? n) && (n <=? 57))%N then Some (n - 48)%N
  else if ((65 <=? n) && (n <=? 70))%N then Some (n - 55)%N
  else if ((97 <=? n) && (n <=? 102))%N then Some (n - 87)%N
  else None.

Fixpoint percentDecode (s : string) : string :=
  match s with
  | EmptyString => EmptyString
  | String a rest =>
      if Ascii.eqb a "%" then
        match rest with
        | String h (String l rest') =>
            match hexValue h, hexValue l with
            | Some x, Some y =>
                String (ascii_of_N (16 * x + y)%N) (percentDecode rest')
            | _, _ => String a (percentDecode rest)
            end
        | _ => String a (percentDecode rest)
        end
      else String a (percentDecode rest)
  end.

Definition decode (s : string) : string := percentDecode (plusToSpace s).

(** The [application/x-www-form-urlencoded] parser. *)
Definition parse (s : string) : list (string * string) :=
  flat_map (fun piece =>
              match piece with
              | EmptyString => []
              | String _ _ =>
                  let (name, value) := cut "=" piece in
                  [(decode name,
                    decode (match value with
                            | Some v => v
                            | None => EmptyString
                            end))]
              end)
           (splitOn "&" s).

(** [new URLSearchParams(init)] for a string: a leading [?] is dropped. *)
Definition URLSearchParams (init : string) : list (string * string) :=
  parse (match init with
         | String "?" rest => rest
         | _ => init
         end).

(** [params.get(name)]: the value of the first pair of that name. *)
Definition get (params : list (string * string)) (name : string)
  : option string :=
  match find (fun p => String.eqb (fst p) name) params with
  | Some p => Some (snd p)
  | None => None
  end.

(** [hash.replace(/^#/, '')]. *)
Definition stripHash (hash : string) : string :=
  match hash with
  | String "#" rest => rest
  | _ => hash
  end.

(** [v === literal] for the result of [get]. *)
Definition valueIs (v : option string) (literal : string) : bool :=
  match v with
  | Some s => String.eqb s literal
  | None => false
  end.

(** [c] does not occur in [s]. *)
Fixpoint freeOf (c : ascii) (s : string) : bool :=
  match s with
  | EmptyString => true
  | String a rest => negb (Ascii.eqb a c) && freeOf c rest
  end.

End Url.

(** The initial value of [isPasswordReset], from [window.location.search]
    and [window.location.hash]. *)
Definition initialIsPasswordReset (search hash : string) : bool :=
  let searchParams := Url.URLSearchParams search in
  let hashParams := Url.URLSearchParams (Url.stripHash hash) in
  Url.valueIs (Url.get searchParams "type") "passwordReset"
  || Url.valueIs (Url.get hashParams "type") "recovery"
  || Url.valueIs (Url.get hashParams "type") "passwordReset".

(** * Properties *)

(** ** Symbolic execution of the handlers *)

Ltac exec :=
  cbv beta iota zeta delta
    [bind emit setState getState await ret throw evaluate try_catch_finally
     setIsProcessing setSelectedFile setUserQuery setUploadProgress
     setProgressMessage setSelectedChatId state trace negb
     withProgress submitted afterFailure afterUncaught stopped messageOf
     isProcessing selectedFile userQuery uploadProgress progressMessage
     selectedChatId].

Lemma uploadStep_gives r fileId :
  uploadStep (Resolved r) = Gives fileId ->
  UploadResult.isError r || Js.present (UploadResult.error r) = false
  /\ Js.truthy_opt
       (Js.first_truthy (Js.chain (UploadResult.file r) FileMeta.id)
                        (UploadResult.id r)) = Some fileId.
Proof.
  destruct r as [[] [[[[|a s]|]]|] [[[[|b t]|]]|] [[|c u]|]]; cbn;
    intros H; inversion H; subst; split; reflexivity.
Qed.

Lemma uploadStep_stops r err :
  uploadStep (Resolved r) = Stops err ->
  (UploadResult.isError r || Js.present (UploadResult.error r) = true
   /\ err = Error (Js.or_else
                     (Js.chain (UploadResult.error r) ErrorObj.message)
                     "File upload failed"))
  \/ (UploadResult.isError r || Js.present (UploadResult.error r) = false
      /\ Js.truthy_opt
           (Js.first_truthy (Js.chain (UploadResult.file r) FileMeta.id)
                            (UploadResult.id r)) = None
      /\ err = Error "Failed to get file ID after upload").
Proof.
  destruct r as [[] [[[[|a s]|]]|] [[[[|b t]|]]|] [[|c u]|]]; cbn;
    intros H; inversion H; subst; auto.
Qed.

Lemma registerStep_gives r chatId :
  registerStep (Resolved r) = Gives chatId ->
  MutationResult.errors r = None
  /\ Js.truthy_opt
       (Js.chain (Js.chain (MutationResult.data r)
                           MutationData.insert_chats_one)
                 InsertedRow.id) = Some chatId.
Proof.
  destruct r as [[[[[[[|a s]|]]|]]|] [[|[[[|b t]|]] l]|]]; cbn;
    intros H; inversion H; subst; split; reflexivity.
Qed.

Lemma registerStep_stops r err :
  registerStep (Resolved r) = Stops err ->
  (exists errors,
      MutationResult.errors r = Some errors
      /\ err = Error ("Database error: "
                      ++ Js.or_else
                           (Js.chain (hd_error errors) ErrorObj.message)
                           "Unknown database error"))
  \/ (MutationResult.errors r = None
      /\ Js.truthy_opt
           (Js.chain (Js.chain (MutationResult.data r)
                               MutationData.insert_chats_one)
                     InsertedRow.id) = None
      /\ err = Error "Failed to create analysis record").
Proof.
  destruct r as [[[[[[[|a s]|]]|]]|] [[|[[[|b t]|]] l]|]]; cbn;
    intros H; inversion H; subst; eauto.
Qed.

Lemma triggerStep_gives r :
  triggerStep (Resolved r) = Gives tt -> Response.ok r = true.
Proof.
  unfold triggerStep. destruct (Response.ok r); [reflexivity | discriminate].
Qed.

Lemma triggerStep_stops r err :
  triggerStep (Resolved r) = Stops err ->
  Response.ok r = false
  /\ err = Error ("Analysis service failed: "
                  ++ Js.decimal (Response.status r) ++ " - "
                  ++ match Response.text r with
                     | Resolved body => body
                     | Rejected _ => "Unknown error"
                     end).
Proof.
  unfold triggerStep. destruct (Response.ok r); [discriminate |].
  intros H; inversion H; auto.
Qed.

(** The [try] block of the source is the three-step sequence. *)
Lemma submission_steps env file uid q w :
  submission env file uid q w = submissionSteps env file uid q w.
Proof.
  destruct w as [s t].
  unfold submission, submissionSteps, registerVars, triggerBody.
  exec.
  destruct (upload env file) as [r | m]; [| reflexivity].
  destruct (uploadStep (Resolved r)) as [fileId | msg] eqn:Eu.
  - apply uploadStep_gives in Eu as [E1 E2]. rewrite E1, E2.
    destruct (insertChat env _) as [r' | m'];
      [| cbn [registerStep]; rewrite <- ?app_assoc; reflexivity].
    destruct (registerStep (Resolved r')) as [chatId | msg] eqn:Er.
    + apply registerStep_gives in Er as [E3 E4]. rewrite E3, E4.
      destruct (fetch env _ _) as [r'' | m''];
        [| cbn [triggerStep]; rewrite <- ?app_assoc; reflexivity].
      destruct (triggerStep (Resolved r'')) as [[] | msg] eqn:Et.
      * apply triggerStep_gives in Et. rewrite Et.
        rewrite <- ?app_assoc; reflexivity.
      * apply triggerStep_stops in Et as [E5 ->]. rewrite E5.
        rewrite <- ?app_assoc; reflexivity.
    + apply registerStep_stops in Er as [(errs & E3 & ->) | (E3 & E4 & ->)].
      * rewrite E3. rewrite <- ?app_assoc; reflexivity.
      * rewrite E3, E4. rewrite <- ?app_assoc; reflexivity.
  - apply uploadStep_stops in Eu as [[E1 ->] | (E1 & E2 & ->)].
    + rewrite E1. reflexivity.
    + rewrite E1, E2. reflexivity.
Qed.

(** The handler around the [try] block: guard, [catch] and [finally]. *)
Lemma handler_started env userId st file uid :
  selectedFile st = Some file ->
  Js.truthy_opt userId = Some uid ->
  run (handleUploadAndAnalyze env userId) st
  = match submissionSteps env file uid (userQuery st)
            (mkWorld (mkState true (Some file) (userQuery st) 10
                              PROGRESS_MESSAGES.uploading (selectedChatId st))
                     [])
    with
    | (Normal _, w) =>
        (Normal tt,
         mkWorld (mkState false (selectedFile (state w)) (userQuery (state w))
                          (uploadProgress (state w))
                          (progressMessage (state w))
                          (selectedChatId (state w)))
                 (trace w ++ [ClearFileInput]))
    | (Throw err, w) =>
        stopped (state w) (uploadProgress (state w))
                (progressMessage (state w)) (trace w) err
    end.
Proof.
  intros Hf Hu.
  destruct st as [ip sf uq up pm sc]. cbn [selectedFile] in Hf. subst sf.
  cbn [userQuery selectedChatId].
  set (w0 := mkWorld (mkState true (Some file) uq 10
                              PROGRESS_MESSAGES.uploading sc) []).
  destruct (submissionSteps env file uid uq w0)
    as [[[] | err] [s' t']] eqn:E;
    unfold run, handleUploadAndAnalyze;
    unfold bind at 1; unfold getState at 1; cbn [state selectedFile];
    rewrite Hu; unfold try_catch_finally; exec;
    rewrite submission_steps;
    match goal with
    | |- context [submissionSteps ?e ?f ?u ?q ?w] =>
        change (submissionSteps e f u q w)
          with (submissionSteps env file uid uq w0)
    end;
    rewrite E; [| destruct err]; exec; rewrite <- ?app_assoc; reflexivity.
Qed.

Lemma handler_guard env userId st :
  selectedFile st = None \/ Js.truthy_opt userId = None ->
  run (handleUploadAndAnalyze env userId) st
  = (Normal tt,
     mkWorld st [Alert "Please select a file and ensure you're logged in."]).
Proof.
  intros H. unfold run, handleUploadAndAnalyze.
  unfold bind, getState. cbn [state].
  destruct st as [ip sf uq up pm sc]; cbn [selectedFile] in *.
  destruct H as [H | H]; rewrite H.
  - reflexivity.
  - destruct sf; reflexivity.
Qed.

(** A run that a step stops, whatever the step throws. *)
Lemma handler_upload_stops env userId st file uid err :
  selectedFile st = Some file ->
  Js.truthy_opt userId = Some uid ->
  uploadStep (upload env file) = Stops err ->
  run (handleUploadAndAnalyze env userId) st
  = stopped st 10 PROGRESS_MESSAGES.uploading [Upload file] err.
Proof.
  intros Hf Hu Hs. rewrite (handler_started env userId st file uid Hf Hu).
  unfold submissionSteps. rewrite Hs.
  unfold stopped, afterFailure, afterUncaught. cbn. rewrite Hf. reflexivity.
Qed.

Lemma handler_register_stops env userId st file uid fileId err :
  selectedFile st = Some file ->
  Js.truthy_opt userId = Some uid ->
  uploadStep (upload env file) = Gives fileId ->
  registerStep (insertChat env (registerVars file (userQuery st) fileId))
  = Stops err ->
  run (handleUploadAndAnalyze env userId) st
  = stopped st 50 PROGRESS_MESSAGES.queueing
            [Upload file;
             Mutate (INSERT_CHAT (registerVars file (userQuery st) fileId))]
            err.
Proof.
  intros Hf Hu Hs Hr. rewrite (handler_started env userId st file uid Hf Hu).
  unfold submissionSteps. rewrite Hs. cbv zeta. rewrite Hr.
  unfold stopped, afterFailure, afterUncaught. cbn. rewrite Hf. reflexivity.
Qed.

Lemma handler_trigger_stops env userId st file uid fileId chatId err :
  selectedFile st = Some file ->
  Js.truthy_opt userId = Some uid ->
  uploadStep (upload env file) = Gives fileId ->
  registerStep (insertChat env (registerVars file (userQuery st) fileId))
  = Gives chatId ->
  triggerStep (fetch env RENDER_API_URL
                     (triggerBody uid (userQuery st) fileId chatId))
  = Stops err ->
  run (handleUploadAndAnalyze env userId) st
  = stopped st 75 PROGRESS_MESSAGES.processing
            [Upload file;
             Mutate (INSERT_CHAT (registerVars file (userQuery st) fileId));
             Fetch RENDER_API_URL
                   (triggerBody uid (userQuery st) fileId chatId)]
            err.
Proof.
  intros Hf Hu Hs Hr Ht.
  rewrite (handler_started env userId st file uid Hf Hu).
  unfold submissionSteps. rewrite Hs. cbv zeta. rewrite Hr, Ht.
  unfold stopped, afterFailure, afterUncaught. cbn. rewrite Hf. reflexivity.
Qed.


Lemma handler_register_fails env userId st file uid fileId msg :
  selectedFile st = Some file ->
  Js.truthy_opt userId = Some uid ->
  uploadStep (upload env file) = Gives fileId ->
  registerStep (insertChat env (registerVars file (userQuery st) fileId))
  = Fails msg ->
  run (handleUploadAndAnalyze env userId) st
  = (Normal tt,
     mkWorld (afterFailure st 50)
             [Upload file;
              Mutate (INSERT_CHAT (registerVars file (userQuery st) fileId));
              ConsoleError "Upload/Analysis Error:" (Error msg);
              Alert (errorAlert msg); ClearFileInput]).
Proof.
  intros Hf Hu Hs Hr.
  rewrite (handler_register_stops env userId st file uid fileId _
                                  Hf Hu Hs Hr).
  reflexivity.
Qed.

Lemma handler_trigger_fails env userId st file uid fileId chatId msg :
  selectedFile st = Some file ->
  Js.truthy_opt userId = Some uid ->
  uploadStep (upload env file) = Gives fileId ->
  registerStep (insertChat env (registerVars file (userQuery st) fileId))
  = Gives chatId ->
  triggerStep (fetch env RENDER_API_URL
                     (triggerBody uid (userQuery st) fileId chatId))
  = Fails msg ->
  run (handleUploadAndAnalyze env userId) st
  = (Normal tt,
     mkWorld (afterFailure st 75)
             [Upload file;
              Mutate (INSERT_CHAT (registerVars file (userQuery st) fileId));
              Fetch RENDER_API_URL
                    (triggerBody uid (userQuery st) fileId chatId);
              ConsoleError "Upload/Analysis Error:" (Error msg);
              Alert (errorAlert msg); ClearFileInput]).
Proof.
  intros Hf Hu Hs Hr Ht.
  rewrite (handler_trigger_stops env userId st file uid fileId chatId _
                                 Hf Hu Hs Hr Ht).
  reflexivity.
Qed.

Lemma handler_succeeds env userId st file uid fileId chatId :
  selectedFile st = Some file ->
  Js.truthy_opt userId = Some uid ->
  SubmissionSucceeds env file uid (userQuery st) fileId chatId ->
  run (handleUploadAndAnalyze env userId) st
  = (Normal tt,
     mkWorld (mkState false None [] 0 EmptyString (Some chatId))
             [Upload file;
              Mutate (INSERT_CHAT (registerVars file (userQuery st) fileId));
              Fetch RENDER_API_URL
                    (triggerBody uid (userQuery st) fileId chatId);
              ClearFileInput]).
Proof.
  intros Hf Hu (Hs & Hr & Ht).
  rewrite (handler_started env userId st file uid Hf Hu).
  unfold submissionSteps. rewrite Hs. cbv zeta. rewrite Hr, Ht. reflexivity.
Qed.

(** Every started submission either succeeds or is stopped by one of the
    steps. *)
Lemma submission_succeeds_or_stops env file uid q :
  (exists fileId chatId, SubmissionSucceeds env file uid q fileId chatId)
  \/ (exists err, uploadStep (upload env file) = Stops err)
  \/ (exists fileId err,
         uploadStep (upload env file) = Gives fileId
         /\ registerStep (insertChat env (registerVars file q fileId))
            = Stops err)
  \/ (exists fileId chatId err,
         uploadStep (upload env file) = Gives fileId
         /\ registerStep (insertChat env (registerVars file q fileId))
            = Gives chatId
         /\ triggerStep (fetch env RENDER_API_URL
                               (triggerBody uid q fileId chatId))
            = Stops err).
Proof.
  destruct (uploadStep (upload env file)) as [fileId | err] eqn:Hs.
  - destruct (registerStep (insertChat env (registerVars file q fileId)))
      as [chatId | err] eqn:Hr.
    + destruct (triggerStep (fetch env RENDER_API_URL
                                   (triggerBody uid q fileId chatId)))
        as [[] | err] eqn:Ht.
      * left. exists fileId, chatId. repeat split; assumption.
      * right; right; right. exists fileId, chatId, err. auto.
    + right; right; left. exists fileId, err. auto.
  - right; left. exists err. reflexivity.
Qed.


(** ** Submission Orchestrator *)

(** C2.  In a successful submission the handler writes the registry exactly
    once, the row it asks for has [status = "pending"], and the trigger is
    called once, after the write, with the job identifier that the write
    returned: Register precedes Trigger. *)
Theorem successful_submission_registers_once_before_trigger
        env userId st file uid fileId chatId :
  selectedFile st = Some file ->
  Js.truthy_opt userId = Some uid ->
  SubmissionSucceeds env file uid (userQuery st) fileId chatId ->
  let object := INSERT_CHAT (registerVars file (userQuery st) fileId) in
  let body := triggerBody uid (userQuery st) fileId chatId in
  let t := trace (snd (run (handleUploadAndAnalyze env userId) st)) in
  registry_writes t = [object]
  /\ InsertObject.status object = "pending"
  /\ registerStep (insertChat env (registerVars file (userQuery st) fileId))
     = Gives chatId
  /\ trigger_calls t = [(RENDER_API_URL, body)]
  /\ AnalyzeBody.chat_id body = chatId
  /\ exists before after,
       t = (before ++ Mutate object :: after)%list
       /\ registry_writes before = []
       /\ trigger_calls before = []
       /\ In (Fetch RENDER_API_URL body) after.
Proof.
  intros Hf Hu Hok object body t.
  assert (Ht : t = [Upload file; Mutate object; Fetch RENDER_API_URL body;
                    ClearFileInput]).
  { unfold t.
    rewrite (handler_succeeds env userId st file uid fileId chatId Hf Hu Hok).
    reflexivity. }
  rewrite Ht. destruct Hok as (_ & Hr & _).
  repeat split; try reflexivity; try assumption.
  exists [Upload file], [Fetch RENDER_API_URL body; ClearFileInput].
  repeat split; try reflexivity. left; reflexivity.
Qed.

Lemma successful_submission_witness :
  registry_writes
    (trace (snd (run (handleUploadAndAnalyze Scenario.envOk (Some "u1"))
                     Scenario.draft)))
  = [InsertObject.mk "f1" "report.pdf" "pending" DEFAULT_QUERY].
Proof.
  pose proof (successful_submission_registers_once_before_trigger
                Scenario.envOk (Some "u1") Scenario.draft Scenario.pdf
                "u1" "f1" "j1" eq_refl eq_refl
                (conj eq_refl (conj eq_refl eq_refl))) as H.
  cbv zeta in H. destruct H as (H & _). exact H.
Defined.

(** C3.  When upload and register succeed and the trigger answers with a
    response that is not a success, the handler tells the user so: the one
    alert of the run reads
    ["❌ Error: Analysis service failed: <status> - <body>"], with the status
    code of the response in decimal and the text of its body (or
    ["Unknown error"] when the body cannot be read), followed by an empty
    line and the hint at the console.  The trigger has been called once and
    no more, the registry has been sent nothing but the one insert of the
    [pending] row, which is neither deleted nor modified, and the handler
    returns normally. *)
Theorem trigger_failure_is_reported_and_job_left_pending
        env userId st file uid fileId chatId response :
  selectedFile st = Some file ->
  Js.truthy_opt userId = Some uid ->
  uploadStep (upload env file) = Gives fileId ->
  registerStep (insertChat env (registerVars file (userQuery st) fileId))
  = Gives chatId ->
  fetch env RENDER_API_URL (triggerBody uid (userQuery st) fileId chatId)
  = Resolved response ->
  Response.ok response = false ->
  let object := INSERT_CHAT (registerVars file (userQuery st) fileId) in
  let body := triggerBody uid (userQuery st) fileId chatId in
  let text :=
    match Response.text response with
    | Resolved text => text
    | Rejected _ => "Unknown error"
    end in
  let failure :=
    "Analysis service failed: " ++ Js.decimal (Response.status response)
    ++ " - " ++ text in
  let notice :=
    "❌ Error: " ++ failure
    ++ String "010"
         (String "010" "Check browser console (F12) for details.") in
  let r := run (handleUploadAndAnalyze env userId) st in
  fst r = Normal tt
  /\ trace (snd r)
     = [Upload file; Mutate object; Fetch RENDER_API_URL body;
        ConsoleError "Upload/Analysis Error:" (Error failure);
        Alert notice; ClearFileInput]
  /\ alerts (trace (snd r)) = [notice]
  /\ trigger_calls (trace (snd r)) = [(RENDER_API_URL, body)]
  /\ registry_writes (trace (snd r)) = [object]
  /\ InsertObject.status object = "pending"
  /\ state (snd r) = afterFailure st 75.
Proof.
  intros Hf Hu Hs Hr Hfetch Hok object body text failure notice r.
  assert (Ht : triggerStep (fetch env RENDER_API_URL body) = Fails failure).
  { unfold body. rewrite Hfetch. unfold triggerStep. rewrite Hok.
    reflexivity. }
  unfold r.
  rewrite (handler_trigger_fails env userId st file uid fileId chatId failure
             Hf Hu Hs Hr Ht).
  repeat split; reflexivity.
Qed.

Lemma trigger_failure_witness :
  alerts (trace (snd (run (handleUploadAndAnalyze Scenario.env500 (Some "u1"))
                          Scenario.draft)))
  = ["❌ Error: Analysis service failed: 500 - Internal Server Error"
     ++ String "010"
          (String "010" "Check browser console (F12) for details.")]
  /\ registry_writes
       (trace (snd (run (handleUploadAndAnalyze Scenario.env500 (Some "u1"))
                        Scenario.draft)))
     = [InsertObject.mk "f1" "report.pdf" "pending" DEFAULT_QUERY]
  /\ trigger_calls
       (trace (snd (run (handleUploadAndAnalyze Scenario.env500 (Some "u1"))
                        Scenario.draft)))
     = [(RENDER_API_URL, AnalyzeBody.mk "j1" "f1" "u1" DEFAULT_QUERY)].
Proof.
  pose proof (trigger_failure_is_reported_and_job_left_pending
                Scenario.env500 (Some "u1") Scenario.draft Scenario.pdf
                "u1" "f1" "j1"
                (Response.mk false 500 (Resolved "Internal Server Error"))
                eq_refl eq_refl eq_refl eq_refl eq_refl eq_refl) as H.
  cbv zeta in H. destruct H as (_ & _ & Ha & Hc & Hw & _).
  split; [| split].
  - rewrite Ha. reflexivity.
  - exact Hw.
  - exact Hc.
Defined.

(** C4.  When the upload step stops the sequence, whatever it throws, the
    file has been handed to the store once, the registry is never written
    and the trigger is never called.  When the store answered, with an error
    or without a file identifier, the user is told: the one alert of the run
    reads ["❌ Error: <message>"], the message being that of the store's
    error, ["File upload failed"] when the error has none, or
    ["Failed to get file ID after upload"], followed by an empty line and
    the hint at the console; the same holds, with its message, when the call
    was rejected with an [Error]. *)
Theorem upload_failure_creates_no_job env userId st file uid err :
  selectedFile st = Some file ->
  Js.truthy_opt userId = Some uid ->
  uploadStep (upload env file) = Stops err ->
  let notice message :=
    "❌ Error: " ++ message
    ++ String "010"
         (String "010" "Check browser console (F12) for details.") in
  let r := run (handleUploadAndAnalyze env userId) st in
  uploads (trace (snd r)) = [file]
  /\ registry_writes (trace (snd r)) = []
  /\ trigger_calls (trace (snd r)) = []
  /\ (forall result,
         upload env file = Resolved result ->
         fst r = Normal tt
         /\ alerts (trace (snd r))
            = [notice
                 (if UploadResult.isError result
                     || Js.present (UploadResult.error result)
                  then
                    match UploadResult.error result with
                    | Some (ErrorObj.mk (Some (String a message))) =>
                        String a message
                    | _ => "File upload failed"
                    end
                  else "Failed to get file ID after upload")])
  /\ (forall message,
         err = Error message ->
         fst r = Normal tt
         /\ trace (snd r)
            = [Upload file;
               ConsoleError "Upload/Analysis Error:" (Error message);
               Alert (notice message); ClearFileInput]
         /\ alerts (trace (snd r)) = [notice message]).
Proof.
  intros Hf Hu Hs notice r. unfold r.
  rewrite (handler_upload_stops env userId st file uid err Hf Hu Hs).
  split; [| split; [| split; [| split]]].
  - unfold stopped. destruct (messageOf err); reflexivity.
  - unfold stopped. destruct (messageOf err); reflexivity.
  - unfold stopped. destruct (messageOf err); reflexivity.
  - intros result Hup. rewrite Hup in Hs.
    apply uploadStep_stops in Hs as [[E ->] | (E & _ & ->)]; rewrite E.
    + split; [reflexivity |].
      destruct (UploadResult.error result) as [[[[| a m] |]] |];
        reflexivity.
    + split; reflexivity.
  - intros message ->. repeat split; reflexivity.
Qed.

Lemma upload_failure_witness :
  registry_writes
    (trace (snd (run (handleUploadAndAnalyze Scenario.envUploadError
                                             (Some "u1"))
                     Scenario.draft)))
  = []
  /\ alerts
       (trace (snd (run (handleUploadAndAnalyze Scenario.envUploadError
                                                (Some "u1"))
                        Scenario.draft)))
     = ["❌ Error: quota exceeded"
        ++ String "010"
             (String "010" "Check browser console (F12) for details.")].
Proof.
  pose proof (upload_failure_creates_no_job
                Scenario.envUploadError (Some "u1") Scenario.draft
                Scenario.pdf "u1" (Error "quota exceeded")
                eq_refl eq_refl eq_refl) as H.
  cbv zeta in H. destruct H as (_ & Hw & _ & Ha & _). split.
  - exact Hw.
  - destruct (Ha _ eq_refl) as [_ Ha']. rewrite Ha'. reflexivity.
Defined.

(** C5.  When the register step fails, by returned errors or for want of a
    job identifier, the trigger is never called. *)
Theorem register_failure_issues_no_trigger env userId st file uid fileId msg :
  selectedFile st = Some file ->
  Js.truthy_opt userId = Some uid ->
  uploadStep (upload env file) = Gives fileId ->
  registerStep (insertChat env (registerVars file (userQuery st) fileId))
  = Fails msg ->
  let w := snd (run (handleUploadAndAnalyze env userId) st) in
  trigger_calls (trace w) = []
  /\ alerts (trace w) = [errorAlert msg].
Proof.
  intros Hf Hu Hs Hr w. unfold w.
  rewrite (handler_register_fails env userId st file uid fileId msg
             Hf Hu Hs Hr).
  split; reflexivity.
Qed.

Lemma register_failure_witness :
  trigger_calls
    (trace (snd (run (handleUploadAndAnalyze Scenario.envRegisterError
                                             (Some "u1"))
                     Scenario.draft)))
  = [].
Proof.
  pose proof (register_failure_issues_no_trigger
                Scenario.envRegisterError (Some "u1") Scenario.draft
                Scenario.pdf "u1" "f1" "Database error: permission denied"
                eq_refl eq_refl eq_refl eq_refl) as H.
  cbv zeta in H. destruct H as (H & _). exact H.
Defined.



(** ** File Validator *)

Lemma exceeds_limit_iff file limit :
  negb (Qle_bool (fileSizeMB file) (inject_Z (Z.of_N limit))) = true
  <-> (limit * 1048576 < File.size file)%N.
Proof.
  rewrite negb_true_iff, <- not_true_iff_false, Qle_bool_iff.
  unfold fileSizeMB, Qle, Qdiv, Qmult, Qinv, inject_Z. cbn.
  split; intros H; lia.
Qed.

Lemma within_limit_iff file limit :
  negb (Qle_bool (fileSizeMB file) (inject_Z (Z.of_N limit))) = false
  <-> (File.size file <= limit * 1048576)%N.
Proof.
  rewrite <- not_true_iff_false, exceeds_limit_iff. lia.
Qed.

Lemma toFixed_fileSizeMB file :
  Js.toFixed 2 (fileSizeMB file)
  = Js.decimal (hundredths (File.size file) / 100) ++ "."
    ++ Js.pad_left 2 (Js.decimal (hundredths (File.size file) mod 100)).
Proof.
  unfold Js.toFixed.
  assert (Hpos : Qle_bool 0 (fileSizeMB file) = true).
  { apply Qle_bool_iff. unfold fileSizeMB, Qle, Qdiv, Qmult, Qinv, inject_Z.
    cbn. lia. }
  rewrite Hpos.
  assert (Hn : Z.to_N (Qfloor (Qabs (fileSizeMB file)
                               * inject_Z (Z.of_N (10 ^ N.of_nat 2))
                               + (1 # 2)))
               = hundredths (File.size file)).
  { assert (Hq : Qfloor (Qabs (fileSizeMB file)
                         * inject_Z (Z.of_N (10 ^ N.of_nat 2)) + (1 # 2))
                 = ((200 * Z.of_N (File.size file) + 1048576) / 2097152)%Z).
    { set (rhs := ((200 * Z.of_N (File.size file) + 1048576) / 2097152)%Z).
      unfold fileSizeMB, Qabs, Qdiv, Qmult, Qinv, Qplus, Qfloor, inject_Z.
      cbn. subst rhs. f_equal. lia. }
    rewrite Hq. unfold hundredths.
    rewrite <- (N2Z.id ((200 * File.size file + 1048576) / 2097152)).
    rewrite N2Z.inj_div, N2Z.inj_add, N2Z.inj_mul. reflexivity. }
  rewrite Hn. reflexivity.
Qed.

(** [hundredths] is the size in MB to two decimals: it is within half a
    hundredth of [size / 2^20]. *)
Lemma hundredths_rounds size :
  (2097152 * hundredths size <= 200 * size + 1048576
   < 2097152 * (hundredths size + 1))%N.
Proof.
  unfold hundredths.
  assert (Hnz : (2097152 <> 0)%N) by discriminate.
  pose proof (N.div_mod (200 * size + 1048576) 2097152 Hnz).
  pose proof (N.mod_lt (200 * size + 1048576) 2097152 Hnz).
  set (d := ((200 * size + 1048576) / 2097152)%N) in *.
  set (m := ((200 * size + 1048576) mod 2097152)%N) in *. lia.
Qed.

Lemma includes_pdf type :
  Js.includes ["application/pdf"] type = true <-> type = "application/pdf".
Proof.
  unfold Js.includes. cbn [existsb]. rewrite orb_false_r.
  apply String.eqb_eq.
Qed.

Lemma string_app_assoc (a b c : string) : (a ++ b) ++ c = a ++ (b ++ c).
Proof.
  induction a as [| ch a IH]; cbn; [reflexivity | now rewrite IH].
Qed.

Lemma validateFile_default_options file :
  validateFile file Options.empty = validateFile file appOptions.
Proof. reflexivity. Qed.

Lemma validateFile_too_large file :
  (10 * 1048576 < File.size file)%N ->
  validateFile (Some file) appOptions
  = Validation.mk false
      (Some ("File size exceeds 10MB limit ("
             ++ Js.decimal (hundredths (File.size file) / 100) ++ "."
             ++ Js.pad_left 2 (Js.decimal (hundredths (File.size file) mod 100))
             ++ "MB)")).
Proof.
  intros H. apply (exceeds_limit_iff file 10) in H.
  unfold validateFile, appOptions. cbn [Options.maxSizeMB Options.allowedTypes].
  rewrite H, toFixed_fileSizeMB.
  rewrite !string_app_assoc. reflexivity.
Qed.

Lemma validateFile_wrong_type file :
  (File.size file <= 10 * 1048576)%N ->
  File.type file <> "application/pdf" ->
  validateFile (Some file) appOptions
  = Validation.mk false
      (Some "File type not allowed. Accepted: application/pdf").
Proof.
  intros Hs Ht. apply (within_limit_iff file 10) in Hs.
  unfold validateFile, appOptions. cbn [Options.maxSizeMB Options.allowedTypes].
  rewrite Hs.
  destruct (Js.includes ["application/pdf"] (File.type file)) eqn:E.
  - apply includes_pdf in E. contradiction.
  - reflexivity.
Qed.

Lemma validateFile_accepts file :
  (File.size file <= 10 * 1048576)%N ->
  File.type file = "application/pdf" ->
  validateFile (Some file) appOptions = Validation.mk true None.
Proof.
  intros Hs Ht. apply (within_limit_iff file 10) in Hs.
  unfold validateFile, appOptions. cbn [Options.maxSizeMB Options.allowedTypes].
  rewrite Hs. apply includes_pdf in Ht. rewrite Ht. reflexivity.
Qed.

(** A rejected selection changes nothing and reaches no collaborator. *)
Lemma handleFileChange_rejected file st :
  Validation.valid (validateFile file appOptions) = false ->
  state (snd (run (handleFileChange file) st)) = st
  /\ uploads (trace (snd (run (handleFileChange file) st))) = []
  /\ registry_writes (trace (snd (run (handleFileChange file) st))) = []
  /\ trigger_calls (trace (snd (run (handleFileChange file) st))) = [].
Proof.
  intros H. unfold run, handleFileChange. rewrite H. cbn [negb].
  exec. cbn. destruct st; repeat split; reflexivity.
Qed.

(** C6 as stated fails for a file that is both too large and of another
    type: the size is checked first, so the 12 MB PNG is answered with the
    size message and not with the list of accepted types. *)
Lemma oversized_png_is_answered_by_size :
  ~ (forall file,
        File.type file <> "application/pdf" ->
        validateFile (Some file) appOptions
        = Validation.mk false
            (Some "File type not allowed. Accepted: application/pdf")).
Proof.
  intros H. specialize (H Scenario.bigPng).
  assert (Ht : File.type Scenario.bigPng <> "application/pdf")
    by discriminate.
  apply H in Ht. vm_compute in Ht. discriminate.
Qed.

(** C6, amended.  [validateFile] is a function of the file and the options
    alone.  Without a file it answers ["No file selected"].  For a file
    above the limit it answers with the limit and the size in MB to two
    decimals, whatever its type.  For a file within the limit whose type is
    not [application/pdf] it answers with the list of accepted types.
    Either defect makes the file invalid.  The 12 MB PDF of scenario A is
    answered ["File size exceeds 10MB limit (12.00MB)"], and a rejected
    selection is never uploaded. *)
Theorem validator_verdicts :
  (forall options,
      validateFile None options
      = Validation.mk false (Some "No file selected"))
  /\ (forall file,
         (10 * 1048576 < File.size file)%N ->
         validateFile (Some file) appOptions
         = Validation.mk false
             (Some ("File size exceeds 10MB limit ("
                    ++ Js.decimal (hundredths (File.size file) / 100) ++ "."
                    ++ Js.pad_left
                         2 (Js.decimal (hundredths (File.size file) mod 100))
                    ++ "MB)"))
         /\ (2097152 * hundredths (File.size file)
             <= 200 * File.size file + 1048576
             < 2097152 * (hundredths (File.size file) + 1))%N)
  /\ (forall file,
         (File.size file <= 10 * 1048576)%N ->
         File.type file <> "application/pdf" ->
         validateFile (Some file) appOptions
         = Validation.mk false
             (Some "File type not allowed. Accepted: application/pdf"))
  /\ (forall file,
         (10 * 1048576 < File.size file)%N
         \/ File.type file <> "application/pdf" ->
         Validation.valid (validateFile (Some file) appOptions) = false)
  /\ validateFile (Some Scenario.bigPdf) appOptions
     = Validation.mk false (Some "File size exceeds 10MB limit (12.00MB)")
  /\ (forall file st,
         Validation.valid (validateFile file appOptions) = false ->
         state (snd (run (handleFileChange file) st)) = st
         /\ uploads (trace (snd (run (handleFileChange file) st))) = []
         /\ registry_writes (trace (snd (run (handleFileChange file) st))) = []
         /\ trigger_calls (trace (snd (run (handleFileChange file) st))) = [])
  /\ (forall env userId,
         uploads
           (trace (snd (run (bind (handleFileChange (Some Scenario.bigPdf))
                                  (fun _ => handleUploadAndAnalyze env userId))
                            initialState)))
         = []).
Proof.
  split; [| split; [| split; [| split; [| split; [| split]]]]].
  - intros options. reflexivity.
  - intros file H. split.
    + apply validateFile_too_large; assumption.
    + apply hundredths_rounds.
  - apply validateFile_wrong_type.
  - intros file H.
    destruct (N.lt_ge_cases (10 * 1048576) (File.size file)) as [Hl | Hs].
    + rewrite validateFile_too_large by assumption. reflexivity.
    + destruct H as [H | H]; [lia |].
      rewrite validateFile_wrong_type by assumption. reflexivity.
  - vm_compute. reflexivity.
  - apply handleFileChange_rejected.
  - intros env userId. vm_compute. reflexivity.
Qed.

Lemma validator_witness :
  validateFile (Some Scenario.bigPng) appOptions
  = Validation.mk false (Some "File size exceeds 10MB limit (12.00MB)")
  /\ validateFile (Some Scenario.smallPng) appOptions
     = Validation.mk false
         (Some "File type not allowed. Accepted: application/pdf")
  /\ state (snd (run (handleFileChange (Some Scenario.bigPdf))
                     Scenario.draft))
     = Scenario.draft.
Proof.
  destruct validator_verdicts as (_ & Hbig & Htype & _ & _ & Hno & _).
  split; [| split].
  - destruct (Hbig Scenario.bigPng) as [H _]; [reflexivity |].
    rewrite H. vm_compute. reflexivity.
  - apply (Htype Scenario.smallPng).
    + vm_compute. discriminate.
    + discriminate.
  - apply (Hno (Some Scenario.bigPdf) Scenario.draft). vm_compute.
    reflexivity.
Defined.

(** ** The effective query *)

Lemma trimStart_split s :
  exists l,
    s = (l ++ trimStart s)%list
    /\ forallb isWhiteSpace l = true
    /\ (forall u rest, trimStart s = u :: rest -> isWhiteSpace u = false).
Proof.
  induction s as [| a s (l & Hs & Hl & Hh)].
  - exists []. repeat split. intros u rest H. discriminate.
  - cbn [trimStart]. destruct (isWhiteSpace a) eqn:Ea.
    + exists (a :: l). cbn. rewrite Ea, Hl. rewrite <- Hs. auto.
    + exists []. repeat split. intros u rest H. inversion H; subst.
      assumption.
Qed.

Lemma trimStart_white l s :
  forallb isWhiteSpace l = true -> trimStart (l ++ s)%list = trimStart s.
Proof.
  induction l as [| a l IH]; cbn; [reflexivity |].
  intros H. apply andb_true_iff in H as [Ha Hl]. rewrite Ha. auto.
Qed.

Lemma trimStart_all_white l :
  forallb isWhiteSpace l = true -> trimStart l = [].
Proof.
  intros H. rewrite <- (app_nil_r l). rewrite trimStart_white by assumption.
  reflexivity.
Qed.

Lemma trimStart_black u rest :
  isWhiteSpace u = false -> trimStart (u :: rest) = u :: rest.
Proof. intros H. cbn. rewrite H. reflexivity. Qed.

Lemma forallb_rev {A} (f : A -> bool) l :
  forallb f (rev l) = forallb f l.
Proof.
  induction l as [| a l IH]; cbn; [reflexivity |].
  rewrite forallb_app, IH. cbn. rewrite andb_true_r. apply andb_comm.
Qed.

Lemma trimEnd_split s :
  exists r,
    s = (trimEnd s ++ r)%list
    /\ forallb isWhiteSpace r = true
    /\ (forall u front,
           trimEnd s = (front ++ [u])%list -> isWhiteSpace u = false).
Proof.
  unfold trimEnd.
  destruct (trimStart_split (rev s)) as (l & Hs & Hl & Hh).
  exists (rev l). split; [| split].
  - rewrite <- rev_app_distr, <- Hs. symmetry. apply rev_involutive.
  - rewrite forallb_rev. assumption.
  - intros u front H. apply (Hh u (rev front)).
    rewrite <- (rev_involutive (trimStart (rev s))), H, rev_app_distr.
    reflexivity.
Qed.

(** [trim] removes the white space around the text and nothing else. *)
Lemma trim_Trimmed q : Trimmed q (trim q).
Proof.
  unfold trim.
  destruct (trimStart_split q) as (l & Hq & Hl & Hh).
  destruct (trimEnd_split (trimStart q)) as (r & Hs & Hr & Hlast).
  exists l, r. repeat split; try assumption.
  - rewrite <- Hs. assumption.
  - intros u rest H. rewrite H in Hs. apply (Hh u (rest ++ r)%list).
    rewrite Hs at 1. reflexivity.
Qed.

(** ... and it is the only text of which this can be said. *)
Lemma Trimmed_trim q t : Trimmed q t -> t = trim q.
Proof.
  intros (l & r & -> & Hl & Hr & Hhead & Hlast).
  unfold trim. rewrite trimStart_white by assumption.
  destruct t as [| u rest].
  - cbn [app]. rewrite trimStart_all_white by assumption. reflexivity.
  - cbn [app]. rewrite trimStart_black by (apply (Hhead u rest); reflexivity).
    unfold trimEnd.
    change (u :: (rest ++ r)%list) with ((u :: rest) ++ r)%list.
    rewrite rev_app_distr.
    rewrite trimStart_white by (rewrite forallb_rev; assumption).
    destruct (rev (u :: rest)) as [| v front] eqn:E.
    + apply (f_equal (@rev N)) in E. rewrite rev_involutive in E.
      discriminate.
    + rewrite trimStart_black.
      * rewrite <- E. symmetry. apply rev_involutive.
      * apply (Hlast v (rev front)).
        rewrite <- (rev_involutive (u :: rest)), E. reflexivity.
Qed.

Lemma finalQuery_trim q :
  finalQuery q = match trim q with [] => DEFAULT_QUERY | _ :: _ => trim q end.
Proof. unfold finalQuery. destruct (trim q); reflexivity. Qed.

(** What the handler sends to the registry, in every environment. *)
Lemma handler_registry_writes env userId st :
  registry_writes (trace (snd (run (handleUploadAndAnalyze env userId) st)))
  = []
  \/ exists file fileId,
       selectedFile st = Some file
       /\ uploadStep (upload env file) = Gives fileId
       /\ registry_writes
            (trace (snd (run (handleUploadAndAnalyze env userId) st)))
          = [INSERT_CHAT (registerVars file (userQuery st) fileId)].
Proof.
  destruct (selectedFile st) as [file |] eqn:Hf;
    [| left; rewrite handler_guard by auto; reflexivity].
  destruct (Js.truthy_opt userId) as [uid |] eqn:Hu;
    [| left; rewrite handler_guard by auto; reflexivity].
  destruct (uploadStep (upload env file)) as [fileId | msg] eqn:Hs.
  - right. exists file, fileId. repeat split; try assumption.
    destruct (registerStep
                (insertChat env (registerVars file (userQuery st) fileId)))
      as [chatId | msg] eqn:Hr.
    + destruct (triggerStep
                  (fetch env RENDER_API_URL
                         (triggerBody uid (userQuery st) fileId chatId)))
        as [[] | msg] eqn:Ht.
      * rewrite (handler_succeeds env userId st file uid fileId chatId);
          [reflexivity | assumption | assumption |].
        repeat split; assumption.
      * rewrite (handler_trigger_stops env userId st file uid fileId chatId
                                       msg); auto.
        unfold stopped. destruct (messageOf msg); reflexivity.
    + rewrite (handler_register_stops env userId st file uid fileId msg);
        auto.
      unfold stopped. destruct (messageOf msg); reflexivity.
  - left. rewrite (handler_upload_stops env userId st file uid msg); auto.
    unfold stopped. destruct (messageOf msg); reflexivity.
Qed.

(** C7.  Whatever the handler sends to the registry carries the effective
    query: the user's text without the white space around it, or the fixed
    default when nothing is left of it.  The request is sent as soon as the
    upload has given a file identifier. *)
Theorem register_receives_effective_query env userId st :
  (exists t, Trimmed (userQuery st) t)
  /\ (forall object t,
         In object
            (registry_writes
               (trace (snd (run (handleUploadAndAnalyze env userId) st)))) ->
         Trimmed (userQuery st) t ->
         InsertObject.query object
         = match t with
           | [] => units "Analyze financial trends and risks"
           | _ :: _ => t
           end)
  /\ (forall file uid fileId,
         selectedFile st = Some file ->
         Js.truthy_opt userId = Some uid ->
         uploadStep (upload env file) = Gives fileId ->
         exists object,
           In object
              (registry_writes
                 (trace (snd (run (handleUploadAndAnalyze env userId) st))))).
Proof.
  split; [| split].
  - exists (trim (userQuery st)). apply trim_Trimmed.
  - intros object t Hin Ht. apply Trimmed_trim in Ht. subst t.
    destruct (handler_registry_writes env userId st)
      as [H | (file & fileId & _ & _ & H)]; rewrite H in Hin.
    + destruct Hin.
    + destruct Hin as [<- | []]. cbn [INSERT_CHAT registerVars
                                       InsertObject.query InsertVars.query].
      apply finalQuery_trim.
  - intros file uid fileId Hf Hu Hs.
    destruct (handler_registry_writes env userId st)
      as [H | (file' & fileId' & _ & _ & H)]; rewrite H.
    + exfalso.
      destruct (registerStep
                  (insertChat env (registerVars file (userQuery st) fileId)))
        as [chatId | msg] eqn:Hr.
      * destruct (triggerStep
                    (fetch env RENDER_API_URL
                           (triggerBody uid (userQuery st) fileId chatId)))
          as [[] | msg] eqn:Ht.
        -- rewrite (handler_succeeds env userId st file uid fileId chatId)
             in H; [discriminate | assumption | assumption |].
           repeat split; assumption.
        -- rewrite (handler_trigger_stops env userId st file uid fileId
                                           chatId msg) in H; auto.
           unfold stopped in H. destruct (messageOf msg); discriminate.
      * rewrite (handler_register_stops env userId st file uid fileId msg)
          in H; auto.
        unfold stopped in H. destruct (messageOf msg); discriminate.
    + eexists. left. reflexivity.
Qed.

Lemma effective_query_witness :
  (forall object,
      In object
         (registry_writes
            (trace (snd (run (handleUploadAndAnalyze Scenario.envOk
                                                     (Some "u1"))
                             Scenario.draft)))) ->
      InsertObject.query object = units "Analyze financial trends and risks")
  /\ (forall object,
         In object
            (registry_writes
               (trace (snd (run (handleUploadAndAnalyze Scenario.envOk
                                                        (Some "u1"))
                                Scenario.draftWithQuery)))) ->
         InsertObject.query object = units "risks")
  /\ exists object,
       In object
          (registry_writes
             (trace (snd (run (handleUploadAndAnalyze Scenario.envOk
                                                      (Some "u1"))
                              Scenario.draft)))).
Proof.
  split; [| split].
  - intros object Hin.
    destruct (register_receives_effective_query
                Scenario.envOk (Some "u1") Scenario.draft) as (_ & H & _).
    apply (H object [] Hin).
    exists [], []. repeat split; intros u l E; destruct l; discriminate.
  - intros object Hin.
    destruct (register_receives_effective_query
                Scenario.envOk (Some "u1") Scenario.draftWithQuery)
      as (_ & H & _).
    apply (H object (units "risks") Hin).
    exists (units "  "), (units " ").
    split; [reflexivity |]. split; [reflexivity |]. split; [reflexivity |].
    split.
    + intros u rest E. inversion E. reflexivity.
    + intros u front E.
      assert (Hl : last (units "risks") 0%N = last (front ++ [u])%list 0%N)
        by (rewrite E; reflexivity).
      rewrite last_last in Hl. subst u. reflexivity.
  - destruct (register_receives_effective_query
                Scenario.envOk (Some "u1") Scenario.draft) as (_ & _ & H).
    apply (H Scenario.pdf "u1" "f1"); reflexivity.
Defined.

(** ** Live Job Projector *)

Lemma useSubscription_signed_in auth channel :
  Auth.isAuthenticated auth = true ->
  useSubscription (negb (Auth.isAuthenticated auth)) channel = channel.
Proof. intros H. rewrite H. reflexivity. Qed.

(** The workspace is the only screen with jobs on it, and this is what it
    is made of. *)
Lemma App_workspace auth userId reset st channel sidebar main :
  App auth userId reset st channel = Workspace sidebar main ->
  Auth.isLoading auth = false
  /\ reset = false
  /\ Auth.isAuthenticated auth = true
  /\ sidebar
     = SidebarProps.mk
         (myChats (SubResult.data channel) userId)
         (selectedChat (myChats (SubResult.data channel) userId)
                       (selectedChatId st))
         (SubResult.loading channel) (SubResult.error channel)
  /\ main
     = match selectedChat (myChats (SubResult.data channel) userId)
                          (selectedChatId st) with
       | Some chat => ChatWorkspaceEl chat (SubResult.loading channel)
       | None =>
           UploadWorkspaceEl
             (UploadProps.mk (selectedFile st) (userQuery st)
                             (isProcessing st) (uploadProgress st)
                             (progressMessage st))
       end.
Proof.
  unfold App.
  destruct (Auth.isLoading auth); [discriminate |].
  destruct reset; [discriminate |].
  destruct (Auth.isAuthenticated auth) eqn:Ha; [| discriminate].
  cbn [negb useSubscription]. intros H. inversion H. auto.
Qed.

Lemma App_signed_in auth userId st channel :
  Auth.isLoading auth = false ->
  Auth.isAuthenticated auth = true ->
  App auth userId false st channel
  = Workspace
      (SidebarProps.mk
         (myChats (SubResult.data channel) userId)
         (selectedChat (myChats (SubResult.data channel) userId)
                       (selectedChatId st))
         (SubResult.loading channel) (SubResult.error channel))
      (match selectedChat (myChats (SubResult.data channel) userId)
                          (selectedChatId st) with
       | Some chat => ChatWorkspaceEl chat (SubResult.loading channel)
       | None =>
           UploadWorkspaceEl
             (UploadProps.mk (selectedFile st) (userQuery st)
                             (isProcessing st) (uploadProgress st)
                             (progressMessage st))
       end).
Proof. intros Hl Ha. unfold App. rewrite Hl, Ha. reflexivity. Qed.

Lemma myChats_snapshot channel userId :
  myChats (SubResult.data channel) userId
  = filter (ownedBy userId) (snapshot channel).
Proof.
  unfold myChats, snapshot.
  destruct (Js.chain (SubResult.data channel) SubData.chats); reflexivity.
Qed.

Lemma ownedBy_iff userId chat :
  ownedBy userId chat = true <-> userId = Some (Chat.user_id chat).
Proof.
  unfold ownedBy. destruct userId as [u |].
  - rewrite String.eqb_eq. split; [intros -> | intros [=]]; congruence.
  - split; discriminate.
Qed.

Lemma hasId_iff i chat :
  hasId i chat = true <-> i = Some (Chat.id chat).
Proof.
  unfold hasId. destruct i as [j |].
  - rewrite String.eqb_eq. split; [intros -> | intros [=]]; congruence.
  - split; discriminate.
Qed.

(** Filtering keeps the order of the rows, whatever the order is. *)
Lemma filter_StronglySorted {A} (R : A -> A -> Prop) (p : A -> bool) l :
  StronglySorted R l -> StronglySorted R (filter p l).
Proof.
  induction 1 as [| a l Hs IH Ha]; cbn; [constructor |].
  destruct (p a); [| assumption].
  constructor; [assumption |].
  rewrite Forall_forall in *. intros x Hx.
  apply filter_In in Hx as [Hx _]. auto.
Qed.

(** Rows with distinct identifiers are told apart by their identifier. *)
Lemma unique_by_id (chats : list Chat.t) a b :
  NoDup (map Chat.id chats) ->
  In a chats -> In b chats -> Chat.id a = Chat.id b -> a = b.
Proof.
  induction chats as [| c chats IH]; cbn; [contradiction |].
  intros Hnd [-> | Ha] [-> | Hb] E; inversion Hnd; subst.
  - reflexivity.
  - exfalso. match goal with H : ~ In _ _ |- _ => apply H end.
    rewrite E. apply in_map. assumption.
  - exfalso. match goal with H : ~ In _ _ |- _ => apply H end.
    rewrite <- E. apply in_map. assumption.
  - auto.
Qed.

(** Selection is a lookup: it finds a row of the list with the identifier,
    or nothing when the list holds none. *)
Lemma selectedChat_some chats i chat :
  selectedChat chats i = Some chat ->
  In chat chats /\ i = Some (Chat.id chat).
Proof.
  unfold selectedChat. intros H. apply find_some in H as [Hin Hid].
  split; [assumption | apply hasId_iff; assumption].
Qed.

Lemma selectedChat_none chats i :
  selectedChat chats i = None <->
  forall chat, In chat chats -> i <> Some (Chat.id chat).
Proof.
  unfold selectedChat. split.
  - intros H chat Hin E. apply hasId_iff in E.
    pose proof (find_none _ _ H chat Hin). congruence.
  - intros H. destruct (find (hasId i) chats) as [c |] eqn:E;
      [| reflexivity].
    apply find_some in E as [Hin Hid]. apply hasId_iff in Hid.
    exfalso. apply (H c Hin Hid).
Qed.

(** The badge names the status it is given, for the four statuses of a
    job; any other own-less key falls back to the pending badge. *)
Lemma StatusBadge_labels :
  option_map Badge.label (StatusBadge "pending") = Some "Pending"
  /\ option_map Badge.label (StatusBadge "processing") = Some "Processing"
  /\ option_map Badge.label (StatusBadge "completed") = Some "Completed"
  /\ option_map Badge.label (StatusBadge "failed") = Some "Failed".
Proof. repeat split; reflexivity. Qed.

Lemma StatusBadge_fallback status :
  configs status = Missing ->
  option_map Badge.label (StatusBadge status) = Some "Pending".
Proof. unfold StatusBadge. intros ->. reflexivity. Qed.

(** The panel under the header follows the same status. *)
Lemma ChatWorkspace_panels chat subLoading :
  ChatView.badgeStatus (ChatWorkspace chat subLoading) = Chat.status chat
  /\ (Chat.status chat = "pending" ->
      ChatView.panels (ChatWorkspace chat subLoading)
      = [ProgressPanel "Queued for Processing"])
  /\ (Chat.status chat = "processing" ->
      ChatView.panels (ChatWorkspace chat subLoading)
      = [ProgressPanel "Analysis in Progress"])
  /\ (Chat.status chat = "failed" ->
      ChatView.panels (ChatWorkspace chat subLoading) = [FailedPanel])
  /\ (forall r,
         Chat.status chat = "completed" ->
         Js.truthy_opt (Chat.analysis_result chat) = Some r ->
         ChatView.panels (ChatWorkspace chat subLoading) = [ResultsPanel r]).
Proof.
  unfold ChatWorkspace. cbn [ChatView.badgeStatus ChatView.panels].
  split; [reflexivity |].
  repeat split; intros; repeat match goal with
                               | H : Chat.status chat = _ |- _ => rewrite H
                               | H : Js.truthy_opt _ = _ |- _ => rewrite H
                               end; reflexivity.
Qed.

(** What [ChatWorkspace] and [StatusBadge] make of a row is a display of
    its status. *)
Lemma ChatWorkspace_shows_status chat subLoading :
  ShowsStatusOf
    (JobDisplay.mk
       (StatusBadge (ChatView.badgeStatus (ChatWorkspace chat subLoading)))
       (ChatView.panels (ChatWorkspace chat subLoading)))
    chat.
Proof.
  unfold ShowsStatusOf, ChatWorkspace.
  cbn [JobDisplay.badge JobDisplay.panels ChatView.badgeStatus
       ChatView.panels].
  repeat split; rewrite H; try reflexivity.
  destruct (Chat.analysis_result chat) as [[| a r] |]; reflexivity.
Qed.

(** C1.  Whenever a render shows a job, what it shows of the status, the
    text of the badge and the panel under the header, is that of the
    [status] field of a row of the snapshot the subscription holds at this
    render: ["Pending"], ["Processing"], ["Completed"] or ["Failed"] for the
    four statuses of a job, each with its own panel.  The row is the user's
    own and carries the selected identifier, and, identifiers being unique,
    it is the one row with that identifier.  Conversely the row of the
    selected identifier is always the one shown.  Of the local state only
    the selected identifier matters: the file, the query and the progress of
    a submission are not read. *)
Theorem displayed_status_is_snapshot_status auth userId reset st channel :
  (forall d,
      displayed (App auth userId reset st channel) = Some d ->
      exists chat,
        jobWithId (snapshot channel) (Chat.id chat) chat
        /\ selectedChatId st = Some (Chat.id chat)
        /\ userId = Some (Chat.user_id chat)
        /\ ShowsStatusOf d chat
        /\ (NoDup (map Chat.id (snapshot channel)) ->
            forall other,
              jobWithId (snapshot channel) (Chat.id chat) other ->
              other = chat))
  /\ (forall chat,
         Auth.isLoading auth = false ->
         reset = false ->
         Auth.isAuthenticated auth = true ->
         NoDup (map Chat.id (snapshot channel)) ->
         jobWithId (snapshot channel) (Chat.id chat) chat ->
         selectedChatId st = Some (Chat.id chat) ->
         userId = Some (Chat.user_id chat) ->
         exists d,
           displayed (App auth userId reset st channel) = Some d
           /\ ShowsStatusOf d chat)
  /\ (forall st',
         selectedChatId st' = selectedChatId st ->
         displayed (App auth userId reset st' channel)
         = displayed (App auth userId reset st channel)).
Proof.
  split; [| split].
  - intros d H.
    destruct (App auth userId reset st channel) as [| | | sidebar main] eqn:E;
      try discriminate.
    apply App_workspace in E as (_ & _ & _ & _ & Hmain).
    rewrite myChats_snapshot in Hmain.
    destruct (selectedChat (filter (ownedBy userId) (snapshot channel))
                           (selectedChatId st)) as [chat |] eqn:Hsel;
      subst main; [| discriminate].
    cbn [displayed] in H. injection H as <-.
    apply selectedChat_some in Hsel as [Hin Hid].
    apply filter_In in Hin as [Hin Hown]. apply ownedBy_iff in Hown.
    exists chat. split; [split; [assumption | reflexivity] |].
    split; [assumption |]. split; [assumption |].
    split;
      [exact (ChatWorkspace_shows_status chat (SubResult.loading channel)) |].
    intros Hnd other [Hother Hoid].
    apply (unique_by_id (snapshot channel)); assumption.
  - intros chat Hl -> Ha Hnd [Hin _] Hsel Hown.
    rewrite App_signed_in by assumption. rewrite myChats_snapshot.
    destruct (selectedChat (filter (ownedBy userId) (snapshot channel))
                           (selectedChatId st)) as [found |] eqn:E.
    + apply selectedChat_some in E as [Hfin Hfid].
      apply filter_In in Hfin as [Hfin _].
      assert (found = chat).
      { apply (unique_by_id (snapshot channel)); try assumption.
        congruence. }
      subst found. eexists. split; [reflexivity |].
      exact (ChatWorkspace_shows_status chat (SubResult.loading channel)).
    + exfalso.
      apply (proj1 (selectedChat_none _ _) E chat); [| assumption].
      apply filter_In. split; [assumption |].
      apply ownedBy_iff. assumption.
  - intros st' Hsame. unfold App. rewrite Hsame.
    destruct (Auth.isLoading auth); [reflexivity |].
    destruct reset; [reflexivity |].
    destruct (negb (Auth.isAuthenticated auth)); [reflexivity |].
    destruct (selectedChat _ _); reflexivity.
Qed.

Lemma displayed_status_witness :
  (exists d,
      displayed
        (App Scenario.signedIn (Some "u1") false Scenario.viewing
             (Scenario.channelOf Scenario.snapshot1))
      = Some d
      /\ option_map Badge.label (JobDisplay.badge d) = Some "Processing"
      /\ JobDisplay.panels d = [ProgressPanel "Analysis in Progress"])
  /\ (exists d,
         displayed
           (App Scenario.signedIn (Some "u1") false Scenario.viewing
                (Scenario.channelOf Scenario.snapshot2))
         = Some d
         /\ option_map Badge.label (JobDisplay.badge d) = Some "Completed"
         /\ JobDisplay.panels d = [ResultsPanel "All good."]).
Proof.
  split.
  - destruct (displayed_status_is_snapshot_status
                Scenario.signedIn (Some "u1") false Scenario.viewing
                (Scenario.channelOf Scenario.snapshot1)) as (_ & H & _).
    destruct (H (Scenario.job "j1" "u1" "processing" None
                              "2026-02-01T10:00:00"))
      as (d & Hd & _ & Hshows & _); try reflexivity.
    + repeat constructor; cbn; intuition discriminate.
    + split; [right; left; reflexivity | reflexivity].
    + exists d. split; [exact Hd |]. apply Hshows. reflexivity.
  - destruct (displayed_status_is_snapshot_status
                Scenario.signedIn (Some "u1") false Scenario.viewing
                (Scenario.channelOf Scenario.snapshot2)) as (_ & H & _).
    destruct (H (Scenario.job "j1" "u1" "completed" (Some "All good.")
                              "2026-02-01T10:00:00"))
      as (d & Hd & _ & _ & Hshows & _); try reflexivity.
    + repeat constructor; cbn; intuition discriminate.
    + split; [right; left; reflexivity | reflexivity].
    + exists d. split; [exact Hd |]. apply Hshows. reflexivity.
Defined.

(** C8.  The job list the workspace shows is the snapshot restricted to the
    rows whose owner is the current user: every such row, no other row, in
    the order of the snapshot (so newest first when the snapshot is).  The
    loading and error flags shown beside it are those of the channel. *)
Theorem projector_exposes_own_jobs_in_order
        auth userId reset st channel sidebar main :
  App auth userId reset st channel = Workspace sidebar main ->
  SidebarProps.myChats sidebar = filter (ownedBy userId) (snapshot channel)
  /\ (forall chat,
         In chat (SidebarProps.myChats sidebar) <->
         In chat (snapshot channel) /\ userId = Some (Chat.user_id chat))
  /\ (forall R : Chat.t -> Chat.t -> Prop,
         StronglySorted R (snapshot channel) ->
         StronglySorted R (SidebarProps.myChats sidebar))
  /\ SidebarProps.subLoading sidebar = SubResult.loading channel
  /\ SidebarProps.subError sidebar = SubResult.error channel.
Proof.
  intros H. apply App_workspace in H as (_ & _ & _ & -> & _).
  cbn [SidebarProps.myChats SidebarProps.subLoading SidebarProps.subError].
  rewrite myChats_snapshot.
  split; [reflexivity |]. split; [| split; [| split; reflexivity]].
  - intros chat. rewrite filter_In, ownedBy_iff. reflexivity.
  - intros R. apply filter_StronglySorted.
Qed.

Lemma projector_witness :
  exists sidebar main,
    App Scenario.signedIn (Some "u1") false Scenario.viewing
        (Scenario.channelOf Scenario.snapshot1)
    = Workspace sidebar main
    /\ SidebarProps.myChats sidebar
       = [Scenario.job "j1" "u1" "processing" None "2026-02-01T10:00:00"]
    /\ StronglySorted Scenario.newerFirst (SidebarProps.myChats sidebar).
Proof.
  eexists. eexists. split; [reflexivity |].
  pose proof (projector_exposes_own_jobs_in_order
                Scenario.signedIn (Some "u1") false Scenario.viewing
                (Scenario.channelOf Scenario.snapshot1) _ _ eq_refl)
    as (H & _ & Hsorted & _).
  split.
  - exact H.
  - apply (Hsorted Scenario.newerFirst).
    repeat constructor.
Defined.

(** C9 as stated fails: with a selected identifier that the snapshot does
    not hold, the screen is the very screen of no selection. *)
Lemma dangling_selection_is_not_told_apart :
  ~ (forall auth userId reset st channel i,
        selectedChatId st = Some i ->
        ~ In i (map Chat.id (snapshot channel)) ->
        ShowsNotYetAvailable auth userId reset st channel).
Proof.
  intros H.
  apply (H Scenario.signedIn (Some "u1") false Scenario.viewingNew
           (Scenario.channelOf Scenario.snapshot1) "j9" eq_refl).
  - cbn. intuition discriminate.
  - reflexivity.
Qed.

(** C9, amended.  Selection is a total lookup that yields nothing for an
    identifier the list does not hold; the render then falls back to the
    upload workspace with the current draft, which is the screen of no
    selection. *)
Theorem dangling_selection_falls_back_to_upload_workspace :
  (forall chats i,
      ~ In i (map Chat.id chats) -> selectedChat chats (Some i) = None)
  /\ (forall chats, selectedChat chats None = None)
  /\ (forall auth userId st channel i,
         Auth.isLoading auth = false ->
         Auth.isAuthenticated auth = true ->
         selectedChatId st = Some i ->
         ~ In i (map Chat.id (snapshot channel)) ->
         App auth userId false st channel
         = Workspace
             (SidebarProps.mk (filter (ownedBy userId) (snapshot channel))
                              None (SubResult.loading channel)
                              (SubResult.error channel))
             (UploadWorkspaceEl
                (UploadProps.mk (selectedFile st) (userQuery st)
                                (isProcessing st) (uploadProgress st)
                                (progressMessage st)))
         /\ App auth userId false st channel
            = App auth userId false (deselect st) channel).
Proof.
  assert (Hnone : forall chats i,
             ~ In i (map Chat.id chats) -> selectedChat chats (Some i) = None).
  { intros chats i H. apply selectedChat_none. intros chat Hin E.
    apply H. injection E as ->. apply in_map. assumption. }
  assert (Hnull : forall chats, selectedChat chats None = None).
  { intros chats. apply selectedChat_none. intros chat _. discriminate. }
  split; [exact Hnone |]. split; [exact Hnull |].
  intros auth userId st channel i Hl Ha Hsel Habsent.
  rewrite !App_signed_in by assumption.
  rewrite myChats_snapshot, Hsel. cbn [deselect selectedChatId selectedFile
    userQuery isProcessing uploadProgress progressMessage].
  rewrite Hnull, Hnone.
  - split; reflexivity.
  - intros Hin. apply Habsent. apply in_map_iff in Hin as (c & Hc & Hin).
    apply in_map_iff. exists c. split; [assumption |].
    apply filter_In in Hin as [Hin _]. assumption.
Qed.

Lemma dangling_selection_witness :
  App Scenario.signedIn (Some "u1") false Scenario.viewingNew
      (Scenario.channelOf Scenario.snapshot1)
  = App Scenario.signedIn (Some "u1") false (deselect Scenario.viewingNew)
        (Scenario.channelOf Scenario.snapshot1).
Proof.
  destruct dangling_selection_falls_back_to_upload_workspace as (_ & _ & H).
  apply (H Scenario.signedIn (Some "u1") Scenario.viewingNew
           (Scenario.channelOf Scenario.snapshot1) "j9").
  - reflexivity.
  - reflexivity.
  - reflexivity.
  - cbn. intuition discriminate.
Defined.

(** ** The stand-alone components

    What [FileUpload.js] and [ChatHistory.js] would do if they were
    mounted; [index.js] mounts [App] alone, so none of this is reachable, and
    the properties above are those of the pipeline of [App]. *)

Lemma FileUpload_writes_processing env userId file meta :
  FileUploadComponent.upload env file
  = Resolved (FileUploadComponent.StorageResult.mk (Some meta) None) ->
  FileUploadComponent.insertChat
    env (FileUploadComponent.INSERT_CHAT userId (FileMeta.id meta)
                                         (File.name file))
  = Resolved tt ->
  FileUploadComponent.handleFileChange env userId (Some file)
  = (Normal tt,
     [FileUploadComponent.Upload file;
      FileUploadComponent.Mutate
        (FileUploadComponent.InsertObject.mk userId (FileMeta.id meta)
                                             (File.name file) "processing");
      FileUploadComponent.ConsoleLog "File stored with ID:" (FileMeta.id meta)]).
Proof.
  intros Hu Hi. unfold FileUploadComponent.handleFileChange.
  rewrite Hu. cbn. unfold FileUploadComponent.INSERT_CHAT in *.
  rewrite Hi. reflexivity.
Qed.

Lemma FileUpload_upload_error env userId file meta e :
  FileUploadComponent.upload env file
  = Resolved (FileUploadComponent.StorageResult.mk meta (Some e)) ->
  exists msg,
    FileUploadComponent.handleFileChange env userId (Some file)
    = (Normal tt,
       [FileUploadComponent.Upload file; FileUploadComponent.Alert msg]).
Proof.
  intros Hu. unfold FileUploadComponent.handleFileChange.
  rewrite Hu. cbn. eexists. reflexivity.
Qed.

Lemma ChatHistory_lists_every_row chats :
  ChatHistoryComponent.ChatHistory
    (ChatHistoryComponent.QueryResult.mk (Some (SubData.mk (Some chats)))
                                         false)
  = Normal
      (ChatHistoryComponent.History
         (map (fun chat =>
                 ChatHistoryComponent.Item.mk
                   (Chat.id chat) (Chat.file_name chat)
                   ("Status: " ++ Chat.status chat)
                   (Js.truthy_opt (Chat.analysis_result chat)))
              chats)).
Proof. reflexivity. Qed.

(** * Further properties of the code *)

(** ** [validateFile] for arbitrary options *)

Lemma includes_In l s : Js.includes l s = true <-> In s l.
Proof.
  unfold Js.includes. rewrite existsb_exists. split.
  - intros (x & Hin & E). apply String.eqb_eq in E. subst. assumption.
  - intros H. exists s. split; [assumption | apply String.eqb_refl].
Qed.

(** X1.  Whatever the options, a selection is accepted exactly when there
    is a file, its size is at most the limit in MB (10 when the options give
    none) times 2^20 bytes, and its type is one of the allowed types
    ([application/pdf] alone when the options give none). *)
Theorem validateFile_accepts_exactly file options :
  Validation.valid (validateFile file options) = true <->
  exists f,
    file = Some f
    /\ (File.size f
        <= match Options.maxSizeMB options with Some m => m | None => 10 end
           * 1048576)%N
    /\ In (File.type f)
          match Options.allowedTypes options with
          | Some l => l
          | None => ["application/pdf"]
          end.
Proof.
  unfold validateFile.
  set (limit := match Options.maxSizeMB options with
                | Some m => m | None => 10%N end).
  set (types := match Options.allowedTypes options with
                | Some l => l | None => ["application/pdf"] end).
  destruct file as [f |].
  - destruct (negb (Qle_bool (fileSizeMB f) (inject_Z (Z.of_N limit))))
      eqn:Esize.
    + apply exceeds_limit_iff in Esize. cbn. split; [discriminate |].
      intros (g & [= <-] & Hs & _). lia.
    + apply within_limit_iff in Esize.
      destruct (Js.includes types (File.type f)) eqn:Etype; cbn.
      * apply includes_In in Etype. split; [| reflexivity].
        intros _. exists f. auto.
      * split; [discriminate |].
        intros (g & [= <-] & _ & Hin). apply includes_In in Hin. congruence.
  - cbn. split; [discriminate |]. intros (g & E & _). discriminate.
Qed.

(** X2.  A verdict carries an error message exactly when it is invalid, and
    the message is never empty: the alert of [handleFileChange] always has a
    text to show. *)
Theorem validateFile_error_iff_invalid file options :
  (Validation.valid (validateFile file options) = true ->
   Validation.error (validateFile file options) = None)
  /\ (Validation.valid (validateFile file options) = false ->
      exists msg,
        Validation.error (validateFile file options) = Some msg
        /\ Js.truthy msg = true).
Proof.
  unfold validateFile.
  destruct file as [f |]; [| cbn; split; [discriminate | eauto]].
  destruct (negb (Qle_bool _ _)); [cbn; split; [discriminate | eauto] |].
  destruct (negb (Js.includes _ _)); cbn; split;
    try discriminate; eauto.
Qed.

Lemma validateFile_error_witness :
  exists msg,
    Validation.error (validateFile (Some Scenario.smallPng) Options.empty)
    = Some msg
    /\ Js.truthy msg = true.
Proof.
  apply (validateFile_error_iff_invalid (Some Scenario.smallPng)
                                       Options.empty).
  reflexivity.
Defined.

Lemma hundredths_just_over size :
  (10485760 < size <= 10491002)%N -> hundredths size = 1000%N.
Proof.
  intros H. unfold hundredths. symmetry.
  apply (N.div_unique _ _ _ (200 * size + 1048576 - 2097152 * 1000)); lia.
Qed.

Lemma hundredths_monotone a b :
  (a <= b)%N -> (hundredths a <= hundredths b)%N.
Proof.
  intros H. unfold hundredths. apply N.Div0.div_le_mono. lia.
Qed.

(** X3.  The size printed in a too-large answer is never below the limit,
    but it can be equal to it: a file up to 5242 bytes above 10 MB is
    turned down with ["File size exceeds 10MB limit (10.00MB)"]. *)
Theorem too_large_message_near_limit file :
  (10 * 1048576 < File.size file)%N ->
  (1000 <= hundredths (File.size file))%N
  /\ ((File.size file <= 10491002)%N ->
      validateFile (Some file) appOptions
      = Validation.mk false
          (Some "File size exceeds 10MB limit (10.00MB)")).
Proof.
  intros H. split.
  - change 1000%N with (hundredths 10485760).
    apply hundredths_monotone. lia.
  - intros Hle. rewrite validateFile_too_large by assumption.
    rewrite hundredths_just_over by lia. reflexivity.
Qed.

Lemma too_large_message_witness :
  validateFile (Some (File.mk "edge.pdf" 10485761 "application/pdf"))
               appOptions
  = Validation.mk false (Some "File size exceeds 10MB limit (10.00MB)").
Proof.
  apply (too_large_message_near_limit
           (File.mk "edge.pdf" 10485761 "application/pdf")).
  - reflexivity.
  - cbn. lia.
Defined.

Lemma validateFile_accepts_witness :
  Validation.valid (validateFile (Some Scenario.pdf) Options.empty) = true.
Proof.
  apply (validateFile_accepts_exactly (Some Scenario.pdf) Options.empty).
  exists Scenario.pdf. split; [reflexivity |]. split.
  - cbn. lia.
  - left. reflexivity.
Defined.

(** ** The handlers of [App], in every environment *)

(** What a handler has already recorded does not change what it does next:
    running from a world with a trace [t] is running from the empty trace
    and putting [t] in front. *)
Lemma submissionSteps_frame env file uid q s t :
  submissionSteps env file uid q (mkWorld s t)
  = (fst (submissionSteps env file uid q (mkWorld s [])),
     mkWorld (state (snd (submissionSteps env file uid q (mkWorld s []))))
             (t ++ trace (snd (submissionSteps env file uid q
                                               (mkWorld s []))))).
Proof.
  unfold submissionSteps. cbn [state trace].
  destruct (uploadStep (upload env file)); [| reflexivity].
  cbv zeta.
  destruct (registerStep _); [| reflexivity].
  destruct (triggerStep _); reflexivity.
Qed.

Lemma handler_frame env userId st t :
  handleUploadAndAnalyze env userId (mkWorld st t)
  = (fst (run (handleUploadAndAnalyze env userId) st),
     mkWorld (state (snd (run (handleUploadAndAnalyze env userId) st)))
             (t ++ trace (snd (run (handleUploadAndAnalyze env userId) st)))).
Proof.
  destruct st as [ip sf uq up pm sc].
  unfold run, handleUploadAndAnalyze, try_catch_finally. exec.
  destruct sf as [file |]; [| reflexivity].
  destruct (Js.truthy_opt userId) as [uid |]; [| reflexivity].
  rewrite !submission_steps.
  rewrite submissionSteps_frame.
  match goal with
  | |- context [submissionSteps ?e ?f ?u ?q ?w] =>
      destruct (submissionSteps e f u q w) as [[[] | [msg | | |]] [s' t']]
  end; cbv beta iota; cbn [fst snd state trace];
    rewrite <- ?app_assoc; reflexivity.
Qed.

(** The five ways a run can go, with what each leaves and records. *)
Lemma handler_cases env userId st :
  (run (handleUploadAndAnalyze env userId) st
   = (Normal tt,
      mkWorld st [Alert "Please select a file and ensure you're logged in."])
   /\ (selectedFile st = None \/ Js.truthy_opt userId = None))
  \/ exists file uid,
       selectedFile st = Some file
       /\ Js.truthy_opt userId = Some uid
       /\ ((exists err,
               uploadStep (upload env file) = Stops err
               /\ run (handleUploadAndAnalyze env userId) st
                  = stopped st 10 PROGRESS_MESSAGES.uploading
                            [Upload file] err)
           \/ (exists fileId err,
                  uploadStep (upload env file) = Gives fileId
                  /\ registerStep
                       (insertChat env
                                   (registerVars file (userQuery st) fileId))
                     = Stops err
                  /\ run (handleUploadAndAnalyze env userId) st
                     = stopped st 50 PROGRESS_MESSAGES.queueing
                               [Upload file;
                                Mutate (INSERT_CHAT
                                          (registerVars file (userQuery st)
                                                        fileId))]
                               err)
           \/ (exists fileId chatId err,
                  uploadStep (upload env file) = Gives fileId
                  /\ registerStep
                       (insertChat env
                                   (registerVars file (userQuery st) fileId))
                     = Gives chatId
                  /\ triggerStep
                       (fetch env RENDER_API_URL
                              (triggerBody uid (userQuery st) fileId chatId))
                     = Stops err
                  /\ run (handleUploadAndAnalyze env userId) st
                     = stopped st 75 PROGRESS_MESSAGES.processing
                               [Upload file;
                                Mutate (INSERT_CHAT
                                          (registerVars file (userQuery st)
                                                        fileId));
                                Fetch RENDER_API_URL
                                      (triggerBody uid (userQuery st)
                                                   fileId chatId)]
                               err)
           \/ (exists fileId chatId,
                  SubmissionSucceeds env file uid (userQuery st)
                                     fileId chatId
                  /\ run (handleUploadAndAnalyze env userId) st
                     = (Normal tt,
                        mkWorld (mkState false None [] 0 EmptyString
                                         (Some chatId))
                                [Upload file;
                                 Mutate (INSERT_CHAT
                                           (registerVars file (userQuery st)
                                                         fileId));
                                 Fetch RENDER_API_URL
                                       (triggerBody uid (userQuery st)
                                                    fileId chatId);
                                 ClearFileInput]))).
Proof.
  destruct (selectedFile st) as [file |] eqn:Hf;
    [| left; split; [apply handler_guard |]; auto].
  destruct (Js.truthy_opt userId) as [uid |] eqn:Hu;
    [| left; split; [apply handler_guard |]; auto].
  right. exists file, uid. split; [reflexivity |]. split; [reflexivity |].
  destruct (submission_succeeds_or_stops env file uid (userQuery st))
    as [(fileId & chatId & Hok)
       | [(err & Hs)
         | [(fileId & err & Hs & Hr)
           | (fileId & chatId & err & Hs & Hr & Ht)]]].
  - right; right; right. exists fileId, chatId. split; [assumption |].
    apply (handler_succeeds env userId st file uid fileId chatId);
      assumption.
  - left. exists err. split; [assumption |].
    apply (handler_upload_stops env userId st file uid err); assumption.
  - right; left. exists fileId, err. split; [assumption |].
    split; [assumption |].
    apply (handler_register_stops env userId st file uid fileId err);
      assumption.
  - right; right; left. exists fileId, chatId, err.
    split; [assumption |]. split; [assumption |]. split; [assumption |].
    apply (handler_trigger_stops env userId st file uid fileId chatId err);
      assumption.
Qed.

(** A case split on the run: the guard, a step that stopped the sequence
    with an alert, a step that stopped it and made the [catch] block throw,
    for each of the three steps, and the completed submission. *)
Ltac handler_by_cases env userId st :=
  let H := fresh "Hrun" in
  destruct (handler_cases env userId st)
    as [[H ?]
       | (?file & ?uid & ?Hf & ?Hu
          & [(?err & ?Hs & H)
            | [(?fileId & ?err & ?Hs & ?Hr & H)
              | [(?fileId & ?chatId & ?err & ?Hs & ?Hr & ?Ht & H)
                | (?fileId & ?chatId & ?Hok & H)]]])];
  rewrite H; unfold stopped;
  try match goal with
      | |- context [messageOf ?e] =>
          let text := fresh "text" in
          let typeError := fresh "typeError" in
          destruct (messageOf e) as [text | typeError] eqn:?Hmessage
      end;
  cbn [fst snd state trace app].

(** A step that was given an answer stops with an [Error]; what stops a
    sequence with anything else is a rejection. *)
Lemma uploadStep_resolved_stops r err :
  uploadStep (Resolved r) = Stops err -> exists msg, err = Error msg.
Proof.
  intros H. apply uploadStep_stops in H as [[_ ->] | (_ & _ & ->)]; eauto.
Qed.

Lemma registerStep_resolved_stops r err :
  registerStep (Resolved r) = Stops err -> exists msg, err = Error msg.
Proof.
  intros H.
  apply registerStep_stops in H as [(errs & _ & ->) | (_ & _ & ->)]; eauto.
Qed.

Lemma triggerStep_resolved_stops r err :
  triggerStep (Resolved r) = Stops err -> exists msg, err = Error msg.
Proof.
  intros H. apply triggerStep_stops in H as [_ ->]. eauto.
Qed.

(** How a run that got past the guard ends: it throws exactly when the
    rejection that stopped it has [undefined] or [null] for its reason. *)
Lemma handler_completion env userId st file uid :
  selectedFile st = Some file ->
  Js.truthy_opt userId = Some uid ->
  fst (run (handleUploadAndAnalyze env userId) st)
  = match rejection env file uid (userQuery st) with
    | Some Undefined =>
        Throw
          (Error "Cannot read properties of undefined (reading 'message')")
    | Some Null =>
        Throw (Error "Cannot read properties of null (reading 'message')")
    | _ => Normal tt
    end.
Proof.
  intros Hf Hu. unfold rejection.
  destruct (submission_succeeds_or_stops env file uid (userQuery st))
    as [(fileId & chatId & Hok)
       | [(err & Hs)
         | [(fileId & err & Hs & Hr)
           | (fileId & chatId & err & Hs & Hr & Ht)]]].
  - rewrite (handler_succeeds env userId st file uid fileId chatId Hf Hu Hok).
    destruct Hok as (Hs & Hr & Ht). rewrite Hs, Hr.
    destruct (upload env file); [| discriminate].
    destruct (insertChat env _); [| discriminate].
    destruct (fetch env _ _); [reflexivity | discriminate].
  - rewrite (handler_upload_stops env userId st file uid err Hf Hu Hs).
    rewrite Hs.
    destruct (upload env file) as [r | reason].
    + apply uploadStep_resolved_stops in Hs as [msg ->]. reflexivity.
    + injection Hs as ->. destruct err; reflexivity.
  - rewrite (handler_register_stops env userId st file uid fileId err
                                    Hf Hu Hs Hr).
    rewrite Hs, Hr.
    destruct (upload env file); [| discriminate].
    destruct (insertChat env _) as [r | reason].
    + apply registerStep_resolved_stops in Hr as [msg ->]. reflexivity.
    + injection Hr as ->. destruct err; reflexivity.
  - rewrite (handler_trigger_stops env userId st file uid fileId chatId err
                                   Hf Hu Hs Hr Ht).
    rewrite Hs, Hr.
    destruct (upload env file); [| discriminate].
    destruct (insertChat env _); [| discriminate].
    destruct (fetch env _ _) as [r | reason].
    + apply triggerStep_resolved_stops in Ht as [msg ->]. reflexivity.
    + injection Ht as ->. destruct err; reflexivity.
Qed.

Ltac split_trace E :=
  lazymatch type of E with
  | [] = (?pre ++ _ :: _)%list => destruct pre; discriminate E
  | (_ :: _) = (?pre ++ _ :: _)%list =>
      let e := fresh "e" in
      let E' := fresh "E" in
      destruct pre as [| e pre]; cbn [app] in E;
      [ inversion E; subst
      | injection E as <- E'; split_trace E' ]
  end.

(** X4.  A file that passes the validator becomes the selected file, the
    progress is reset, the query and the selected job are kept, and nothing
    is shown or sent. *)
Theorem handleFileChange_accepts file st :
  (File.size file <= 10 * 1048576)%N ->
  File.type file = "application/pdf" ->
  run (handleFileChange (Some file)) st
  = (Normal tt,
     mkWorld (mkState (isProcessing st) (Some file) (userQuery st) 0
                      EmptyString (selectedChatId st))
             []).
Proof.
  intros Hs Ht. unfold run, handleFileChange.
  rewrite (validateFile_accepts file Hs Ht). cbn [Validation.valid negb].
  exec. reflexivity.
Qed.

Lemma handleFileChange_accepts_witness :
  state (snd (run (handleFileChange (Some Scenario.pdf)) Scenario.viewing))
  = mkState true (Some Scenario.pdf) [] 0 EmptyString (Some "j1").
Proof.
  rewrite (handleFileChange_accepts Scenario.pdf Scenario.viewing).
  - reflexivity.
  - cbn. lia.
  - reflexivity.
Defined.

(** X5.  A selection that the validator turns down does not replace the
    file selected before: the next submission proceeds exactly as if the
    rejected selection had not happened, and uploads the earlier file. *)
Theorem rejected_selection_keeps_previous_file env userId st bad :
  Validation.valid (validateFile bad appOptions) = false ->
  exists msg,
    snd (run (bind (handleFileChange bad)
                   (fun _ => handleUploadAndAnalyze env userId)) st)
    = mkWorld (state (snd (run (handleUploadAndAnalyze env userId) st)))
              ([Alert msg; ClearFileInput]
               ++ trace (snd (run (handleUploadAndAnalyze env userId) st)))
    /\ forall previous uid,
         selectedFile st = Some previous ->
         Js.truthy_opt userId = Some uid ->
         uploads
           (trace (snd (run (bind (handleFileChange bad)
                                  (fun _ => handleUploadAndAnalyze env userId))
                            st)))
         = [previous].
Proof.
  intros Hbad.
  assert (Hrun : exists msg,
             snd (run (bind (handleFileChange bad)
                            (fun _ => handleUploadAndAnalyze env userId)) st)
             = mkWorld
                 (state (snd (run (handleUploadAndAnalyze env userId) st)))
                 ([Alert msg; ClearFileInput]
                  ++ trace (snd (run (handleUploadAndAnalyze env userId)
                                     st)))).
  { eexists. unfold run at 1. unfold bind at 1. unfold handleFileChange.
    rewrite Hbad. cbn [negb]. exec. cbn [app].
    rewrite handler_frame. reflexivity. }
  destruct Hrun as (msg & Hrun). exists msg. split; [exact Hrun |].
  intros previous uid Hf Hu. rewrite Hrun. cbn [trace app uploads flat_map].
  handler_by_cases env userId st;
    try (match goal with H : _ \/ _ |- _ => destruct H; congruence end);
    match goal with
    | H1 : selectedFile st = Some ?a, H2 : selectedFile st = Some ?b |- _ =>
        rewrite H1 in H2; injection H2 as ->
    end; reflexivity.
Qed.

Lemma rejected_selection_witness :
  uploads
    (trace (snd (run (bind (handleFileChange (Some Scenario.bigPdf))
                           (fun _ => handleUploadAndAnalyze Scenario.envOk
                                                            (Some "u1")))
                     Scenario.draft)))
  = [Scenario.pdf].
Proof.
  destruct (rejected_selection_keeps_previous_file
              Scenario.envOk (Some "u1") Scenario.draft
              (Some Scenario.bigPdf) eq_refl) as (msg & _ & H).
  apply (H Scenario.pdf "u1"); reflexivity.
Defined.

(** X6.  The Cancel button only clears the file input element: the state,
    and with it the selected file, stays, and a submission started
    afterwards proceeds as if Cancel had not been clicked. *)
Theorem cancel_keeps_selection env userId st :
  run cancelClick st = (Normal tt, mkWorld st [ClearFileInput])
  /\ snd (run (bind cancelClick
                    (fun _ => handleUploadAndAnalyze env userId)) st)
     = mkWorld (state (snd (run (handleUploadAndAnalyze env userId) st)))
               (ClearFileInput
                :: trace (snd (run (handleUploadAndAnalyze env userId) st))).
Proof.
  split; [reflexivity |].
  unfold run at 1. unfold bind, cancelClick, emit. cbn [state trace app].
  rewrite handler_frame. reflexivity.
Qed.

(** X7.  The handler never leaves the processing flag set: after a run
    that got past the guard the flag is off, whatever the collaborators
    answered or threw and even when the [catch] block itself throws, because
    the [finally] block runs in every case; after a run that the guard
    stopped the whole state is as before.  The handler catches what the
    collaborators throw with one exception: when the call that stopped the
    submission was rejected with [undefined] or [null] for a reason, reading
    [err.message] in the [catch] block throws a [TypeError] and the handler
    ends with it.  In every other run it returns normally. *)
Theorem handler_never_stays_processing env userId st :
  let r := run (handleUploadAndAnalyze env userId) st in
  (forall file uid,
      selectedFile st = Some file ->
      Js.truthy_opt userId = Some uid ->
      isProcessing (state (snd r)) = false
      /\ fst r
         = match rejection env file uid (userQuery st) with
           | Some Undefined =>
               Throw
                 (Error
                    "Cannot read properties of undefined (reading 'message')")
           | Some Null =>
               Throw
                 (Error
                    "Cannot read properties of null (reading 'message')")
           | _ => Normal tt
           end)
  /\ (forall file uid reason,
         upload env file = Rejected reason ->
         rejection env file uid (userQuery st) = Some reason)
  /\ (forall file uid fileId reason,
         uploadStep (upload env file) = Gives fileId ->
         insertChat env (registerVars file (userQuery st) fileId)
         = Rejected reason ->
         rejection env file uid (userQuery st) = Some reason)
  /\ (forall file uid fileId chatId reason,
         uploadStep (upload env file) = Gives fileId ->
         registerStep
           (insertChat env (registerVars file (userQuery st) fileId))
         = Gives chatId ->
         fetch env RENDER_API_URL
               (triggerBody uid (userQuery st) fileId chatId)
         = Rejected reason ->
         rejection env file uid (userQuery st) = Some reason)
  /\ (selectedFile st = None \/ Js.truthy_opt userId = None ->
      fst r = Normal tt /\ state (snd r) = st).
Proof.
  cbv zeta. split; [| split; [| split; [| split]]].
  - intros file uid Hf Hu. split.
    + handler_by_cases env userId st; try reflexivity.
      match goal with H : _ \/ _ |- _ => destruct H; congruence end.
    + apply handler_completion; assumption.
  - intros file uid reason Hup. unfold rejection. rewrite Hup.
    reflexivity.
  - intros file uid fileId reason Hs Hins. unfold rejection.
    rewrite Hs, Hins.
    destruct (upload env file); [reflexivity | discriminate].
  - intros file uid fileId chatId reason Hs Hr Hfetch. unfold rejection.
    rewrite Hs, Hr, Hfetch.
    destruct (upload env file); [| discriminate].
    destruct (insertChat env _); [reflexivity | discriminate].
  - intros H. rewrite handler_guard by assumption. split; reflexivity.
Qed.

Lemma handler_never_stays_processing_witness :
  isProcessing
    (state (snd (run (handleUploadAndAnalyze
                        (mkEnv (fun _ => Rejected Undefined)
                               (fun _ => Scenario.registeredAs "j1")
                               (fun _ _ => Scenario.respond true 200 "{}"))
                        (Some "u1"))
                     Scenario.draft)))
  = false
  /\ fst (run (handleUploadAndAnalyze
                 (mkEnv (fun _ => Rejected Undefined)
                        (fun _ => Scenario.registeredAs "j1")
                        (fun _ _ => Scenario.respond true 200 "{}"))
                 (Some "u1"))
              Scenario.draft)
     = Throw (Error "Cannot read properties of undefined (reading 'message')")
  /\ fst (run (handleUploadAndAnalyze Scenario.envUploadError (Some "u1"))
              Scenario.draft)
     = Normal tt.
Proof.
  split; [| split].
  - apply (handler_never_stays_processing
             (mkEnv (fun _ => Rejected Undefined)
                    (fun _ => Scenario.registeredAs "j1")
                    (fun _ _ => Scenario.respond true 200 "{}"))
             (Some "u1") Scenario.draft) with (file := Scenario.pdf)
                                              (uid := "u1");
      reflexivity.
  - destruct (handler_never_stays_processing
                (mkEnv (fun _ => Rejected Undefined)
                       (fun _ => Scenario.registeredAs "j1")
                       (fun _ _ => Scenario.respond true 200 "{}"))
                (Some "u1") Scenario.draft) as (H & _).
    destruct (H Scenario.pdf "u1" eq_refl eq_refl) as [_ E].
    rewrite E. reflexivity.
  - destruct (handler_never_stays_processing
                Scenario.envUploadError (Some "u1") Scenario.draft)
      as (H & _).
    destruct (H Scenario.pdf "u1" eq_refl eq_refl) as [_ E].
    rewrite E. reflexivity.
Defined.

(** X8.  In every run each collaborator is called at most once, and in the
    order upload, register, trigger: a registry write has an upload before
    it and no trigger, and nothing is written after it; a trigger call has a
    registry write before it and no second call after it. *)
Theorem collaborators_called_in_order env userId st :
  let t := trace (snd (run (handleUploadAndAnalyze env userId) st)) in
  (length (uploads t) <= 1)%nat
  /\ (length (registry_writes t) <= 1)%nat
  /\ (length (trigger_calls t) <= 1)%nat
  /\ (forall object before after,
         t = (before ++ Mutate object :: after)%list ->
         uploads before <> []
         /\ trigger_calls before = []
         /\ registry_writes after = [])
  /\ (forall url body before after,
         t = (before ++ Fetch url body :: after)%list ->
         registry_writes before <> []
         /\ trigger_calls after = []).
Proof.
  cbv zeta.
  handler_by_cases env userId st;
    (split; [cbn; lia |]); (split; [cbn; lia |]); (split; [cbn; lia |]);
    (split; [intros object before after E | intros url body before after E]);
    split_trace E; subst; cbn; repeat split; try reflexivity;
    try discriminate.
Qed.

Lemma collaborators_order_witness :
  uploads [Upload Scenario.pdf] <> []
  /\ trigger_calls [Upload Scenario.pdf] = [].
Proof.
  destruct (collaborators_called_in_order
              Scenario.envOk (Some "u1") Scenario.draft)
    as (_ & _ & _ & H & _).
  destruct (H (InsertObject.mk "f1" "report.pdf" "pending" DEFAULT_QUERY)
              [Upload Scenario.pdf]
              [Fetch RENDER_API_URL
                     (AnalyzeBody.mk "j1" "f1" "u1" DEFAULT_QUERY);
               ClearFileInput] eq_refl) as (H1 & H2 & _).
  split; assumption.
Defined.

(** X9.  Whenever both a registry write and a trigger call are made, they
    speak of the same submission: the call goes to the fixed endpoint and
    carries the file identifier and the query of the row and the identifier
    of the signed-in user, and the row has the name of the one file that was
    uploaded, which is the selected file. *)
Theorem trigger_agrees_with_registered_row env userId st object url body :
  In object
     (registry_writes
        (trace (snd (run (handleUploadAndAnalyze env userId) st)))) ->
  In (url, body)
     (trigger_calls
        (trace (snd (run (handleUploadAndAnalyze env userId) st)))) ->
  url = RENDER_API_URL
  /\ AnalyzeBody.file_id body = InsertObject.file_id object
  /\ AnalyzeBody.query body = InsertObject.query object
  /\ userId = Some (AnalyzeBody.user_id body)
  /\ exists file,
       selectedFile st = Some file
       /\ uploads (trace (snd (run (handleUploadAndAnalyze env userId) st)))
          = [file]
       /\ InsertObject.file_name object = File.name file.
Proof.
  assert (Huid : forall uid, Js.truthy_opt userId = Some uid ->
                             userId = Some uid).
  { intros uid. destruct userId as [[| a s] |]; cbn; congruence. }
  handler_by_cases env userId st; cbn; intros Ho Hc;
    try contradiction;
    repeat match goal with
           | H : _ \/ False |- _ => destruct H as [H | []]
           end.
  all: subst object; injection Hc as <- <-; cbn; repeat split; auto;
    exists file; auto.
Qed.

Lemma trigger_agrees_witness :
  AnalyzeBody.file_id (AnalyzeBody.mk "j1" "f1" "u1" DEFAULT_QUERY)
  = InsertObject.file_id
      (InsertObject.mk "f1" "report.pdf" "pending" DEFAULT_QUERY).
Proof.
  destruct (trigger_agrees_with_registered_row
              Scenario.env500 (Some "u1") Scenario.draft
              (InsertObject.mk "f1" "report.pdf" "pending" DEFAULT_QUERY)
              RENDER_API_URL (AnalyzeBody.mk "j1" "f1" "u1" DEFAULT_QUERY))
    as (_ & H & _).
  - left. reflexivity.
  - left. reflexivity.
  - exact H.
Defined.

(** X10.  A run ends in one of three ways.  It completes the submission:
    it shows no alert, clears the draft and selects the new job.  Or it
    shows exactly one alert and returns normally, leaving the selected file,
    the query and the selected job as they were.  Or it shows no alert and
    throws, which happens only when the call that stopped the submission was
    rejected with [undefined] or [null] for a reason; the selected file, the
    query and the selected job are then as they were too, and the
    processing flag is off. *)
Theorem handler_completes_alerts_or_throws env userId st :
  let r := run (handleUploadAndAnalyze env userId) st in
  (fst r = Normal tt
   /\ alerts (trace (snd r)) = []
   /\ exists chatId,
        state (snd r) = mkState false None [] 0 EmptyString (Some chatId))
  \/ (fst r = Normal tt
      /\ (exists msg, alerts (trace (snd r)) = [msg])
      /\ selectedFile (state (snd r)) = selectedFile st
      /\ userQuery (state (snd r)) = userQuery st
      /\ selectedChatId (state (snd r)) = selectedChatId st)
  \/ ((exists thrown, fst r = Throw thrown)
      /\ (exists file uid,
             selectedFile st = Some file
             /\ Js.truthy_opt userId = Some uid
             /\ (rejection env file uid (userQuery st) = Some Undefined
                 \/ rejection env file uid (userQuery st) = Some Null))
      /\ alerts (trace (snd r)) = []
      /\ selectedFile (state (snd r)) = selectedFile st
      /\ userQuery (state (snd r)) = userQuery st
      /\ selectedChatId (state (snd r)) = selectedChatId st
      /\ isProcessing (state (snd r)) = false).
Proof.
  cbv zeta.
  assert (Hnullish : forall file uid typeError,
             selectedFile st = Some file ->
             Js.truthy_opt userId = Some uid ->
             fst (run (handleUploadAndAnalyze env userId) st)
             = Throw typeError ->
             rejection env file uid (userQuery st) = Some Undefined
             \/ rejection env file uid (userQuery st) = Some Null).
  { intros file uid typeError Hf Hu Hthrow.
    rewrite (handler_completion env userId st file uid Hf Hu) in Hthrow.
    destruct (rejection env file uid (userQuery st)) as [[m | | |] |];
      try discriminate Hthrow; auto. }
  handler_by_cases env userId st;
    try (right; left; split; [reflexivity |];
         split; [eexists; reflexivity |]; repeat split; reflexivity);
    try (left; split; [reflexivity |]; split; [reflexivity |];
         eexists; reflexivity);
    right; right;
    (split; [eexists; reflexivity |]);
    (split;
     [ exists file, uid; split; [assumption |]; split; [assumption |];
       apply (Hnullish file uid typeError Hf Hu);
       rewrite Hrun; unfold stopped; rewrite Hmessage; reflexivity
     | repeat split; reflexivity ]).
Qed.

Lemma handler_completes_alerts_or_throws_witness :
  alerts
    (trace (snd (run (handleUploadAndAnalyze
                        (mkEnv (fun _ => Scenario.uploadedAs "f1")
                               (fun _ => Rejected Null)
                               (fun _ _ => Scenario.respond true 200 "{}"))
                        (Some "u1"))
                     Scenario.draftWithQuery)))
  = []
  /\ userQuery
       (state (snd (run (handleUploadAndAnalyze
                           (mkEnv (fun _ => Scenario.uploadedAs "f1")
                                  (fun _ => Rejected Null)
                                  (fun _ _ => Scenario.respond true 200 "{}"))
                           (Some "u1"))
                        Scenario.draftWithQuery)))
     = units "  risks ".
Proof.
  destruct (handler_completes_alerts_or_throws
              (mkEnv (fun _ => Scenario.uploadedAs "f1")
                     (fun _ => Rejected Null)
                     (fun _ _ => Scenario.respond true 200 "{}"))
              (Some "u1") Scenario.draftWithQuery)
    as [(H & _) | [(H & _) | (_ & _ & Ha & _ & Hq & _)]].
  - vm_compute in H. discriminate H.
  - vm_compute in H. discriminate H.
  - split; [exact Ha | exact Hq].
Defined.

(** ** The effective query *)

Lemma trim_idempotent q : trim (trim q) = trim q.
Proof.
  symmetry. apply Trimmed_trim.
  destruct (trim_Trimmed q) as (l & r & _ & _ & _ & Hhead & Hlast).
  exists [], []. cbn [app]. rewrite app_nil_r.
  repeat split; assumption.
Qed.

(** X11.  The query sent to the registry and to the analysis service is
    never empty and neither starts nor ends with white space; computing it
    again from itself changes nothing, and the same holds for [trim]. *)
Theorem finalQuery_is_never_blank q :
  finalQuery q <> []
  /\ (forall u rest, finalQuery q = u :: rest -> isWhiteSpace u = false)
  /\ (forall u front,
         finalQuery q = (front ++ [u])%list -> isWhiteSpace u = false)
  /\ finalQuery (finalQuery q) = finalQuery q
  /\ trim (trim q) = trim q.
Proof.
  destruct (trim_Trimmed q) as (l & r & _ & _ & _ & Hhead & Hlast).
  pose proof (trim_idempotent q) as Hidem.
  pose proof (finalQuery_trim q) as Hq.
  destruct (trim q) as [| a t] eqn:E; rewrite Hq.
  - split; [discriminate |]. split; [| split; [| split]].
    + intros u rest H. injection H as <- _. reflexivity.
    + intros u front H.
      assert (Hl : last DEFAULT_QUERY 0%N = last (front ++ [u])%list 0%N)
        by (rewrite H; reflexivity).
      rewrite last_last in Hl. subst u. reflexivity.
    + reflexivity.
    + reflexivity.
  - split; [discriminate |]. split; [| split; [| split]].
    + apply Hhead.
    + apply Hlast.
    + rewrite finalQuery_trim, Hidem. reflexivity.
    + assumption.
Qed.

Lemma finalQuery_witness :
  isWhiteSpace 114 = false.
Proof.
  destruct (finalQuery_is_never_blank (units "  risks ")) as (_ & H & _).
  apply (H 114%N (units "isks")). reflexivity.
Defined.

(** ** Handlers and renders together *)

Lemma truthy_opt_Some userId uid :
  Js.truthy_opt userId = Some uid -> userId = Some uid.
Proof. destruct userId as [[| a s] |]; cbn; congruence. Qed.

Lemma selectedChat_found chats chat :
  NoDup (map Chat.id chats) ->
  In chat chats ->
  selectedChat chats (Some (Chat.id chat)) = Some chat.
Proof.
  intros Hnd Hin.
  destruct (selectedChat chats (Some (Chat.id chat))) as [found |] eqn:E.
  - apply selectedChat_some in E as [Hfin Hfid]. injection Hfid as Hfid.
    f_equal. apply (unique_by_id chats); auto.
  - exfalso. apply (proj1 (selectedChat_none _ _) E chat Hin). reflexivity.
Qed.

Lemma NoDup_filter_ids (p : Chat.t -> bool) chats :
  NoDup (map Chat.id chats) -> NoDup (map Chat.id (filter p chats)).
Proof.
  induction chats as [| c chats IH]; cbn; [constructor |].
  intros H. inversion H as [| x l Hnotin Hnd]; subst.
  destruct (p c); cbn; [constructor |]; auto.
  intros Hin. apply Hnotin.
  apply in_map_iff in Hin as (d & Hd & Hin). apply in_map_iff.
  exists d. split; [assumption |]. apply filter_In in Hin as [Hin _].
  assumption.
Qed.

(** X12.  After a run that returned normally and showed no alert, the job
    that the trigger call names is the selected one.  While the snapshot
    does not hold a row with its identifier the render is the upload
    workspace with an empty draft; as soon as the snapshot holds the user's
    row with that identifier, the render is the workspace of that row. *)
Theorem completed_submission_shows_new_job env userId st auth channel :
  Auth.isLoading auth = false ->
  Auth.isAuthenticated auth = true ->
  fst (run (handleUploadAndAnalyze env userId) st) = Normal tt ->
  alerts (trace (snd (run (handleUploadAndAnalyze env userId) st))) = [] ->
  exists body,
    trigger_calls (trace (snd (run (handleUploadAndAnalyze env userId) st)))
    = [(RENDER_API_URL, body)]
    /\ selectedChatId
         (state (snd (run (handleUploadAndAnalyze env userId) st)))
       = Some (AnalyzeBody.chat_id body)
    /\ (~ In (AnalyzeBody.chat_id body) (map Chat.id (snapshot channel)) ->
        App auth userId false
            (state (snd (run (handleUploadAndAnalyze env userId) st)))
            channel
        = Workspace
            (SidebarProps.mk (filter (ownedBy userId) (snapshot channel))
                             None (SubResult.loading channel)
                             (SubResult.error channel))
            (UploadWorkspaceEl
               (UploadProps.mk None [] false 0 EmptyString)))
    /\ (forall chat,
           NoDup (map Chat.id (snapshot channel)) ->
           In chat (snapshot channel) ->
           Chat.id chat = AnalyzeBody.chat_id body ->
           userId = Some (Chat.user_id chat) ->
           App auth userId false
               (state (snd (run (handleUploadAndAnalyze env userId) st)))
               channel
           = Workspace
               (SidebarProps.mk (filter (ownedBy userId) (snapshot channel))
                                (Some chat) (SubResult.loading channel)
                                (SubResult.error channel))
               (ChatWorkspaceEl chat (SubResult.loading channel))).
Proof.
  intros Hl Ha.
  handler_by_cases env userId st; cbn; try discriminate.
  intros _ _. eexists. split; [reflexivity |].
  cbn [AnalyzeBody.chat_id triggerBody]. split; [reflexivity |]. split.
  - intros Habsent. rewrite App_signed_in by assumption.
    rewrite myChats_snapshot. cbn [selectedChatId selectedFile userQuery
      isProcessing uploadProgress progressMessage].
    assert (E : selectedChat (filter (ownedBy userId) (snapshot channel))
                             (Some chatId) = None).
    { apply selectedChat_none. intros c Hin [= ->]. apply Habsent.
      apply in_map. apply filter_In in Hin as [Hin _]. assumption. }
    rewrite E. reflexivity.
  - intros chat Hnd Hin Hid Hown.
    rewrite App_signed_in by assumption.
    rewrite myChats_snapshot. cbn [selectedChatId]. rewrite <- Hid.
    rewrite selectedChat_found.
    + reflexivity.
    + apply NoDup_filter_ids. assumption.
    + apply filter_In. split; [assumption |]. apply ownedBy_iff. assumption.
Qed.

Lemma completed_submission_witness :
  exists body,
    trigger_calls
      (trace (snd (run (handleUploadAndAnalyze Scenario.envOk (Some "u1"))
                       Scenario.draft)))
    = [(RENDER_API_URL, body)]
    /\ selectedChatId
         (state (snd (run (handleUploadAndAnalyze Scenario.envOk (Some "u1"))
                          Scenario.draft)))
       = Some (AnalyzeBody.chat_id body).
Proof.
  destruct (completed_submission_shows_new_job
              Scenario.envOk (Some "u1") Scenario.draft Scenario.signedIn
              (Scenario.channelOf Scenario.snapshot1)
              eq_refl eq_refl eq_refl eq_refl) as (body & H1 & H2 & _).
  exists body. split; assumption.
Defined.

(** X13.  "New Analysis" clears the selection, the selected file and the
    query, and nothing else: whatever the snapshot, the next render is the
    upload workspace without a file, and a submission started right away is
    stopped by the guard before any collaborator is called. *)
Theorem new_analysis_returns_to_empty_form env auth userId st channel :
  Auth.isLoading auth = false ->
  Auth.isAuthenticated auth = true ->
  App auth userId false (state (snd (run handleNewAnalysis st))) channel
  = Workspace
      (SidebarProps.mk (filter (ownedBy userId) (snapshot channel))
                       None (SubResult.loading channel)
                       (SubResult.error channel))
      (UploadWorkspaceEl
         (UploadProps.mk None [] (isProcessing st) (uploadProgress st)
                         (progressMessage st)))
  /\ trace (snd (run (bind handleNewAnalysis
                           (fun _ => handleUploadAndAnalyze env userId)) st))
     = [Alert "Please select a file and ensure you're logged in."].
Proof.
  intros Hl Ha. split.
  - rewrite App_signed_in by assumption. rewrite myChats_snapshot.
    unfold run, handleNewAnalysis. exec. cbn [snd state].
    assert (E : forall chats, selectedChat chats None = None).
    { intros chats. apply selectedChat_none. intros c _. discriminate. }
    rewrite E. reflexivity.
  - unfold run at 1. unfold bind at 1. unfold handleNewAnalysis. exec.
    rewrite handler_frame. rewrite handler_guard by (left; reflexivity).
    reflexivity.
Qed.

Lemma new_analysis_witness :
  trace (snd (run (bind handleNewAnalysis
                        (fun _ => handleUploadAndAnalyze Scenario.envOk
                                                         (Some "u1")))
                  Scenario.draft))
  = [Alert "Please select a file and ensure you're logged in."].
Proof.
  apply (new_analysis_returns_to_empty_form
           Scenario.envOk Scenario.signedIn (Some "u1") Scenario.draft
           (Scenario.channelOf Scenario.snapshot1) eq_refl eq_refl).
Defined.

(** X14.  Clicking a row of the sidebar list brings up the workspace of a
    row with that identifier, whatever was selected or drafted before; with
    distinct identifiers it is the very row that was clicked. *)
Theorem selecting_a_listed_chat_shows_it auth userId st channel chat :
  Auth.isLoading auth = false ->
  Auth.isAuthenticated auth = true ->
  In chat (myChats (SubResult.data channel) userId) ->
  exists shown sidebar,
    App auth userId false (state (snd (run (onSelectChat chat) st))) channel
    = Workspace sidebar (ChatWorkspaceEl shown (SubResult.loading channel))
    /\ Chat.id shown = Chat.id chat
    /\ In shown (snapshot channel)
    /\ userId = Some (Chat.user_id shown)
    /\ (NoDup (map Chat.id (snapshot channel)) -> shown = chat).
Proof.
  intros Hl Ha Hin. rewrite myChats_snapshot in Hin.
  rewrite App_signed_in by assumption. rewrite myChats_snapshot.
  unfold run, onSelectChat. exec. cbn [snd state].
  destruct (selectedChat (filter (ownedBy userId) (snapshot channel))
                         (Some (Chat.id chat))) as [shown |] eqn:E.
  - exists shown. eexists. split; [reflexivity |].
    apply selectedChat_some in E as [Hsin Hsid]. injection Hsid as Hsid.
    apply filter_In in Hsin as [Hsin Hown]. apply ownedBy_iff in Hown.
    apply filter_In in Hin as [Hin _].
    repeat split; auto.
    intros Hnd. apply (unique_by_id (snapshot channel)); auto.
  - exfalso. apply (proj1 (selectedChat_none _ _) E chat Hin). reflexivity.
Qed.

Lemma selecting_witness :
  exists shown sidebar,
    App Scenario.signedIn (Some "u1") false
        (state (snd (run (onSelectChat
                            (Scenario.job "j1" "u1" "processing" None
                                          "2026-02-01T10:00:00"))
                         Scenario.draft)))
        (Scenario.channelOf Scenario.snapshot1)
    = Workspace sidebar (ChatWorkspaceEl shown false)
    /\ Chat.id shown = "j1".
Proof.
  destruct (selecting_a_listed_chat_shows_it
              Scenario.signedIn (Some "u1") Scenario.draft
              (Scenario.channelOf Scenario.snapshot1)
              (Scenario.job "j1" "u1" "processing" None
                            "2026-02-01T10:00:00")
              eq_refl eq_refl (or_introl eq_refl))
    as (shown & sidebar & H1 & H2 & _).
  exists shown, sidebar. split; assumption.
Defined.

(** X15.  Without a user identifier no row is the user's: the list is
    empty, nothing can be selected, and the render is the upload
    workspace, whatever the snapshot and the selected identifier. *)
Theorem no_user_id_lists_nothing auth st channel :
  Auth.isLoading auth = false ->
  Auth.isAuthenticated auth = true ->
  App auth None false st channel
  = Workspace
      (SidebarProps.mk [] None (SubResult.loading channel)
                       (SubResult.error channel))
      (UploadWorkspaceEl
         (UploadProps.mk (selectedFile st) (userQuery st) (isProcessing st)
                         (uploadProgress st) (progressMessage st))).
Proof.
  intros Hl Ha. rewrite App_signed_in by assumption.
  rewrite myChats_snapshot.
  assert (E : filter (ownedBy None) (snapshot channel) = []).
  { induction (snapshot channel) as [| c l IH]; [reflexivity | exact IH]. }
  rewrite E. reflexivity.
Qed.

Lemma no_user_id_witness :
  App Scenario.signedIn None false Scenario.viewing
      (Scenario.channelOf Scenario.snapshot1)
  = Workspace
      (SidebarProps.mk [] None false None)
      (UploadWorkspaceEl
         (UploadProps.mk None [] true 75 PROGRESS_MESSAGES.processing)).
Proof.
  apply (no_user_id_lists_nothing Scenario.signedIn Scenario.viewing
           (Scenario.channelOf Scenario.snapshot1) eq_refl eq_refl).
Defined.

(** ** Presentation *)

(** X16.  The workspace of a chat shows at most one panel under its header.
    It shows none exactly when the chat is [completed] without a result
    text, or when its status is none of the four statuses; in the latter
    case the badge in the header still reads "Pending" (unless the status
    happens to name a property that every object inherits). *)
Theorem ChatWorkspace_shows_at_most_one_panel chat subLoading :
  (length (ChatView.panels (ChatWorkspace chat subLoading)) <= 1)%nat
  /\ (ChatView.panels (ChatWorkspace chat subLoading) = [] <->
      (Chat.status chat = "completed"
       /\ Js.truthy_opt (Chat.analysis_result chat) = None)
      \/ (Chat.status chat <> "completed"
          /\ Chat.status chat <> "processing"
          /\ Chat.status chat <> "pending"
          /\ Chat.status chat <> "failed"))
  /\ (Chat.status chat <> "completed" ->
      Chat.status chat <> "processing" ->
      Chat.status chat <> "pending" ->
      Chat.status chat <> "failed" ->
      ~ In (Chat.status chat) objectPrototypeKeys ->
      option_map Badge.label
                 (StatusBadge (ChatView.badgeStatus
                                 (ChatWorkspace chat subLoading)))
      = Some "Pending").
Proof.
  unfold ChatWorkspace. cbn [ChatView.panels ChatView.badgeStatus].
  destruct (String.eqb_spec (Chat.status chat) "completed") as [Ec | Ec].
  - rewrite Ec. cbn [String.eqb Ascii.eqb Bool.eqb orb app].
    destruct (Js.truthy_opt (Chat.analysis_result chat)) as [r |];
      cbn; (split; [lia |]); (split; [| congruence]).
    + split; [discriminate |]. intros [[_ H] | [H _]]; congruence.
    + split; auto.
  - destruct (String.eqb_spec (Chat.status chat) "processing") as [Ep | Ep].
    + rewrite Ep. cbn. split; [lia |]. split; [| congruence].
      split; [discriminate |]. intros [[H _] | (_ & H & _)]; congruence.
    + destruct (String.eqb_spec (Chat.status chat) "pending") as [Eq | Eq].
      * rewrite Eq. cbn. split; [lia |]. split; [| congruence].
        split; [discriminate |].
        intros [[H _] | (_ & _ & H & _)]; congruence.
      * destruct (String.eqb_spec (Chat.status chat) "failed") as [Ef | Ef].
        -- rewrite Ef. cbn. split; [lia |]. split; [| congruence].
           split; [discriminate |].
           intros [[H _] | (_ & _ & _ & H)]; congruence.
        -- cbn. split; [lia |]. split; [split; auto |].
           intros _ _ _ _ Hk. unfold StatusBadge, configs.
           destruct (String.eqb_spec (Chat.status chat) "pending");
             [contradiction |].
           destruct (String.eqb_spec (Chat.status chat) "processing");
             [contradiction |].
           destruct (String.eqb_spec (Chat.status chat) "completed");
             [contradiction |].
           destruct (String.eqb_spec (Chat.status chat) "failed");
             [contradiction |].
           destruct (Js.includes objectPrototypeKeys (Chat.status chat))
             eqn:Ei; [| reflexivity].
           apply includes_In in Ei. contradiction.
Qed.

Lemma ChatWorkspace_panel_witness :
  ChatView.panels
    (ChatWorkspace (Scenario.job "j3" "u1" "completed" None
                                 "2026-02-03T10:00:00") false)
  = [].
Proof.
  apply (ChatWorkspace_shows_at_most_one_panel
           (Scenario.job "j3" "u1" "completed" None "2026-02-03T10:00:00")
           false).
  left. split; reflexivity.
Defined.

(** X17.  The sidebar lists the user's rows in the order of the snapshot,
    one item per row.  An item is highlighted exactly when the main area
    shows a chat with its identifier, and the "no analyses yet" notice
    appears exactly when the list is empty and the channel is not loading;
    then the main area is the upload workspace. *)
Theorem sidebar_follows_the_render auth userId reset st channel sidebar main :
  App auth userId reset st channel = Workspace sidebar main ->
  map SidebarItem.key (SidebarView.items (Sidebar sidebar))
  = map Chat.id (filter (ownedBy userId) (snapshot channel))
  /\ (forall item,
         In item (SidebarView.items (Sidebar sidebar)) ->
         SidebarItem.isSelected item = true <->
         exists chat,
           main = ChatWorkspaceEl chat (SubResult.loading channel)
           /\ Chat.id chat = SidebarItem.key item)
  /\ (SidebarView.emptyNotice (Sidebar sidebar) = true <->
      filter (ownedBy userId) (snapshot channel) = []
      /\ SubResult.loading channel = false)
  /\ (SidebarView.emptyNotice (Sidebar sidebar) = true ->
      exists props, main = UploadWorkspaceEl props).
Proof.
  intros H. apply App_workspace in H as (_ & _ & _ & -> & ->).
  rewrite myChats_snapshot.
  set (mine := filter (ownedBy userId) (snapshot channel)).
  unfold Sidebar. cbn [SidebarProps.myChats SidebarProps.selectedChat
    SidebarProps.subLoading SidebarProps.subError SidebarView.items
    SidebarView.emptyNotice].
  split; [| split; [| split]].
  - rewrite map_map. reflexivity.
  - intros item Hin. apply in_map_iff in Hin as (c & <- & Hin).
    cbn [SidebarItem.isSelected SidebarItem.key].
    destruct (selectedChat mine (selectedChatId st)) as [sel |];
      cbn [isSelectedItem].
    + rewrite String.eqb_eq. split.
      * intros E. exists sel. split; [reflexivity | assumption].
      * intros (chat & [= <-] & E). assumption.
    + split; [discriminate |]. intros (chat & E & _). discriminate.
  - rewrite andb_true_iff, Nat.eqb_eq, negb_true_iff, length_zero_iff_nil.
    reflexivity.
  - rewrite andb_true_iff, Nat.eqb_eq, length_zero_iff_nil.
    intros [E _]. rewrite E. unfold selectedChat. cbn [find].
    eexists. reflexivity.
Qed.

Lemma sidebar_witness :
  map SidebarItem.key
      (SidebarView.items
         (Sidebar
            (SidebarProps.mk
               (myChats (SubResult.data (Scenario.channelOf
                                           Scenario.snapshot1))
                        (Some "u1"))
               (selectedChat
                  (myChats (SubResult.data (Scenario.channelOf
                                              Scenario.snapshot1))
                           (Some "u1"))
                  (Some "j1"))
               false None)))
  = ["j1"].
Proof.
  apply (sidebar_follows_the_render
           Scenario.signedIn (Some "u1") false Scenario.viewing
           (Scenario.channelOf Scenario.snapshot1) _ _ eq_refl).
Defined.

(** ** The password and sign-in pages *)

Ltac exec_page :=
  cbv beta iota zeta delta
    [Handler.bind Handler.emit Handler.get Handler.modify Handler.await
     Handler.ret Handler.throw Handler.evaluate Handler.try_catch_finally
     Handler.run messageOf
     ResetPassword.setError ResetPassword.setIsSubmitting
     ResetPassword.setSuccess
     ResetPassword.newPassword ResetPassword.confirmPassword
     ResetPassword.isSubmitting ResetPassword.error ResetPassword.success
     Login.view Login.email Login.password fst snd].

Lemma jsstring_eqb_eq a b : jsstring_eqb a b = true <-> a = b.
Proof.
  unfold jsstring_eqb. destruct (list_eq_dec N.eq_dec a b); split;
    congruence.
Qed.

(** The ways [handleSubmit] can go. *)
Lemma handleSubmit_cases env st :
  ((length (ResetPassword.newPassword st) < 6)%nat
   /\ Handler.run (ResetPassword.handleSubmit env) st
      = (Normal tt,
         (ResetPassword.mkState
            (ResetPassword.newPassword st) (ResetPassword.confirmPassword st)
            (ResetPassword.isSubmitting st)
            "Password must be at least 6 characters."
            (ResetPassword.success st), [])))
  \/ ((6 <= length (ResetPassword.newPassword st))%nat
      /\ ResetPassword.newPassword st <> ResetPassword.confirmPassword st
      /\ Handler.run (ResetPassword.handleSubmit env) st
         = (Normal tt,
            (ResetPassword.mkState
               (ResetPassword.newPassword st)
               (ResetPassword.confirmPassword st)
               (ResetPassword.isSubmitting st)
               "Passwords do not match."
               (ResetPassword.success st), [])))
  \/ ((6 <= length (ResetPassword.newPassword st))%nat
      /\ ResetPassword.newPassword st = ResetPassword.confirmPassword st
      /\ ((ResetPassword.changePassword env (ResetPassword.newPassword st)
           = Resolved (ResetPassword.ChangeResult.mk None)
           /\ Handler.run (ResetPassword.handleSubmit env) st
              = (Normal tt,
                 (ResetPassword.mkState
                    (ResetPassword.newPassword st)
                    (ResetPassword.confirmPassword st)
                    false EmptyString true,
                  [ResetPassword.ChangePassword
                     (ResetPassword.newPassword st);
                   ResetPassword.ScheduleDone 2500])))
          \/ (ResetPassword.changePassword
                env (ResetPassword.newPassword st)
              <> Resolved (ResetPassword.ChangeResult.mk None)
              /\ (forall reason,
                     ResetPassword.changePassword
                       env (ResetPassword.newPassword st)
                     = Rejected reason ->
                     reason <> Undefined /\ reason <> Null)
              /\ exists msg,
                   Js.truthy msg = true
                   /\ Handler.run (ResetPassword.handleSubmit env) st
                      = (Normal tt,
                         (ResetPassword.mkState
                            (ResetPassword.newPassword st)
                            (ResetPassword.confirmPassword st)
                            false msg (ResetPassword.success st),
                          [ResetPassword.ChangePassword
                             (ResetPassword.newPassword st)])))
          \/ (exists reason,
                 ResetPassword.changePassword
                   env (ResetPassword.newPassword st)
                 = Rejected reason
                 /\ (reason = Undefined \/ reason = Null)
                 /\ Handler.run (ResetPassword.handleSubmit env) st
                    = (match messageOf reason with
                       | Normal _ => Normal tt
                       | Throw typeError => Throw typeError
                       end,
                       (ResetPassword.mkState
                          (ResetPassword.newPassword st)
                          (ResetPassword.confirmPassword st)
                          false EmptyString (ResetPassword.success st),
                        [ResetPassword.ChangePassword
                           (ResetPassword.newPassword st)]))))).
Proof.
  destruct st as [np cp sub err suc].
  cbn [ResetPassword.newPassword ResetPassword.confirmPassword
       ResetPassword.isSubmitting ResetPassword.success].
  unfold ResetPassword.handleSubmit. exec_page.
  destruct (Nat.ltb_spec (length np) 6) as [Hshort | Hlong].
  - left. split; [assumption | reflexivity].
  - right. destruct (jsstring_eqb np cp) eqn:Eeq; cbn [negb].
    + apply jsstring_eqb_eq in Eeq. subst cp. right.
      split; [assumption |]. split; [reflexivity |].
      destruct (ResetPassword.changePassword env np)
        as [[[[[[| a s] |]] |]] | [msg | | |]].
      * right; left. split; [discriminate |]. split; [discriminate |].
        exists ResetPassword.EXPIRED. split; reflexivity.
      * right; left. split; [discriminate |]. split; [discriminate |].
        exists (String a s). split; reflexivity.
      * right; left. split; [discriminate |]. split; [discriminate |].
        exists ResetPassword.EXPIRED. split; reflexivity.
      * left. split; reflexivity.
      * right; left. split; [discriminate |].
        split; [intros reason [= <-]; split; discriminate |].
        exists (Js.or_else (Some msg) ResetPassword.EXPIRED). split.
        -- destruct msg; reflexivity.
        -- reflexivity.
      * right; left. split; [discriminate |].
        split; [intros reason [= <-]; split; discriminate |].
        exists ResetPassword.EXPIRED. split; reflexivity.
      * right; right. exists Undefined. split; [reflexivity |].
        split; [left; reflexivity | reflexivity].
      * right; right. exists Null. split; [reflexivity |].
        split; [right; reflexivity | reflexivity].
    + left. split; [assumption |]. split.
      * intros E. apply jsstring_eqb_eq in E. congruence.
      * reflexivity.
Qed.

(** X18.  The reset page hands a password to the authentication service at
    most once per submission, and only a password of at least six code
    units that is equal to its confirmation; a shorter or unconfirmed
    password never leaves the page. *)
Theorem password_sent_only_when_valid env st :
  (length
     (filter (fun e => match e with
                       | ResetPassword.ChangePassword _ => true
                       | _ => false
                       end)
             (snd (snd (Handler.run (ResetPassword.handleSubmit env) st))))
   <= 1)%nat
  /\ forall pw,
       In (ResetPassword.ChangePassword pw)
          (snd (snd (Handler.run (ResetPassword.handleSubmit env) st))) ->
       pw = ResetPassword.newPassword st
       /\ pw = ResetPassword.confirmPassword st
       /\ (6 <= length pw)%nat.
Proof.
  destruct (handleSubmit_cases env st)
    as [[_ H] | [(_ & _ & H)
                | (Hlen & Heq & [[_ H] | [(_ & _ & msg & _ & H)
                                         | (reason & _ & _ & H)]])]];
    rewrite H; cbn [snd filter length]; (split; [lia |]);
    intros pw Hin; cbn [In] in Hin;
    repeat match goal with
           | H : _ \/ _ |- _ => destruct H
           | H : False |- _ => destruct H
           | H : ResetPassword.ChangePassword _ = _ |- _ =>
               injection H as <-
           | H : ResetPassword.ScheduleDone _ = _ |- _ => discriminate H
           end; auto.
Qed.

Lemma password_sent_witness :
  units "secret1" = units "secret1" /\ (6 <= length (units "secret1"))%nat.
Proof.
  destruct (password_sent_only_when_valid
              (ResetPassword.mkEnv
                 (fun _ => Resolved (ResetPassword.ChangeResult.mk None)))
              (ResetPassword.mkState (units "secret1") (units "secret1")
                                     false EmptyString false))
    as (_ & H).
  destruct (H (units "secret1")) as (_ & H1 & H2).
  - left. reflexivity.
  - split; assumption.
Defined.

(** X19.  [handleSubmit] never touches the two password fields, and it
    ends in one of three ways.  The service accepted the password: the
    success flag is set, the error text is empty and the return to the
    sign-in page is scheduled 2500 ms later.  Or the handler returns
    normally with no return scheduled, the success flag as before and an
    error text that is not empty.  Or the call to the service was rejected
    with [undefined] or [null] for a reason: reading [err.message] in the
    [catch] block then throws, the handler ends with that [TypeError], the
    error text stays empty, nothing is scheduled and the success flag is as
    before.  Once the service has been called the submitting flag is off in
    each of the three.  A valid submission that the service rejects with
    [undefined] or [null] does end the third way. *)
Theorem reset_password_outcome env st :
  let r := Handler.run (ResetPassword.handleSubmit env) st in
  ResetPassword.newPassword (fst (snd r)) = ResetPassword.newPassword st
  /\ ResetPassword.confirmPassword (fst (snd r))
     = ResetPassword.confirmPassword st
  /\ ((fst r = Normal tt
       /\ ResetPassword.changePassword env (ResetPassword.newPassword st)
          = Resolved (ResetPassword.ChangeResult.mk None)
       /\ In (ResetPassword.ScheduleDone 2500) (snd (snd r))
       /\ ResetPassword.success (fst (snd r)) = true
       /\ ResetPassword.error (fst (snd r)) = EmptyString
       /\ ResetPassword.isSubmitting (fst (snd r)) = false)
      \/ (fst r = Normal tt
          /\ (forall d, ~ In (ResetPassword.ScheduleDone d) (snd (snd r)))
          /\ ResetPassword.success (fst (snd r)) = ResetPassword.success st
          /\ Js.truthy (ResetPassword.error (fst (snd r))) = true
          /\ (ResetPassword.isSubmitting (fst (snd r)) = false
              \/ (snd (snd r) = []
                  /\ ResetPassword.isSubmitting (fst (snd r))
                     = ResetPassword.isSubmitting st)))
      \/ ((exists typeError, fst r = Throw typeError)
          /\ (exists reason,
                 ResetPassword.changePassword
                   env (ResetPassword.newPassword st)
                 = Rejected reason
                 /\ (reason = Undefined \/ reason = Null))
          /\ (forall d, ~ In (ResetPassword.ScheduleDone d) (snd (snd r)))
          /\ ResetPassword.success (fst (snd r)) = ResetPassword.success st
          /\ ResetPassword.error (fst (snd r)) = EmptyString
          /\ ResetPassword.isSubmitting (fst (snd r)) = false))
  /\ ((6 <= length (ResetPassword.newPassword st))%nat ->
      ResetPassword.newPassword st = ResetPassword.confirmPassword st ->
      (ResetPassword.changePassword env (ResetPassword.newPassword st)
       = Rejected Undefined ->
       fst r
       = Throw (Error
                  "Cannot read properties of undefined (reading 'message')"))
      /\ (ResetPassword.changePassword env (ResetPassword.newPassword st)
          = Rejected Null ->
          fst r
          = Throw (Error
                     "Cannot read properties of null (reading 'message')"))).
Proof.
  cbv zeta.
  destruct (handleSubmit_cases env st)
    as [[Hlen H] | [(Hlen & Heq & H)
                   | (Hlen & Heq & [[Hok H]
                                   | [(Hno & Hnot & msg & Hmsg & H)
                                     | (reason & Hrej & Hnull & H)]])]];
    rewrite H; cbn [fst snd ResetPassword.newPassword
                    ResetPassword.confirmPassword ResetPassword.success
                    ResetPassword.error ResetPassword.isSubmitting];
    (split; [reflexivity |]); (split; [reflexivity |]); split.
  - right; left. repeat split; auto.
  - intros Hlong. lia.
  - right; left. repeat split; auto.
  - intros _ Hsame. contradiction.
  - left. repeat split; auto. right. left. reflexivity.
  - intros _ _. rewrite Hok. split; discriminate.
  - right; left. repeat split; auto. intros d [E | []]. discriminate.
  - intros _ _. split; intros E; destruct (Hnot _ E); congruence.
  - right; right. split.
    + destruct Hnull as [-> | ->]; eexists; reflexivity.
    + split; [exists reason; auto |].
      repeat split; auto. intros d [E | []]. discriminate.
  - intros _ _. rewrite Hrej. split; intros [= ->]; reflexivity.
Qed.

Lemma reset_password_witness :
  fst (Handler.run
         (ResetPassword.handleSubmit
            (ResetPassword.mkEnv (fun _ => Rejected Undefined)))
         (ResetPassword.mkState (units "secret1") (units "secret1")
                                false "old" false))
  = Throw (Error "Cannot read properties of undefined (reading 'message')").
Proof.
  destruct (reset_password_outcome
              (ResetPassword.mkEnv (fun _ => Rejected Undefined))
              (ResetPassword.mkState (units "secret1") (units "secret1")
                                     false "old" false))
    as (_ & _ & _ & H).
  apply H.
  - cbn. lia.
  - reflexivity.
  - reflexivity.
Defined.

(** X20.  [handleAuth] never throws and changes nothing of the page state.
    With a blank email it only asks for one; with a password under six code
    units, outside the "forgot" view, it only says so; in both cases no
    credentials leave the page.  Otherwise it makes the one call of the
    current view, with the email as typed (not trimmed) and, in the "forgot"
    view, without looking at the password; a rejected call is logged and
    nothing else. *)
Theorem credentials_sent_only_when_filled env st :
  let r := Handler.run (Login.handleAuth env) st in
  let call :=
    match Login.view st with
    | Login.login => Login.SignIn (Login.email st) (Login.password st)
    | Login.signup => Login.SignUp (Login.email st) (Login.password st)
    | Login.forgot => Login.ResetPassword (Login.email st)
    end in
  fst r = Normal tt
  /\ fst (snd r) = st
  /\ (trim (Login.email st) = [] ->
      snd (snd r) = [Login.Alert "Please enter your email"])
  /\ (trim (Login.email st) <> [] ->
      Login.view st <> Login.forgot ->
      (length (Login.password st) < 6)%nat ->
      snd (snd r) = [Login.Alert "Password must be 6+ characters"])
  /\ (trim (Login.email st) <> [] ->
      Login.view st = Login.forgot
      \/ (6 <= length (Login.password st))%nat ->
      snd (snd r) = [call]
      \/ exists msg,
           snd (snd r) = [call; Login.ConsoleError "Auth error:" msg]).
Proof.
  cbv zeta. destruct st as [v em pw].
  cbn [Login.view Login.email Login.password].
  unfold Login.handleAuth. exec_page.
  destruct (trim em) as [| u rest] eqn:Etrim.
  - repeat split; try reflexivity; intros; congruence.
  - destruct v; cbn [andb].
    + destruct (Nat.ltb_spec (length pw) 6) as [Hshort | Hlong].
      * repeat split; try reflexivity; intros; try congruence.
        match goal with
        | H : _ \/ _ |- _ => destruct H; [discriminate | lia]
        end.
      * destruct (Login.signInEmailPassword env em pw) as [[] | msg];
          repeat split; try reflexivity; intros; try congruence; try lia;
          try (left; reflexivity); try (right; eexists; reflexivity).
    + destruct (Nat.ltb_spec (length pw) 6) as [Hshort | Hlong].
      * repeat split; try reflexivity; intros; try congruence.
        match goal with
        | H : _ \/ _ |- _ => destruct H; [discriminate | lia]
        end.
      * destruct (Login.signUpEmailPassword env em pw) as [[] | msg];
          repeat split; try reflexivity; intros; try congruence; try lia;
          try (left; reflexivity); try (right; eexists; reflexivity).
    + destruct (Login.resetPassword env em) as [[] | msg];
        repeat split; try reflexivity; intros; try congruence;
        try (left; reflexivity); try (right; eexists; reflexivity).
Qed.

Lemma credentials_witness :
  snd (snd (Handler.run
              (Login.handleAuth
                 (Login.mkEnv (fun _ _ => Resolved tt)
                              (fun _ _ => Resolved tt)
                              (fun _ => Rejected (Error "network"))
                              (fun _ => true) (Resolved tt)))
              (Login.mkState Login.forgot (units " a@b.c ") [])))
  = [Login.ResetPassword (units " a@b.c ");
     Login.ConsoleError "Auth error:" (Error "network")].
Proof.
  destruct (credentials_sent_only_when_filled
              (Login.mkEnv (fun _ _ => Resolved tt)
                           (fun _ _ => Resolved tt)
                           (fun _ => Rejected (Error "network"))
                           (fun _ => true) (Resolved tt))
              (Login.mkState Login.forgot (units " a@b.c ") []))
    as (_ & _ & _ & _ & H).
  destruct H as [H | (msg & H)].
  - vm_compute. discriminate.
  - left. reflexivity.
  - vm_compute in H. discriminate.
  - rewrite H. vm_compute in H. injection H as <-. reflexivity.
Defined.

(** X21.  "Terminate all sessions" does nothing unless the user confirms.
    Once confirmed, local and session storage are cleared and the page is
    reloaded whether signing out succeeded or not; the success notice is
    shown only when it succeeded.  The handler never throws. *)
Theorem terminate_all_sessions env st :
  let r := Handler.run (Login.handleGlobalSignOut env) st in
  let question := "⚠️ Terminate ALL sessions?" in
  fst r = Normal tt
  /\ fst (snd r) = st
  /\ (Login.confirm env question = false ->
      snd (snd r) = [Login.Confirm question])
  /\ (Login.confirm env question = true ->
      (Login.signOutAll env = Resolved tt
       /\ snd (snd r)
          = [Login.Confirm question; Login.SignOutAll;
             Login.ClearLocalStorage; Login.ClearSessionStorage;
             Login.Alert "✅ All sessions terminated"; Login.Reload])
      \/ ((exists msg, Login.signOutAll env = Rejected msg)
          /\ snd (snd r)
             = [Login.Confirm question; Login.SignOutAll;
                Login.ClearLocalStorage; Login.ClearSessionStorage;
                Login.Reload])).
Proof.
  cbv zeta. unfold Login.handleGlobalSignOut. exec_page.
  destruct (Login.confirm env _).
  - destruct (Login.signOutAll env) as [[] | msg];
      repeat split; try reflexivity; try discriminate; intros _.
    + left. split; reflexivity.
    + right. split; [eauto | reflexivity].
  - repeat split; try reflexivity; discriminate.
Qed.

Lemma terminate_all_sessions_witness :
  snd (snd (Handler.run
              (Login.handleGlobalSignOut
                 (Login.mkEnv (fun _ _ => Resolved tt)
                              (fun _ _ => Resolved tt)
                              (fun _ => Resolved tt)
                              (fun _ => false) (Resolved tt)))
              (Login.mkState Login.login [] [])))
  = [Login.Confirm "⚠️ Terminate ALL sessions?"].
Proof.
  apply (terminate_all_sessions
           (Login.mkEnv (fun _ _ => Resolved tt) (fun _ _ => Resolved tt)
                        (fun _ => Resolved tt) (fun _ => false)
                        (Resolved tt))
           (Login.mkState Login.login [] [])).
  reflexivity.
Defined.

(** ** The stand-alone uploader *)

(** X22.  [FileUpload] writes at most one row per selection, always with
    status [processing], the given user and the name of the file.  A store
    error is alerted and nothing is written.  An answer without metadata
    makes the handler throw, with nothing to catch it; metadata without an
    identifier is written all the same, with no file identifier. *)
Theorem FileUpload_writes_processing_rows env userId file :
  let r := FileUploadComponent.handleFileChange env userId file in
  (length (filter (fun e => match e with
                            | FileUploadComponent.Mutate _ => true
                            | _ => false
                            end) (snd r)) <= 1)%nat
  /\ (forall object,
         In (FileUploadComponent.Mutate object) (snd r) ->
         FileUploadComponent.InsertObject.status object = "processing"
         /\ FileUploadComponent.InsertObject.user_id object = userId
         /\ exists f,
              file = Some f
              /\ FileUploadComponent.InsertObject.file_name object
                 = File.name f)
  /\ (forall f res e,
         file = Some f ->
         FileUploadComponent.upload env f = Resolved res ->
         FileUploadComponent.StorageResult.error res = Some e ->
         exists msg,
           r = (Normal tt,
                [FileUploadComponent.Upload f; FileUploadComponent.Alert msg]))
  /\ (forall f res,
         file = Some f ->
         FileUploadComponent.upload env f = Resolved res ->
         FileUploadComponent.StorageResult.error res = None ->
         match FileUploadComponent.StorageResult.fileMetadata res with
         | None => exists msg, r = (Throw msg, [FileUploadComponent.Upload f])
         | Some meta =>
             In (FileUploadComponent.Mutate
                   (FileUploadComponent.InsertObject.mk
                      userId (FileMeta.id meta) (File.name f) "processing"))
                (snd r)
         end).
Proof.
  cbv zeta. split; [| split; [| split]].
  - unfold FileUploadComponent.handleFileChange.
    destruct file as [f |]; [| cbn; lia].
    destruct (FileUploadComponent.upload env f) as [[[meta |] [e |]] | msg];
      cbn; try lia.
    destruct (FileUploadComponent.insertChat env _); cbn; lia.
  - intros object. unfold FileUploadComponent.handleFileChange.
    destruct file as [f |]; [| intros []].
    destruct (FileUploadComponent.upload env f) as [[[meta |] [e |]] | msg];
      cbn [FileUploadComponent.StorageResult.error
           FileUploadComponent.StorageResult.fileMetadata snd];
      try (destruct (FileUploadComponent.insertChat env _));
      cbn [snd In]; intros H;
      repeat match goal with
             | H : _ \/ _ |- _ => destruct H
             | H : False |- _ => destruct H
             | H : FileUploadComponent.Mutate _ = _ |- _ => injection H as <-
             | H : _ = FileUploadComponent.Mutate _ |- _ =>
                 try discriminate H
             end;
      cbn; repeat split; eauto.
  - intros f res e -> Hup Herr.
    unfold FileUploadComponent.handleFileChange. rewrite Hup, Herr.
    eexists. reflexivity.
  - intros f res -> Hup Herr.
    unfold FileUploadComponent.handleFileChange. rewrite Hup, Herr.
    destruct (FileUploadComponent.StorageResult.fileMetadata res) as [meta |].
    + cbv zeta. unfold FileUploadComponent.INSERT_CHAT.
      destruct (FileUploadComponent.insertChat env _); cbn; auto.
    + eexists. reflexivity.
Qed.

Lemma FileUpload_witness :
  exists msg,
    FileUploadComponent.handleFileChange
      (FileUploadComponent.mkEnv
         (fun _ => Resolved (FileUploadComponent.StorageResult.mk
                               None (Some (ErrorObj.mk (Some "denied")))))
         (fun _ => Resolved tt))
      (Some "u1") (Some Scenario.pdf)
    = (Normal tt,
       [FileUploadComponent.Upload Scenario.pdf;
        FileUploadComponent.Alert msg]).
Proof.
  destruct (FileUpload_writes_processing_rows
              (FileUploadComponent.mkEnv
                 (fun _ => Resolved (FileUploadComponent.StorageResult.mk
                                       None
                                       (Some (ErrorObj.mk (Some "denied")))))
                 (fun _ => Resolved tt))
              (Some "u1") (Some Scenario.pdf)) as (_ & _ & H & _).
  apply (H Scenario.pdf _ (ErrorObj.mk (Some "denied")) eq_refl eq_refl
           eq_refl).
Defined.

(** ** The password-reset link *)

Lemma splitOn_app c a b :
  Url.freeOf c a = true ->
  Url.splitOn c (a ++ String c b) = a :: Url.splitOn c b.
Proof.
  induction a as [| x a IH]; cbn.
  - intros _. rewrite Ascii.eqb_refl. reflexivity.
  - intros H. apply andb_true_iff in H as [Hx Ha].
    apply negb_true_iff in Hx. rewrite Hx, (IH Ha). reflexivity.
Qed.

Lemma splitOn_free c a :
  Url.freeOf c a = true -> Url.splitOn c a = [a].
Proof.
  induction a as [| x a IH]; cbn; [reflexivity |].
  intros H. apply andb_true_iff in H as [Hx Ha].
  apply negb_true_iff in Hx. rewrite Hx, (IH Ha). reflexivity.
Qed.

Lemma splitOn_nonempty c s : Url.splitOn c s <> [].
Proof.
  destruct s as [| a s]; cbn; [discriminate |].
  destruct (Ascii.eqb a c); [discriminate |].
  destruct (Url.splitOn c s); discriminate.
Qed.

Lemma get_first name value rest :
  Url.get ((name, value) :: rest) name = Some value.
Proof. unfold Url.get. cbn. rewrite String.eqb_refl. reflexivity. Qed.

(** X23.  The two links that the comment in the source describes are
    recognised: a query [?refreshToken=<token>&type=passwordReset], for
    every token without [&] and whatever the fragment, and a fragment
    [#type=recovery] alone or followed by more parameters, whatever the
    query.  Once auth has finished loading the render is then the
    new-password page, signed in or not. *)
Theorem documented_reset_links_are_recognised :
  (forall token hash,
      Url.freeOf "&" token = true ->
      initialIsPasswordReset
        ("?refreshToken=" ++ token ++ "&type=passwordReset") hash
      = true)
  /\ (forall search, initialIsPasswordReset search "#type=recovery" = true)
  /\ (forall search more,
         initialIsPasswordReset search ("#type=recovery&" ++ more) = true)
  /\ (forall auth userId st channel search hash,
         Auth.isLoading auth = false ->
         initialIsPasswordReset search hash = true ->
         App auth userId (initialIsPasswordReset search hash) st channel
         = ResetPasswordPage).
Proof.
  split; [| split; [| split]].
  - intros token hash Hfree. unfold initialIsPasswordReset.
    assert (E : Url.get
                  (Url.URLSearchParams
                     ("?refreshToken=" ++ token ++ "&type=passwordReset"))
                  "type"
                = Some "passwordReset").
    { unfold Url.URLSearchParams. cbn [append].
      change (String "r" (String "e" (String "f" (String "r" (String "e"
               (String "s" (String "h" (String "T" (String "o" (String "k"
               (String "e" (String "n" (String "="
                 (token ++ "&type=passwordReset"))))))))))))))
        with (("refreshToken=" ++ token) ++ String "&" "type=passwordReset").
      unfold Url.parse. rewrite splitOn_app.
      - cbn. destruct (Url.cut "=" token) as [n v]. reflexivity.
      - exact Hfree. }
    rewrite E. reflexivity.
  - intros search. unfold initialIsPasswordReset.
    assert (E : Url.get (Url.URLSearchParams (Url.stripHash "#type=recovery"))
                        "type" = Some "recovery") by reflexivity.
    rewrite E. cbn [Url.valueIs].
    destruct (Url.valueIs _ _); reflexivity.
  - intros search more. unfold initialIsPasswordReset.
    assert (E : Url.get
                  (Url.URLSearchParams
                     (Url.stripHash ("#type=recovery&" ++ more)))
                  "type" = Some "recovery").
    { cbn [append Url.stripHash]. unfold Url.URLSearchParams, Url.parse.
      change (String "t" (String "y" (String "p" (String "e" (String "="
               (String "r" (String "e" (String "c" (String "o" (String "v"
               (String "e" (String "r" (String "y" (String "&" more))))))))))))))
        with ("type=recovery" ++ String "&" more).
      rewrite splitOn_app by reflexivity. reflexivity. }
    rewrite E. cbn [Url.valueIs].
    destruct (Url.valueIs _ _); reflexivity.
  - intros auth userId st channel search hash Hl ->.
    unfold App. rewrite Hl. reflexivity.
Qed.

Lemma get_absent params name :
  (forall p, In p params -> fst p <> name) -> Url.get params name = None.
Proof.
  intros H. unfold Url.get.
  destruct (find (fun p => String.eqb (fst p) name) params) as [p |] eqn:E;
    [| reflexivity].
  apply find_some in E as [Hin Hp]. apply String.eqb_eq in Hp.
  exfalso. apply (H p Hin Hp).
Qed.

Lemma get_type_first v rest :
  Url.freeOf "&" v = true ->
  Url.get (Url.parse ("type=" ++ v ++ "&" ++ rest)) "type"
  = Some (Url.decode v).
Proof.
  intros Hfree. cbn [append].
  change (String "t" (String "y" (String "p" (String "e" (String "="
           (v ++ String "&" rest))))))
    with (("type=" ++ v) ++ String "&" rest).
  unfold Url.parse. rewrite splitOn_app.
  - cbn [flat_map append Url.cut Ascii.eqb Bool.eqb app].
    apply get_first.
  - exact Hfree.
Qed.

(** X24.  Only the first [type] parameter of the query and the first of the
    fragment count, and the link is a reset link when either says so.  In a
    query that starts with [type=<v>&...] the query says so exactly when
    [<v>], once plus signs and percent escapes are decoded, is
    [passwordReset]: a later [type=passwordReset] does not make it one.
    Such a link is a reset link exactly when that holds or the first [type]
    parameter of the fragment is [recovery] or [passwordReset]; when the
    fragment has no parameter named [type], exactly when that holds.  In
    the same way a fragment that starts with [type=<w>&...] says so exactly
    when [<w>] decoded is [recovery] or [passwordReset].  When neither the
    query nor the fragment has a parameter named [type], the link is not a
    reset link. *)
Theorem first_type_parameter_decides :
  (forall v rest hash,
      Url.freeOf "&" v = true ->
      Url.get (Url.URLSearchParams ("?type=" ++ v ++ "&" ++ rest)) "type"
      = Some (Url.decode v)
      /\ initialIsPasswordReset ("?type=" ++ v ++ "&" ++ rest) hash
         = String.eqb (Url.decode v) "passwordReset"
           || Url.valueIs
                (Url.get (Url.URLSearchParams (Url.stripHash hash)) "type")
                "recovery"
           || Url.valueIs
                (Url.get (Url.URLSearchParams (Url.stripHash hash)) "type")
                "passwordReset")
  /\ (forall v rest hash,
         Url.freeOf "&" v = true ->
         (forall p,
             In p (Url.URLSearchParams (Url.stripHash hash)) ->
             fst p <> "type") ->
         initialIsPasswordReset ("?type=" ++ v ++ "&" ++ rest) hash
         = String.eqb (Url.decode v) "passwordReset")
  /\ (forall search w rest,
         Url.freeOf "&" w = true ->
         initialIsPasswordReset search ("#type=" ++ w ++ "&" ++ rest)
         = Url.valueIs (Url.get (Url.URLSearchParams search) "type")
                       "passwordReset"
           || String.eqb (Url.decode w) "recovery"
           || String.eqb (Url.decode w) "passwordReset")
  /\ (forall search hash,
         (forall p, In p (Url.URLSearchParams search) -> fst p <> "type") ->
         (forall p,
             In p (Url.URLSearchParams (Url.stripHash hash)) ->
             fst p <> "type") ->
         initialIsPasswordReset search hash = false).
Proof.
  assert (Hquery : forall v rest,
             Url.freeOf "&" v = true ->
             Url.get (Url.URLSearchParams ("?type=" ++ v ++ "&" ++ rest))
                     "type"
             = Some (Url.decode v)).
  { intros v rest Hfree. apply (get_type_first v rest Hfree). }
  split; [| split; [| split]].
  - intros v rest hash Hfree. split; [apply Hquery; exact Hfree |].
    unfold initialIsPasswordReset. rewrite (Hquery v rest Hfree).
    reflexivity.
  - intros v rest hash Hfree Hh. unfold initialIsPasswordReset.
    rewrite (Hquery v rest Hfree), (get_absent _ _ Hh). cbn [Url.valueIs].
    rewrite !orb_false_r. reflexivity.
  - intros search w rest Hfree. unfold initialIsPasswordReset.
    assert (E : Url.get
                  (Url.URLSearchParams
                     (Url.stripHash ("#type=" ++ w ++ "&" ++ rest)))
                  "type"
                = Some (Url.decode w)).
    { change (Url.stripHash ("#type=" ++ w ++ "&" ++ rest))
        with ("type=" ++ w ++ "&" ++ rest).
      unfold Url.URLSearchParams.
      change ("type=" ++ w ++ "&" ++ rest)
        with (String "t" ("ype=" ++ w ++ "&" ++ rest)).
      cbv beta iota.
      destruct (Ascii.eqb_spec "t"%char "?"%char) as [E | _];
        [discriminate E |].
      apply (get_type_first w rest Hfree). }
    rewrite E. reflexivity.
  - intros search hash Hs Hh. unfold initialIsPasswordReset.
    rewrite (get_absent _ _ Hs), (get_absent _ _ Hh). reflexivity.
Qed.

Lemma first_type_parameter_witness :
  initialIsPasswordReset "?type=signup&type=passwordReset" EmptyString
  = false
  /\ initialIsPasswordReset "?type=password%52eset&x=1" EmptyString = true
  /\ initialIsPasswordReset "?type=signup&x=1" "#type=recovery" = true
  /\ initialIsPasswordReset "?type=signup&x=1" "#type=signup&type=recovery"
     = false
  /\ initialIsPasswordReset "?refreshToken=abc" "#section" = false.
Proof.
  destruct first_type_parameter_decides
    as (Hboth & Hquery & Hfragment & Hnone).
  split; [| split; [| split; [| split]]].
  - refine (eq_trans (Hquery "signup" "type=passwordReset" EmptyString
                             eq_refl _) eq_refl).
    intros p Hin. cbn in Hin. destruct Hin.
  - refine (eq_trans (Hquery "password%52eset" "x=1" EmptyString
                             eq_refl _) eq_refl).
    intros p Hin. cbn in Hin. destruct Hin.
  - destruct (Hboth "signup" "x=1" "#type=recovery" eq_refl) as [_ H].
    exact (eq_trans H eq_refl).
  - exact (eq_trans (Hfragment "?type=signup&x=1" "signup" "type=recovery"
                               eq_refl) eq_refl).
  - apply Hnone; intros p Hin; cbn in Hin;
      destruct Hin as [<- | []]; discriminate.
Defined.

Lemma documented_reset_links_witness :
  initialIsPasswordReset "?refreshToken=4f2a=9c&type=passwordReset"
                         EmptyString
  = true
  /\ App (Auth.mk true false) (Some "u1")
         (initialIsPasswordReset EmptyString "#type=recovery&access_token=x")
         Scenario.draft (Scenario.channelOf Scenario.snapshot1)
     = ResetPasswordPage.
Proof.
  destruct documented_reset_links_are_recognised
    as (Hquery & _ & Hfragment & Hrender).
  split.
  - apply (Hquery "4f2a=9c" EmptyString). reflexivity.
  - apply Hrender; [reflexivity |].
    apply (Hfragment EmptyString "access_token=x").
Defined.
